(** * EnvioTurnosSenior: grid conversion and bounded-concurrency submission

    A shallow embedding of [data_convert.py] and
    [envio_escala_api_corrigido.py], and the properties of the two engines
    checked against it.

    - A Python [str] is a [string]: the bytes of its UTF-8 text.  The [str]
      methods of [Py] are those of Python on ASCII text; a byte above 127 is
      taken as a character that is neither white space, nor a digit, nor a
      letter with an upper case.
    - The numbers pandas reads are exact rationals: the rounding of floats
      and the overflow of 64-bit integers are left out.
    - pandas and [datetime.strptime] are interfaces ([Pandas], [Datetime]);
      [aiohttp] is the oracle [servidor], which says how the remote end
      answers each attempt.
    - The wall-clock fields of a result ([tempo_resposta], [timestamp]), the
      log and the console output are left out. *)

From Stdlib Require Import ZArith QArith Ascii String List Lia DecimalString.
From Stdlib Require Import DecimalPos.
From stdpp Require Import base option strings list gmap.
From stdpp Require Import sorting.

Close Scope Q_scope.
Local Open Scope nat_scope.

(** ** Python [str] methods *)

Module Py.

(** [c.isspace()] on the ASCII range: TAB..CR, FS..US and the space. *)
Definition isspace (c : ascii) : bool :=
  let n := N_of_ascii c in
  ((9 <=? n) && (n <=? 13) || (28 <=? n) && (n <=? 32))%N.

Definition isdigit_char (c : ascii) : bool :=
  let n := N_of_ascii c in ((48 <=? n) && (n <=? 57))%N.

Definition digit_val (c : ascii) : Z := Z.of_N (N_of_ascii c) - 48.

Fixpoint lstrip (s : string) : string :=
  match s with
  | EmptyString => EmptyString
  | String c s' => if isspace c then lstrip s' else s
  end.

Fixpoint rstrip (s : string) : string :=
  match s with
  | EmptyString => EmptyString
  | String c s' =>
      match rstrip s' with
      | EmptyString => if isspace c then EmptyString else String c EmptyString
      | r => String c r
      end
  end.

(** [s.strip()] *)
Definition strip (s : string) : string := rstrip (lstrip s).

Definition upper_char (c : ascii) : ascii :=
  let n := N_of_ascii c in
  if ((97 <=? n) && (n <=? 122))%N then ascii_of_N (n - 32) else c.

(** [s.upper()] *)
Fixpoint upper (s : string) : string :=
  match s with
  | EmptyString => EmptyString
  | String c s' => String (upper_char c) (upper s')
  end.

(** [sub in s] *)
Fixpoint contains (sub s : string) : bool :=
  String.prefix sub s ||
  match s with
  | EmptyString => false
  | String _ s' => contains sub s'
  end.

(** [s.split(sep)] for a one-character separator: never the empty list. *)
Fixpoint split (sep : ascii) (s : string) : list string :=
  match s with
  | EmptyString => [EmptyString]
  | String c s' =>
      match split sep s' with
      | [] => [String c EmptyString]
      | w :: ws =>
          if Ascii.eqb c sep then EmptyString :: w :: ws
          else String c w :: ws
      end
  end.

(** [s.replace(c, "")] for a one-character [c]. *)
Fixpoint remove_char (c : ascii) (s : string) : string :=
  match s with
  | EmptyString => EmptyString
  | String d s' =>
      if Ascii.eqb c d then remove_char c s' else String d (remove_char c s')
  end.

Fixpoint all_chars (p : ascii -> bool) (s : string) : bool :=
  match s with
  | EmptyString => true
  | String c s' => p c && all_chars p s'
  end.

(** [s.isdigit()]: false on the empty string. *)
Definition isdigit (s : string) : bool :=
  match s with
  | EmptyString => false
  | _ => all_chars isdigit_char s
  end.

Fixpoint zeros (n : nat) : string :=
  match n with
  | O => EmptyString
  | S k => String "0" (zeros k)
  end.

(** [s.zfill(width)]: a leading sign stays in front of the padding. *)
Definition zfill (width : nat) (s : string) : string :=
  let n := String.length s in
  if width <=? n then s
  else
    match s with
    | String c r =>
        if Ascii.eqb c "+" || Ascii.eqb c "-"
        then String c (zeros (width - n) +:+ r)
        else zeros (width - n) +:+ s
    | EmptyString => zeros width
    end.

(** The digits of an [int(...)] literal: single underscores may separate
    digits.  [after_digit] tells whether the previous character was one. *)
Fixpoint int_digits (after_digit : bool) (acc : Z) (s : string) : option Z :=
  match s with
  | EmptyString => if after_digit then Some acc else None
  | String c s' =>
      if isdigit_char c then int_digits true (10 * acc + digit_val c)%Z s'
      else if Ascii.eqb c "_" && after_digit then int_digits false acc s'
      else None
  end.

(** [int(s)]: [None] stands for the [ValueError]. *)
Definition int (s : string) : option Z :=
  match strip s with
  | String "-" d => Z.opp <$> int_digits false 0%Z d
  | String "+" d => int_digits false 0%Z d
  | d => int_digits false 0%Z d
  end.

(** [str(z)] for an integer. *)
Definition str (z : Z) : string := NilZero.string_of_int (Z.to_int z).

(** [s[a:b]] for [0 <= a <= b]. *)
Definition slice (a b : nat) (s : string) : string :=
  String.substring a (b - a) s.

(** Truthiness of an [Optional[str]]: [None] and [""] are false. *)
Definition truthy (o : option string) : bool :=
  match o with
  | Some (String _ _) => true
  | _ => false
  end.

Definition lower_char (c : ascii) : ascii :=
  let n := N_of_ascii c in
  if ((65 <=? n) && (n <=? 90))%N then ascii_of_N (n + 32) else c.

(** [s.lower()] *)
Fixpoint lower (s : string) : string :=
  match s with
  | EmptyString => EmptyString
  | String c s' => String (lower_char c) (lower s')
  end.

(** [s.count(c)] for a one-character [c]. *)
Fixpoint count (c : ascii) (s : string) : nat :=
  match s with
  | EmptyString => 0
  | String d s' => (if Ascii.eqb c d then 1 else 0) + count c s'
  end.

(** [s.endswith(suffix)] *)
Definition endswith (suffix s : string) : bool :=
  let n := String.length s in
  let m := String.length suffix in
  (m <=? n) && String.eqb (String.substring (n - m) m s) suffix.

End Py.

(** ** data_convert.py: the reference table *)

(** What pandas makes of one cell of a numeric column: a number, the
    not-a-number of a cell that does not parse, or an infinity. *)
Inductive numeric :=
| Finite (q : Q)
| NaN
| Infinite.

(** The two library functions the module relies on, as interfaces:
    [to_numeric cell] is the value [pd.read_csv] followed by
    [pd.to_numeric(..., errors='coerce')] gives a cell ([NaN] when the cell is
    not a number); [strptime s fmt] is [datetime.strptime(s, fmt).date()],
    [None] standing for its [ValueError]. *)
Class Pandas := to_numeric : string -> numeric.
Class Datetime := { date : Type; strptime : string -> string -> option date }.

(** [Series.fillna(0)] on one value. *)
Definition fillna0 (x : numeric) : numeric :=
  match x with
  | NaN => Finite 0
  | _ => x
  end.

(** [Series.astype(int)] on one value: truncation toward zero; a value that
    is not finite raises ([None]). *)
Definition astype_int (x : numeric) : option Z :=
  match x with
  | Finite q => Some (Z.quot (Qnum q) (Z.pos (Qden q)))
  | _ => None
  end.

(** The file [horarios.csv] as [pd.read_csv] returns it: the column names and,
    for every row in file order, its cells in the columns CÓDIGO HORÁRIO
    (raw text) and ID SCRIPT (after [astype(str)]). *)
Record frame := {
  columns : list string;
  linhas : list (string * string)
}.

(** One row of the loaded table. *)
Record horario := {
  h_codigo_horario : string;
  h_id_script : string
}.

Definition required_cols : list string := ["CÓDIGO HORÁRIO"; "ID SCRIPT"].

Definition in_list (x : string) (l : list string) : bool :=
  existsb (String.eqb x) l.

(** Line 116 and 117 of [load_horarios_mapping] on one row. *)
Definition normalizar_linha `{Pandas} (l : string * string) : option horario :=
  z ← astype_int (fillna0 (to_numeric l.1));
  Some {| h_codigo_horario := Py.str z; h_id_script := Py.strip l.2 |}.

(** The body of [load_horarios_mapping] past the cache test.  [arquivo] is
    [None] when the file does not exist. *)
Definition read_horarios `{Pandas} (arquivo : option frame)
  : option (list horario) :=
  match arquivo with
  | None => None
  | Some df =>
      let missing_cols :=
        filter (fun col => negb (in_list col (columns df))) required_cols in
      match missing_cols with
      | _ :: _ => None
      | [] => mapM normalizar_linha (linhas df)
      end
  end.

(** [load_horarios_mapping]: the result and the new value of the module's
    [_horarios_cache]. *)
Definition load_horarios_mapping `{Pandas}
    (cache : option (list horario)) (arquivo : option frame)
  : option (list horario) * option (list horario) :=
  match cache with
  | Some df => (Some df, cache)
  | None =>
      match read_horarios arquivo with
      | Some df => (Some df, Some df)
      | None => (None, None)
      end
  end.

Definition find_codigo_horario
    (cod_escala : option string) (horarios_df : option (list horario))
  : option string :=
  match horarios_df, cod_escala with
  | Some df, Some c =>
      let c := Py.strip c in
      match filter (fun h => String.eqb (h_id_script h) c) df with
      | h :: _ => Some (Py.strip (h_codigo_horario h))
      | [] => None
      end
  | _, _ => None
  end.

(** ** data_convert.py: the grid conversion *)

(** [re.match(r'^(\d{4})-(\d{4})$', s)]: the two groups.  [$] also matches
    before a final newline. *)
Definition match_hhmm (s : string) : option (string * string) :=
  let a := Py.slice 0 4 s in
  let b := Py.slice 5 9 s in
  let rest := String.substring 9 (String.length s - 9) s in
  if (String.length a =? 4) && Py.all_chars Py.isdigit_char a
     && String.eqb (Py.slice 4 5 s) "-"
     && (String.length b =? 4) && Py.all_chars Py.isdigit_char b
     && (String.eqb rest "" || String.eqb rest (String "010" ""))
  then Some (a, b) else None.

Definition converter_formato_horario (cell_value : string) : option string :=
  match cell_value with
  | EmptyString => None
  | _ =>
      match match_hhmm cell_value with
      | Some (hora_inicio, hora_fim) =>
          Some (Py.slice 0 2 hora_inicio +:+ ":" +:+ Py.slice 2 4 hora_inicio
                +:+ Py.slice 0 2 hora_fim +:+ ":" +:+ Py.slice 2 4 hora_fim)
      | None => None
      end
  end.

Definition date_formats : list string :=
  ["%d/%m/%Y"; "%d/%m/%y"; "%Y-%m-%d"; "%d-%m-%Y"; "%d-%m-%y"].

Definition parse_date_flexible `{Datetime} (date_str : string) : option date :=
  match date_str with
  | EmptyString => None
  | _ =>
      let date_str := Py.remove_char "'" (Py.strip date_str) in
      let date_str := default EmptyString (head (Py.split " " date_str)) in
      (fix tentar (fmts : list string) : option date :=
         match fmts with
         | [] => None
         | date_format :: fmts' =>
             match strptime date_str date_format with
             | Some d => Some d
             | None => tentar fmts'
             end
         end) date_formats
  end.

(** The [stats] dictionary.  Every key is set to 0 at the start, so
    [stats[k] += 1] never misses its key. *)
Definition stats0 : gmap string nat :=
  list_to_map
    [("total_colaboradores", 0); ("total_registros", 0); ("vazio_busca", 0);
     ("fe_busca", 0); ("tr_busca", 0); ("fr_9999", 0);
     ("asterisco_ignorado", 0); ("formato_convertido", 0);
     ("formato_convertido_fallback", 0); ("codigo_nao_encontrado", 0)].

Definition incr (k : string) (stats : gmap string nat) : gmap string nat :=
  <[k := S (default 0 (stats !! k))]> stats.

(** A row of the converted file. *)
Record registro := {
  r_id_colaborador : string;
  r_nome : string;
  r_data : string;
  r_codigo_horario : string
}.

(** The conversion rules of one cell (lines 325 to 394): the values of
    [codigo_horario] and [skip_registro] after the [if] chain, and the
    counters. *)
Definition aplicar_regras
    (horarios_df : option (list horario)) (codigo_base : option string)
    (cell_value : string) (stats : gmap string nat)
  : option string * bool * gmap string nat :=
  if Py.contains "**" cell_value || String.eqb cell_value "**" then
    (None, true, incr "asterisco_ignorado" stats)
  else if String.eqb cell_value "FR" then
    (Some "9999", false, incr "fr_9999" stats)
  else if Py.truthy (converter_formato_horario cell_value) then
    let formato_convertido := converter_formato_horario cell_value in
    let codigo_horario := find_codigo_horario formato_convertido horarios_df in
    if Py.truthy codigo_horario then
      (codigo_horario, false, incr "formato_convertido" stats)
    else if Py.truthy codigo_base then
      (codigo_base, false, incr "formato_convertido_fallback" stats)
    else
      (codigo_horario, true, incr "codigo_nao_encontrado" stats)
  else if String.eqb cell_value "" || String.eqb cell_value "FE"
          || String.eqb cell_value "TR" then
    if Py.truthy codigo_base then
      (codigo_base, false,
       if String.eqb cell_value "" then incr "vazio_busca" stats
       else if String.eqb cell_value "FE" then incr "fe_busca" stats
       else if String.eqb cell_value "TR" then incr "tr_busca" stats
       else stats)
    else (None, true, incr "codigo_nao_encontrado" stats)
  else
    if Py.truthy codigo_base then (codigo_base, false, stats)
    else (None, true, incr "codigo_nao_encontrado" stats).

(** The body of the loop over [date_columns] (lines 318 to 406) for one
    column: [converted_rows] and [stats] before and after. *)
Definition processar_celula
    (horarios_df : option (list horario)) (codigo_base : option string)
    (nome mat : string) (row : list string)
    (acc : list registro * gmap string nat) (coluna : nat * string)
  : list registro * gmap string nat :=
  let '(converted_rows, stats) := acc in
  let '(col_index, date_str) := coluna in
  let cell_value :=
    match row !! col_index with
    | Some c => Py.upper (Py.strip c)
    | None => EmptyString
    end in
  let '(codigo_horario, skip_registro, stats) :=
    aplicar_regras horarios_df codigo_base cell_value stats in
  match codigo_horario with
  | Some (String _ _ as codigo) =>
      if negb skip_registro then
        (converted_rows ++
           [{| r_id_colaborador := "303-1-" +:+ mat; r_nome := nome;
               r_data := date_str; r_codigo_horario := codigo |}],
         incr "total_registros" stats)
      else (converted_rows, stats)
  | _ => (converted_rows, stats)
  end.

(** The body of the loop over the data rows (lines 292 to 409). *)
Definition processar_linha
    (horarios_df : option (list horario)) (date_columns : list (nat * string))
    (acc : list registro * gmap string nat) (row : list string)
  : list registro * gmap string nat :=
  if length row <? 3 then acc
  else
    let nome := Py.strip (default EmptyString (row !! 0)) in
    let mat := Py.strip (default EmptyString (row !! 1)) in
    let cod_escala := Py.strip (default EmptyString (row !! 2)) in
    if String.eqb nome "" || String.eqb mat "" then acc
    else
      let stats := incr "total_colaboradores" acc.2 in
      let codigo_base := find_codigo_horario (Some cod_escala) horarios_df in
      foldl (processar_celula horarios_df codigo_base nome mat row)
            (acc.1, stats) date_columns.

(** Lines 277 to 284: the header columns from index 3 on that parse as a
    date, with their index and their trimmed text. *)
Definition extrair_date_columns `{Datetime} (header : list string)
  : list (nat * string) :=
  omap (fun ic : nat * string =>
          let col_clean := Py.strip ic.2 in
          match parse_date_flexible col_clean with
          | Some _ => Some (ic.1 + 3, col_clean)
          | None => None
          end)
       (imap pair (drop 3 header)).

Inductive falha :=
| EntradaNaoEncontrada
| HorariosNaoCarregados
| CabecalhoInvalido
| Excecao.

Inductive conversao :=
| Falhou (motivo : falha)
| Convertido (converted_rows : list registro) (stats : gmap string nat).

(** [convert_dados_to_senior]: [entrada] is the grid file as [csv.reader]
    yields it ([None] when the file does not exist), [cache] and [arquivo]
    are what [load_horarios_mapping] sees. *)
Definition convert_dados_to_senior `{Pandas} `{Datetime}
    (entrada : option (list (list string)))
    (cache : option (list horario)) (arquivo : option frame) : conversao :=
  match entrada with
  | None => Falhou EntradaNaoEncontrada
  | Some linhas_csv =>
      match (load_horarios_mapping cache arquivo).1 with
      | None => Falhou HorariosNaoCarregados
      | Some df =>
          match linhas_csv with
          | [] => Falhou Excecao
          | header :: reader =>
              if length header <? 4 then Falhou CabecalhoInvalido
              else
                let date_columns := extrair_date_columns header in
                let '(converted_rows, stats) :=
                  foldl (processar_linha (Some df) date_columns)
                        ([], stats0) reader in
                Convertido converted_rows stats
          end
      end
  end.

(** ** envio_escala_api_corrigido.py: one submission *)

(** A row of the flat file, as [ler_csv_colaboradores] and the retry loop
    build it. *)
Record colaborador := {
  c_id_colaborador : string;
  c_nome : string;
  c_data : string;
  c_codigo_horario : string;
  c_numero_cadastro : string;
  c_numero_empresa : string;
  c_tipo_colaborador : string
}.

(** The result dictionary of one record.  [numero_retry] is [None] until the
    caller sets the key. *)
Record resultado := {
  id_colaborador : string;
  nome : string;
  data : string;
  codigo_horario : string;
  status_code : Z;
  status : string;
  response_text : string;
  erro : string;
  tentativas : nat;
  numero_retry : option nat
}.

Definition set_numero_retry (n : nat) (r : resultado) : resultado :=
  {| id_colaborador := id_colaborador r; nome := nome r; data := data r;
     codigo_horario := codigo_horario r; status_code := status_code r;
     status := status r; response_text := response_text r; erro := erro r;
     tentativas := tentativas r; numero_retry := Some n |}.

Inductive exn_class :=
| TimeoutError
| TokenExpiradoException
| ValueError
| ClientError.

(** An exception: its class and [str(e)]. *)
Record exn := {
  classe : exn_class;
  mensagem : string
}.

(** What [session.put] does on one attempt. *)
Inductive reply :=
| Response (status : Z) (text : string)
| Raises (e : exn).

Record payload := {
  p_id : string;
  p_nome : string;
  p_numeroCadastro : Z;
  p_numeroEmpresa : Z;
  p_tipoColaborador : Z;
  p_data : string;
  p_codigo : Z
}.

(** What a submission does to the outside world. *)
Inductive efeito :=
| Put (url : string) (corpo : payload)
| Sleep (delay : Q).

(** Lines 81 to 92: DD/MM/YYYY to YYYY-MM-DD. *)
Definition converter_data (data_original : string) : string :=
  if Py.contains "/" data_original then
    match Py.split "/" data_original with
    | [p0; p1; p2] => p2 +:+ "-" +:+ Py.zfill 2 p1 +:+ "-" +:+ Py.zfill 2 p0
    | _ => data_original
    end
  else data_original.

(** Lines 104 to 106: the CSV field, else the part of the identifier, else
    the default. *)
Definition campo_ou_parte
    (csv : string) (partes_id : list string) (i : nat) (padrao : string)
  : string :=
  match csv with
  | String _ _ => csv
  | EmptyString =>
      match partes_id !! i with
      | Some (String _ _ as parte) => parte
      | _ => padrao
      end
  end.

(** Lines 110 to 112 followed by the [int(...)] of the payload. *)
Definition validar_numero (s : string) (padrao : Z) : Z :=
  if Py.isdigit s then default padrao (Py.int s) else padrao.

(** [base * (2 ** (tentativa - 1))], as a reduced fraction. *)
Definition backoff (base : Q) (tentativa : nat) : Q :=
  Qred (base * inject_Z (2 ^ Z.of_nat (tentativa - 1))).

Definition is_sucesso_status (st : Z) : bool :=
  (st =? 200)%Z || (st =? 201)%Z || (st =? 204)%Z.

(** What one pass through the loop body leaves: a [return], a fall through to
    the next attempt, or an exception on its way to the handlers. *)
Inductive passo :=
| Retorna (r : resultado)
| Continua
| Levanta (e : exn).

Section Tentativa.

Variable base_url : string.
Variable max_retries : nat.
(** The reply of the remote end to each attempt, numbered from 1. *)
Variable servidor : nat -> reply.
Variables id_colaborador_ nome_ data_original codigo_horario_ : string.
Variable colaborador_data : colaborador.

(** The inner [try] block (lines 80 to 183). *)
Definition corpo_tentativa (tentativa : nat) : list efeito * passo :=
  let data_ := converter_data data_original in
  let partes_id := Py.split "-" id_colaborador_ in
  let numero_empresa_csv := Py.strip (c_numero_empresa colaborador_data) in
  let tipo_colaborador_csv := Py.strip (c_tipo_colaborador colaborador_data) in
  let numero_cadastro_csv := Py.strip (c_numero_cadastro colaborador_data) in
  let numero_empresa := campo_ou_parte numero_empresa_csv partes_id 0 "303" in
  let tipo_colaborador := campo_ou_parte tipo_colaborador_csv partes_id 1 "1" in
  let numero_cadastro := campo_ou_parte numero_cadastro_csv partes_id 2 "1" in
  let url :=
    base_url +:+ "/colaboradores/" +:+ id_colaborador_
    +:+ "/programacoes/trocas-horarios/" +:+ id_colaborador_ +:+ "-"
    +:+ data_ in
  match Py.int codigo_horario_ with
  | None =>
      ([], Levanta {| classe := ValueError;
                      mensagem := "invalid literal for int() with base 10: '"
                                  +:+ codigo_horario_ +:+ "'" |})
  | Some codigo =>
      let corpo :=
        {| p_id := id_colaborador_; p_nome := nome_;
           p_numeroCadastro := validar_numero numero_cadastro 1;
           p_numeroEmpresa := validar_numero numero_empresa 303;
           p_tipoColaborador := validar_numero tipo_colaborador 1;
           p_data := data_; p_codigo := codigo |} in
      match servidor tentativa with
      | Raises e => ([Put url corpo], Levanta e)
      | Response st response_text_ =>
          let result :=
            {| id_colaborador := id_colaborador_; nome := nome_;
               data := data_; codigo_horario := codigo_horario_;
               status_code := st;
               status := if is_sucesso_status st then "sucesso" else "erro";
               response_text := Py.slice 0 500 response_text_;
               erro := ""; tentativas := tentativa;
               numero_retry := None |} in
          if (st =? 401)%Z then
            ([Put url corpo],
             Levanta {| classe := TokenExpiradoException;
                        mensagem := "Token de autenticação expirado ou inválido" |})
          else if is_sucesso_status st then ([Put url corpo], Retorna result)
          else if tentativa <? max_retries then
            ([Put url corpo; Sleep (backoff (1 # 2) tentativa)], Continua)
          else ([Put url corpo], Retorna result)
      end
  end.

(** The two [except] clauses (lines 185 to 226): the first takes the
    time-outs, the second every other [Exception]. *)
Definition tratar_excecao (tentativa : nat) (e : exn) : list efeito * passo :=
  match classe e with
  | TimeoutError =>
      if tentativa <? max_retries then
        ([Sleep (backoff 2 tentativa)], Continua)
      else
        ([], Retorna
               {| id_colaborador := id_colaborador_; nome := nome_;
                  data := data_original; codigo_horario := codigo_horario_;
                  status_code := 0; status := "timeout";
                  response_text :=
                    "Timeout na requisição após 3 tentativas (60s cada)";
                  erro := "Timeout"; tentativas := tentativa;
                  numero_retry := None |})
  | _ =>
      if tentativa <? max_retries then
        ([Sleep (backoff (1 # 2) tentativa)], Continua)
      else
        ([], Retorna
               {| id_colaborador := id_colaborador_; nome := nome_;
                  data := data_original; codigo_horario := codigo_horario_;
                  status_code := 0; status := "erro";
                  response_text := mensagem e; erro := mensagem e;
                  tentativas := tentativa; numero_retry := None |})
  end.

(** One pass through the [for] body: the [try] block, then its handlers. *)
Definition uma_tentativa (tentativa : nat) : list efeito * passo :=
  match corpo_tentativa tentativa with
  | (efs, Levanta e) =>
      let '(efs', p) := tratar_excecao tentativa e in (efs ++ efs', p)
  | r => r
  end.

(** [for tentativa in range(1, max_retries + 1)], [restantes] attempts
    being left, and the fall-back [return] after the loop.  An exception
    that left a pass would leave the function ([inl]). *)
Fixpoint laco_tentativas (restantes tentativa : nat)
  : list efeito * (exn + resultado) :=
  match restantes with
  | O =>
      ([], inr {| id_colaborador := id_colaborador_; nome := nome_;
                  data := data_original; codigo_horario := codigo_horario_;
                  status_code := 0; status := "erro";
                  response_text := "Falha desconhecida";
                  erro := "Falha desconhecida"; tentativas := max_retries;
                  numero_retry := None |})
  | S k =>
      match uma_tentativa tentativa with
      | (efs, Retorna r) => (efs, inr r)
      | (efs, Levanta e) => (efs, inl e)
      | (efs, Continua) =>
          let '(efs', r) := laco_tentativas k (S tentativa) in
          (efs ++ efs', r)
      end
  end.

Definition _tentar_envio : list efeito * (exn + resultado) :=
  laco_tentativas max_retries 1.

End Tentativa.

(** [enviar_programacao]: the semaphore is taken before and given back after
    [_tentar_envio] (see [passo_lote] below for the interleaving). *)
Definition enviar_programacao
    (base_url : string) (max_retries : nat) (servidor : nat -> reply)
    (colaborador_data : colaborador) : list efeito * (exn + resultado) :=
  _tentar_envio base_url max_retries servidor
    (c_id_colaborador colaborador_data) (c_nome colaborador_data)
    (c_data colaborador_data) (c_codigo_horario colaborador_data)
    colaborador_data.

(** ** envio_escala_api_corrigido.py: a batch and the retry loop *)

(** The loop after [asyncio.gather(..., return_exceptions=True)] (lines 262
    to 284): an exception object among the results becomes an error row. *)
Definition resultado_final
    (colaborador_data : colaborador) (r : exn + resultado) : resultado :=
  match r with
  | inl e =>
      {| id_colaborador := c_id_colaborador colaborador_data;
         nome := c_nome colaborador_data; data := c_data colaborador_data;
         codigo_horario := c_codigo_horario colaborador_data;
         status_code := 0; status := "erro"; response_text := mensagem e;
         erro := mensagem e; tentativas := 0; numero_retry := None |}
  | inr resultado => resultado
  end.

(** [processar_lote]: [servidor i] answers the attempts of the record at
    index [i].  The function has no [raise] and gathers the exceptions of
    its tasks as values: it returns to its caller in every case. *)
Definition processar_lote
    (base_url : string) (max_retries : nat) (servidor : nat -> nat -> reply)
    (colaboradores : list colaborador) : list resultado :=
  imap (fun i colaborador_data =>
          resultado_final colaborador_data
            (enviar_programacao base_url max_retries (servidor i)
               colaborador_data).2)
       colaboradores.

(** The effects of a batch, record by record. *)
Definition efeitos_lote
    (base_url : string) (max_retries : nat) (servidor : nat -> nat -> reply)
    (colaboradores : list colaborador) : list (list efeito) :=
  imap (fun i colaborador_data =>
          (enviar_programacao base_url max_retries (servidor i)
             colaborador_data).1)
       colaboradores.

Definition is_sucesso (r : resultado) : bool := String.eqb (status r) "sucesso".

Definition separar_sucessos_e_erros (resultados : list resultado)
  : list resultado * list resultado :=
  (List.filter is_sucesso resultados,
   List.filter (fun r => negb (is_sucesso r)) resultados).

Definition base_url_senior : string :=
  "https://webp20.seniorcloud.com.br:31531/gestaoponto-backend/api".

(** Lines 810 to 815 of [processar_escalas]: the first pass. *)
Definition envio_inicial
    (servidor : nat -> nat -> reply) (colaboradores : list colaborador)
  : list resultado :=
  set_numero_retry 0 <$> processar_lote base_url_senior 3 servidor colaboradores.

(** The key of a result in [novos_resultados_dict]. *)
Definition chave (r : resultado) : string :=
  id_colaborador r +:+ "_" +:+ data r.

Definition colaborador_retry (erro_ : resultado) : colaborador :=
  {| c_id_colaborador := id_colaborador erro_; c_nome := nome erro_;
     c_data := data erro_; c_codigo_horario := codigo_horario erro_;
     c_numero_cadastro := ""; c_numero_empresa := "";
     c_tipo_colaborador := "1" |}.

(** The state of the retry loop after one pass through its body. *)
Inductive volta :=
| Encerra (resultados : list resultado)
| Segue (numero_ciclo_retry : nat) (colaboradores_retry : list colaborador)
        (resultados resultados_retry : list resultado).

(** One pass through the [while True] of [processar_escalas] (lines 845 to
    924).  [quer_retry] is the answer of [menu_retry_erros]. *)
Definition ciclo_retry
    (servidor : nat -> nat -> reply) (quer_retry : bool)
    (numero_ciclo_retry : nat) (resultados : list resultado) : volta :=
  let '(sucessos_lista, erros_lista) := separar_sucessos_e_erros resultados in
  match erros_lista with
  | [] => Encerra resultados
  | _ :: _ =>
      if negb quer_retry then Encerra resultados
      else
        let numero_ciclo_retry := S numero_ciclo_retry in
        let colaboradores_retry := colaborador_retry <$> erros_lista in
        let resultados_retry :=
          set_numero_retry numero_ciclo_retry <$>
            processar_lote base_url_senior 3 servidor colaboradores_retry in
        let novos_resultados_dict : gmap string resultado :=
          foldl (fun d novo => <[chave novo := novo]> d) ∅ resultados_retry in
        Segue numero_ciclo_retry colaboradores_retry
          ((fun resultado =>
              default resultado (novos_resultados_dict !! chave resultado))
             <$> resultados)
          resultados_retry
  end.

(** What a pass leaves: the result store, the rows the pass produced and
    the records it sent again. *)
Definition armazem (v : volta) : list resultado :=
  match v with
  | Encerra resultados => resultados
  | Segue _ _ resultados _ => resultados
  end.

Definition novos_resultados (v : volta) : list resultado :=
  match v with
  | Encerra _ => []
  | Segue _ _ _ resultados_retry => resultados_retry
  end.

Definition reenviados (v : volta) : list colaborador :=
  match v with
  | Encerra _ => []
  | Segue _ colaboradores_retry _ _ => colaboradores_retry
  end.

(** ** envio_escala_api_corrigido.py: the format detector *)

(** [detectar_formato_csv] on the field names of the first line ([[]] when
    the reader finds none). *)
Definition detectar_formato_csv (header : list string) : string :=
  match header with
  | [] => "desconhecido"
  | _ =>
      let header_clean := (fun col => Py.upper (Py.strip col)) <$> header in
      let has_nome := existsb (Py.contains "NOME") header_clean in
      let has_mat :=
        existsb (fun col => Py.contains "MAT" col
                            && negb (Py.contains "MATRICULA" col))
                header_clean in
      let has_cod_escala :=
        existsb (fun col => Py.contains "COD" col && Py.contains "ESCALA" col)
                header_clean in
      if has_nome && has_mat && has_cod_escala then "grid"
      else
        let has_id := existsb (Py.contains "ID_COLABORADOR") header_clean in
        let has_nome_api := existsb (fun col => String.eqb col "NOME") header_clean in
        let has_data := existsb (fun col => String.eqb col "DATA") header_clean in
        let has_codigo :=
          existsb (fun col => Py.contains "CODIGO" col
                              && Py.contains "HORARIO" col)
                  header_clean in
        if has_id && has_nome_api && has_data && has_codigo then "api"
        else "desconhecido"
  end.


(** ** The batch as a transition system *)

(** Where a task of [processar_lote] stands: before [semaphore.acquire()]
    returns, inside [_tentar_envio] with a request out or asleep between two
    attempts, or past [semaphore.release()]. *)
Inductive fase :=
| NaFila
| Enviando (tentativa : nat)
| Dormindo (tentativa : nat)
| Concluida.

Record lote := {
  semaforo : nat;
  tarefas : list fase
}.

(** The steps the event loop can take.  [asyncio.Semaphore]: [acquire]
    returns only while the value is positive and takes one from it,
    [release] gives one back. *)
Inductive passo_lote (max_retries : nat) : lote -> lote -> Prop :=
| passo_acquire i s k :
    tarefas s !! i = Some NaFila ->
    semaforo s = S k ->
    passo_lote max_retries s
      {| semaforo := k; tarefas := <[i := Enviando 1]> (tarefas s) |}
| passo_sleep i s t :
    tarefas s !! i = Some (Enviando t) ->
    t < max_retries ->
    passo_lote max_retries s
      {| semaforo := semaforo s; tarefas := <[i := Dormindo t]> (tarefas s) |}
| passo_acorda i s t :
    tarefas s !! i = Some (Dormindo t) ->
    passo_lote max_retries s
      {| semaforo := semaforo s; tarefas := <[i := Enviando (S t)]> (tarefas s) |}
| passo_release i s t :
    tarefas s !! i = Some (Enviando t) ->
    passo_lote max_retries s
      {| semaforo := S (semaforo s); tarefas := <[i := Concluida]> (tarefas s) |}.

(** The state [processar_lote] starts [asyncio.gather] in. *)
Definition lote_inicial (n max_concurrent : nat) : lote :=
  {| semaforo := max_concurrent; tarefas := replicate n NaFila |}.

Definition alcancavel (max_retries n max_concurrent : nat) (s : lote) : Prop :=
  rtc (passo_lote max_retries) (lote_inicial n max_concurrent) s.

Definition enviando (f : fase) : bool :=
  match f with Enviando _ => true | _ => false end.

Definition com_vaga (f : fase) : bool :=
  match f with Enviando _ | Dormindo _ => true | _ => false end.

(** The number of requests that are out. *)
Definition em_voo (s : lote) : nat := length (List.filter enviando (tarefas s)).

(** The number of tasks that hold a slot of the semaphore. *)
Definition vagas_tomadas (s : lote) : nat :=
  length (List.filter com_vaga (tarefas s)).

(** ** envio_escala_api_corrigido.py: reading the input *)

(** [os.path.join], as an interface. *)
Class OsPath := path_join : string -> string -> string.

(** [listar_arquivos_csv]: [listagem] is what [os.listdir] gives, [None]
    when the directory does not exist.  [sorted] orders the names as
    [String.leb] does, character code by character code. *)
Definition listar_arquivos_csv (listagem : option (list string)) : list string :=
  match listagem with
  | None => []
  | Some nomes =>
      merge_sort (fun a b => Is_true (String.leb a b))
        (List.filter (Py.endswith ".csv") nomes)
  end.

(** [selecionar_arquivo_csv].  [entradas] holds the lines the user types, one
    for each [input(...)]; the result comes with the lines that are left, and
    is [None] when the lines run out before a valid choice ([input] raises
    [EOFError]).  The inner [None] is the [return None] of an empty list. *)
Fixpoint selecionar_arquivo_csv `{OsPath}
    (arquivos : list string) (entradas : list string)
  : option (option string * list string) :=
  match arquivos with
  | [] => Some (None, entradas)
  | _ :: _ =>
      match entradas with
      | [] => None
      | escolha :: resto =>
          match Py.int escolha with
          | Some n =>
              let indice := (n - 1)%Z in
              if (0 <=? indice)%Z && (indice <? Z.of_nat (length arquivos))%Z
              then
                match arquivos !! Z.to_nat indice with
                | Some arquivo => Some (Some (path_join "input_data" arquivo), resto)
                | None => None
                end
              else selecionar_arquivo_csv arquivos resto
          | None => selecionar_arquivo_csv arquivos resto
          end
      end
  end.

(** [detectar_separador_csv] on the first line of the file ([None] when the
    file cannot be read). *)
Definition detectar_separador_csv (arquivo : option string) : ascii :=
  match arquivo with
  | None => ","%char
  | Some primeira_linha =>
      let virgulas := Py.count "," primeira_linha in
      let ponto_virgulas := Py.count ";" primeira_linha in
      if virgulas <? ponto_virgulas then ";"%char else ","%char
  end.

Definition campos_obrigatorios : list string :=
  ["id_colaborador"; "nome"; "data"; "codigo_horario"].

(** A row as [csv.DictReader] yields it: a field of the header the row is
    too short for is there with the value [None]. *)
Definition linha_csv : Type := gmap string (option string).

(** [all(campo in linha and linha[campo].strip() for campo in campos)]:
    the outer [None] is the [AttributeError] of [None.strip()]. *)
Fixpoint campos_preenchidos (linha : gmap string (option string))
    (campos : list string) : option bool :=
  match campos with
  | [] => Some true
  | campo :: resto =>
      match linha !! campo with
      | None => Some false
      | Some None => None
      | Some (Some v) =>
          if Py.truthy (Some (Py.strip v)) then campos_preenchidos linha resto
          else Some false
      end
  end.

(** [linha.get(campo, padrao).strip()] *)
Definition get_strip (linha : gmap string (option string))
    (campo padrao : string) : option string :=
  match linha !! campo with
  | None => Some (Py.strip padrao)
  | Some None => None
  | Some (Some v) => Some (Py.strip v)
  end.

(** [linha[campo].strip()] *)
Definition item_strip (linha : gmap string (option string)) (campo : string)
  : option string :=
  match linha !! campo with
  | Some (Some v) => Some (Py.strip v)
  | _ => None
  end.

(** The body of the loop of [ler_csv_colaboradores] (lines 358 to 371): the
    record the row adds, if any; the outer [None] is an exception. *)
Definition ler_linha (linha : gmap string (option string))
  : option (option colaborador) :=
  ok ← campos_preenchidos linha campos_obrigatorios;
  if ok : bool then
    id_ ← item_strip linha "id_colaborador";
    nome_ ← item_strip linha "nome";
    data_ ← item_strip linha "data";
    codigo ← item_strip linha "codigo_horario";
    cadastro ← get_strip linha "numero_cadastro" "";
    empresa ← get_strip linha "numero_empresa" "";
    tipo ← get_strip linha "tipo_colaborador" "1";
    Some (Some {| c_id_colaborador := id_; c_nome := nome_; c_data := data_;
                  c_codigo_horario := codigo; c_numero_cadastro := cadastro;
                  c_numero_empresa := empresa; c_tipo_colaborador := tipo |})
  else Some None.

(** [ler_csv_colaboradores]: [arquivo] is the rows of the file ([None] when
    it cannot be read).  Any exception gives the empty list. *)
Definition ler_csv_colaboradores
    (arquivo : option (list (gmap string (option string)))) : list colaborador :=
  match arquivo with
  | None => []
  | Some reader =>
      match mapM ler_linha reader with
      | Some lidos => omap id lidos
      | None => []
      end
  end.

(** ** envio_escala_api_corrigido.py: the summary of the errors and the menus *)

(** The kind of error [exibir_resumo_erros] shows for a row. *)
Definition tipo_erro (erro_ : resultado) : string :=
  if String.eqb (status erro_) "timeout" then "Timeout"
  else if (status_code erro_ =? 401)%Z then "Token Expirado"
  else if (500 <=? status_code erro_)%Z then
    "Erro Servidor (" +:+ Py.str (status_code erro_) +:+ ")"
  else if (400 <=? status_code erro_)%Z then
    "Erro Cliente (" +:+ Py.str (status_code erro_) +:+ ")"
  else "Erro Geral".

(** [nome[:27] + '...' if len(nome) > 30 else nome] *)
Definition nome_truncado (nome_ : string) : string :=
  if 30 <? String.length nome_ then Py.slice 0 27 nome_ +:+ "..." else nome_.

(** The dictionary [erros_por_tipo] at the end of [exibir_resumo_erros]. *)
Definition erros_por_tipo (erros : list resultado) : gmap string nat :=
  foldl (fun d erro_ =>
           <[tipo_erro erro_ := default 0 (d !! tipo_erro erro_) + 1]> d)
        ∅ erros.

(** [menu_retry_erros], on the lines the user types. *)
Fixpoint menu_retry_erros (entradas : list string)
  : option (bool * list string) :=
  match entradas with
  | [] => None
  | escolha :: resto =>
      match Py.int (Py.strip escolha) with
      | Some 1%Z => Some (true, resto)
      | Some 2%Z => Some (false, resto)
      | _ => menu_retry_erros resto
      end
  end.

(** [exibir_menu_continuacao] *)
Fixpoint exibir_menu_continuacao (entradas : list string)
  : option (Z * list string) :=
  match entradas with
  | [] => None
  | escolha :: resto =>
      match Py.int (Py.strip escolha) with
      | Some n =>
          if (n =? 1)%Z || (n =? 2)%Z then Some (n, resto)
          else exibir_menu_continuacao resto
      | None => exibir_menu_continuacao resto
      end
  end.

(** The last loop of [obter_configuracao_usuario] (lines 718 to 728): the
    number of simultaneous requests. *)
Fixpoint pedir_num_concurrent (entradas : list string)
  : option (Z * list string) :=
  match entradas with
  | [] => None
  | entrada :: resto =>
      let num_concurrent := Py.strip entrada in
      match (match num_concurrent with
             | EmptyString => Some 5%Z
             | _ => Py.int num_concurrent
             end) with
      | Some n =>
          if (1 <=? n)%Z && (n <=? 50)%Z then Some (n, resto)
          else pedir_num_concurrent resto
      | None => pedir_num_concurrent resto
      end
  end.

(** ** envio_escala_api_corrigido.py: the retry loop as a whole *)

(** The [while True] of [processar_escalas]: each element of [ciclos] is the
    answer of the user to the retry menu and the behaviour of the remote end
    in the cycle that follows.  [None]: the answers run out while rows with
    errors are left. *)
Fixpoint laco_retry
    (ciclos : list (bool * (nat -> nat -> reply)))
    (numero_ciclo_retry : nat) (resultados : list resultado)
  : option (nat * list resultado) :=
  match ciclos with
  | [] =>
      match (separar_sucessos_e_erros resultados).2 with
      | [] => Some (numero_ciclo_retry, resultados)
      | _ :: _ => None
      end
  | (quer_retry, servidor) :: resto =>
      match ciclo_retry servidor quer_retry numero_ciclo_retry resultados with
      | Encerra resultados' => Some (numero_ciclo_retry, resultados')
      | Segue numero' _ resultados' _ => laco_retry resto numero' resultados'
      end
  end.

(** ** app.py: the detector of the web front end *)

Module App.

(** [detectar_formato_csv] of app.py on the first line of the file as
    [readline] returns it ([None] when the file cannot be read). *)
Definition detectar_formato_csv (arquivo : option string) : string :=
  match arquivo with
  | None => "api"
  | Some linha =>
      let separador := detectar_separador_csv (Some linha) in
      let primeira_linha := Py.strip linha in
      let cabecalho_lower := Py.lower primeira_linha in
      if Py.contains "id_colaborador" cabecalho_lower
         || Py.contains "id colaborador" cabecalho_lower then "api"
      else if Py.contains "nome" cabecalho_lower
              && Py.contains "mat" cabecalho_lower
              && existsb (fun parte => Py.contains "/" parte
                                       && (String.length parte =? 10))
                         (drop 3 (Py.split separador primeira_linha))
      then "grid"
      else if Py.contains "escala" cabecalho_lower then "grid"
      else "api"
  end.

End App.

(** ** Instances of the library interfaces, to run the model *)

(** Plain decimal literals: an optional sign, digits, an optional point and
    more digits; [inf] is infinite and anything else is not a number. *)

Definition to_numeric_decimal (cell : string) : numeric :=
  let s := Py.strip cell in
  let '(sinal, s) :=
    match s with
    | String "-" r => ((-1)%Z, r)
    | String "+" r => (1%Z, r)
    | _ => (1%Z, s)
    end in
  if String.eqb s "inf" then Infinite
  else
    match Py.split "." s with
    | [i] =>
        if Py.isdigit i then Finite (inject_Z (sinal * default 0%Z (Py.int i)))
        else NaN
    | [i; f] =>
        if Py.isdigit i && Py.isdigit f then
          Finite (Qmake (sinal * default 0%Z (Py.int (i +:+ f)))
                        (Pos.pow 10 (Pos.of_nat (String.length f))))
        else NaN
    | _ => NaN
    end.

Definition pandas_decimal : Pandas := to_numeric_decimal.

(** A reader of the format DD/MM/YYYY alone, without the checks of the
    calendar. *)
Definition strptime_dmy (s fmt : string) : option string :=
  if String.eqb fmt "%d/%m/%Y" then
    match Py.split "/" s with
    | [d; m; y] =>
        if Py.isdigit d && Py.isdigit m && Py.isdigit y
           && (String.length d <=? 2) && (String.length m <=? 2)
           && (String.length y =? 4)
        then Some s else None
    | _ => None
    end
  else None.

Definition datetime_dmy : Datetime :=
  {| date := string; strptime := strptime_dmy |}.

(** ** The vocabulary of the statements *)

(** An integer-valued text: digits after an optional minus sign. *)
Definition texto_inteiro (s : string) : bool :=
  match s with
  | String "-" d => Py.isdigit d
  | d => Py.isdigit d
  end.


(** The composite key HH:MMHH:MM of the two groups. *)
Definition chave_hhmm (a b : string) : string :=
  Py.slice 0 2 a +:+ ":" +:+ Py.slice 2 4 a
  +:+ Py.slice 0 2 b +:+ ":" +:+ Py.slice 2 4 b.

(** The address and the body of the request of a record, and the result row
    built from an HTTP response: the [let]s of [corpo_tentativa], by name. *)
Definition url_envio (base_url id_colaborador_ data_original : string) : string :=
  base_url +:+ "/colaboradores/" +:+ id_colaborador_
  +:+ "/programacoes/trocas-horarios/" +:+ id_colaborador_ +:+ "-"
  +:+ converter_data data_original.

Definition payload_envio
    (id_colaborador_ nome_ data_original : string) (codigo : Z)
    (colaborador_data : colaborador) : payload :=
  let partes_id := Py.split "-" id_colaborador_ in
  {| p_id := id_colaborador_; p_nome := nome_;
     p_numeroCadastro :=
       validar_numero
         (campo_ou_parte (Py.strip (c_numero_cadastro colaborador_data))
            partes_id 2 "1") 1;
     p_numeroEmpresa :=
       validar_numero
         (campo_ou_parte (Py.strip (c_numero_empresa colaborador_data))
            partes_id 0 "303") 303;
     p_tipoColaborador :=
       validar_numero
         (campo_ou_parte (Py.strip (c_tipo_colaborador colaborador_data))
            partes_id 1 "1") 1;
     p_data := converter_data data_original; p_codigo := codigo |}.

Definition resultado_http
    (id_colaborador_ nome_ data_original codigo_horario_ : string)
    (tentativa : nat) (st : Z) (text : string) : resultado :=
  {| id_colaborador := id_colaborador_; nome := nome_;
     data := converter_data data_original; codigo_horario := codigo_horario_;
     status_code := st;
     status := if is_sucesso_status st then "sucesso" else "erro";
     response_text := Py.slice 0 500 text; erro := ""; tentativas := tentativa;
     numero_retry := None |}.

(** The effects of [k] attempts that all end in an error response, from
    attempt [t] on: a request, then a sleep unless the attempt is the last. *)
Fixpoint efeitos_erros (url : string) (corpo : payload) (k t : nat)
  : list efeito :=
  match k with
  | O => []
  | S k' =>
      Put url corpo ::
      match k' with
      | O => []
      | S _ => Sleep (backoff (1 # 2) t) :: efeitos_erros url corpo k' (S t)
      end
  end.

(** The number of requests and the sleeps among the effects. *)
Definition pedidos (efs : list efeito) : nat :=
  length (List.filter (fun e => match e with Put _ _ => true | _ => false end) efs).

Definition esperas (efs : list efeito) : list Q :=
  omap (fun e => match e with Sleep d => Some d | _ => None end) efs.

(** [novos_resultados_dict] for the rows of a retry, the last row with a
    key winning. *)
Definition dict_de (l : list resultado) : gmap string resultado :=
  foldl (fun d novo => <[chave novo := novo]> d) ∅ l.




(** What a task counts for under a test on its phase. *)
Definition peso (p : fase -> bool) (f : fase) : nat := if p f then 1 else 0.

(** The slots taken and the value of the semaphore add up to the limit. *)
Definition vagas_conservadas (max_concurrent : nat) (s : lote) : Prop :=
  vagas_tomadas s + semaforo s = max_concurrent.

(** ** Sample data *)

(** A reference file: the first code has a fractional suffix, the last is
    not a number. *)
Definition frame_ex : frame :=
  {| columns := ["CÓDIGO HORÁRIO"; "DESCRIÇÃO"; "ID SCRIPT"];
     linhas := [("1234.0", " 08:0016:00 "); ("77", "ESC-A"); ("abc", "ESC-B")] |}.

(** [frame_ex] once loaded. *)
Definition tabela_ex : list horario :=
  [ {| h_codigo_horario := "1234"; h_id_script := "08:0016:00" |};
    {| h_codigo_horario := "77"; h_id_script := "ESC-A" |};
    {| h_codigo_horario := "0"; h_id_script := "ESC-B" |} ].


(** A grid: three date columns among four candidates, and rows that are
    converted, skipped for want of a registration number or too short. *)
Definition grade_ex : list (list string) :=
  [ ["NOME"; "MAT"; "COD. ESCALA"; "01/10/2025"; "'02/10/2025 Qui"; "OBS";
     "03/10/2025"];
    ["ANA"; "16774"; "ESC-A"; ""; " fr "; "x"; "0800-1600"];
    ["BIA"; "200"; "ESC-A"; "0900-1700"; "**"; ""; "TR"];
    ["CAIO"; "300"; "SEM-ESCALA"; "FE"; "FR"];
    ["DORA"; ""; "ESC-A"; "FR"; "FR"; ""; "FR"];
    ["EVA"] ].

(** A record of the flat format, its request, and the exception of a
    time-out. *)
Definition colaborador_ex : colaborador :=
  {| c_id_colaborador := "303-1-16774"; c_nome := "ANA";
     c_data := "01/10/2025"; c_codigo_horario := "1234";
     c_numero_cadastro := ""; c_numero_empresa := "";
     c_tipo_colaborador := "1" |}.

Definition url_ex : string :=
  "https://webp20.seniorcloud.com.br:31531/gestaoponto-backend/api/colaboradores/303-1-16774/programacoes/trocas-horarios/303-1-16774-2025-10-01".

Definition payload_ex : payload :=
  {| p_id := "303-1-16774"; p_nome := "ANA"; p_numeroCadastro := 16774;
     p_numeroEmpresa := 303; p_tipoColaborador := 1; p_data := "2025-10-01";
     p_codigo := 1234 |}.

Definition timeout_exn : exn :=
  {| classe := TimeoutError; mensagem := "" |}.

(** The store after a first pass in which two records were accepted. *)
Definition armazem_sucesso : list resultado :=
  envio_inicial (fun _ _ => Response 200 "ok") [colaborador_ex; colaborador_ex].

(** The store after a first pass in which the record timed out three
    times. *)
Definition armazem_timeout : list resultado :=
  envio_inicial (fun _ _ => Raises timeout_exn) [colaborador_ex].

(** The row of that time-out, and the row of the same record once accepted
    in retry cycle 1. *)
Definition linha_timeout : resultado :=
  {| id_colaborador := "303-1-16774"; nome := "ANA"; data := "01/10/2025";
     codigo_horario := "1234"; status_code := 0; status := "timeout";
     response_text := "Timeout na requisição após 3 tentativas (60s cada)";
     erro := "Timeout"; tentativas := 3; numero_retry := Some 0 |}.

Definition linha_sucesso_retry : resultado :=
  {| id_colaborador := "303-1-16774"; nome := "ANA"; data := "2025-10-01";
     codigo_horario := "1234"; status_code := 200; status := "sucesso";
     response_text := "ok"; erro := ""; tentativas := 1;
     numero_retry := Some 1 |}.


(** A hundred records under the limit 5, once five of them have taken a
    slot: every slot is in use and the other tasks wait. *)
Definition lote_cheio : lote :=
  {| semaforo := 0;
     tarefas := replicate 5 (Enviando 1) ++ replicate 95 NaFila |}.

(** ** The vocabulary of the further statements *)

(** The value of a decimal numeral read from the left, [acc] being the value
    of the digits read before it. *)
Fixpoint valor_decimal (acc : Z) (d : Decimal.uint) : Z :=
  match d with
  | Decimal.Nil => acc
  | Decimal.D0 l => valor_decimal (10 * acc + 0) l
  | Decimal.D1 l => valor_decimal (10 * acc + 1) l
  | Decimal.D2 l => valor_decimal (10 * acc + 2) l
  | Decimal.D3 l => valor_decimal (10 * acc + 3) l
  | Decimal.D4 l => valor_decimal (10 * acc + 4) l
  | Decimal.D5 l => valor_decimal (10 * acc + 5) l
  | Decimal.D6 l => valor_decimal (10 * acc + 6) l
  | Decimal.D7 l => valor_decimal (10 * acc + 7) l
  | Decimal.D8 l => valor_decimal (10 * acc + 8) l
  | Decimal.D9 l => valor_decimal (10 * acc + 9) l
  end.

(** The cell of a row under a column, as the loop over the date columns
    reads it: trimmed and upper-cased, empty when the row is too short. *)
Definition celula (row : list string) (col_index : nat) : string :=
  match row !! col_index with
  | Some c => Py.upper (Py.strip c)
  | None => EmptyString
  end.

(** Where a code written by the conversion comes from: the fixed code of a
    day off, or a look-up in the reference table. *)
Definition origem_codigo (horarios_df : option (list horario)) (c : string)
  : Prop :=
  c <> "" /\ (c = "9999" \/ exists k, find_codigo_horario k horarios_df = Some c).

(** What every row of a record satisfies: it carries the identifier, the
    name and the code of the record, its status is one of three, "sucesso"
    goes with the accepted status codes and with them only, the status code
    is never 401, a time-out has the status code 0 and the date as given. *)
Definition linha_ok (id_ nome_ data_original codigo_ : string) (r : resultado)
  : Prop :=
  id_colaborador r = id_ /\ nome r = nome_ /\ codigo_horario r = codigo_
  /\ numero_retry r = None
  /\ (data r = converter_data data_original \/ data r = data_original)
  /\ (status r = "sucesso" \/ status r = "erro" \/ status r = "timeout")
  /\ (status r = "sucesso" <-> is_sucesso_status (status_code r) = true)
  /\ status_code r <> 401%Z
  /\ (status r = "timeout" -> status_code r = 0%Z /\ data r = data_original).

(** What every effect of a record is: the one request of the record, or a
    sleep of one of the two back-off scales. *)
Definition efeito_ok
    (base_url id_ nome_ data_original codigo_ : string) (colab : colaborador)
    (e : efeito) : Prop :=
  match e with
  | Put url corpo =>
      exists codigo,
        Py.int codigo_ = Some codigo
        /\ url = url_envio base_url id_ data_original
        /\ corpo = payload_envio id_ nome_ data_original codigo colab
  | Sleep d => exists t, d = backoff (1 # 2) t \/ d = backoff 2 t
  end.

(** The effects of [k] attempts that all time out, from attempt [t] on. *)
Fixpoint efeitos_timeouts (url : string) (corpo : payload) (k t : nat)
  : list efeito :=
  match k with
  | O => []
  | S k' =>
      Put url corpo ::
      match k' with
      | O => []
      | S _ => Sleep (backoff 2 t) :: efeitos_timeouts url corpo k' (S t)
      end
  end.

(** [s] has no character [c]. *)
Definition sem_char (c : ascii) (s : string) : Prop :=
  Py.all_chars (fun d => negb (Ascii.eqb d c)) s = true.

(** The last character of a string that is not empty is no white space. *)
Fixpoint termina_sem_espaco (s : string) : bool :=
  match s with
  | EmptyString => false
  | String c EmptyString => negb (Py.isspace c)
  | String _ s' => termina_sem_espaco s'
  end.

(** The row is of the kind [t] in the summary of the errors. *)
Definition do_tipo (t : string) (erro_ : resultado) : bool :=
  String.eqb (tipo_erro erro_) t.


(** The rows a retry cycle numbered [k] gets for the failed rows of a
    store. *)
Definition linhas_retry
    (servidor : nat -> nat -> reply) (k : nat) (resultados : list resultado)
  : list resultado :=
  set_numero_retry k <$>
    processar_lote base_url_senior 3 servidor
      (colaborador_retry <$> (separar_sucessos_e_erros resultados).2).

(** [posixpath.join] of two components. *)
Definition path_join_posix : OsPath := fun a b =>
  match b with
  | String "/" _ => b
  | _ =>
      match a with
      | EmptyString => b
      | _ => if Py.endswith "/" a then a +:+ b else a +:+ "/" +:+ b
      end
  end.

(** The optional columns of the flat format. *)
Definition campos_opcionais : list string :=
  ["numero_cadastro"; "numero_empresa"; "tipo_colaborador"].

(** A row of the flat format with surrounding blanks, and the same row cut
    short before its optional column. *)
Definition linha_csv_ex : gmap string (option string) :=
  list_to_map [("id_colaborador", Some " 303-1-16774 "); ("nome", Some "ANA");
               ("data", Some "01/10/2025"); ("codigo_horario", Some "1234 ")].

Definition linha_csv_curta : gmap string (option string) :=
  <["numero_cadastro" := None]> linha_csv_ex.

Definition na_fila (f : fase) : bool :=
  match f with NaFila => true | _ => false end.

(** What is left for a task to do, counted in steps of the batch. *)
Definition passos_restantes (max_retries : nat) (f : fase) : nat :=
  match f with
  | NaFila => 2 * max_retries + 2
  | Enviando t => 2 * (max_retries - t) + 1
  | Dormindo t => 2 * (max_retries - t)
  | Concluida => 0
  end.

Definition medida (max_retries : nat) (s : lote) : nat :=
  sum_list (passos_restantes max_retries <$> tarefas s).

(** A task sleeps only after an attempt that was not the last. *)
Definition sono_valido (max_retries : nat) (s : lote) : Prop :=
  Forall (fun f => match f with
                   | Dormindo t => t < max_retries
                   | _ => True
                   end) (tarefas s).

(** ** Tactics *)

(** Membership in a list that is written out. *)
Ltac na_lista :=
  repeat (first [ apply list_elem_of_here | apply list_elem_of_further ]).


(** Closes the leaves of the case analysis of one pass. *)
Ltac fecha_linha_ok :=
  unfold linha_ok;
  cbn [id_colaborador nome data codigo_horario status_code status
       numero_retry];
  repeat split;
  first [ reflexivity | assumption | discriminate | by left | by right
        | by (right; left) | by (right; right)
        | (intros; discriminate) | (intros; congruence)
        | (cbv; intros; discriminate) ].

Ltac fecha_efeitos t :=
  repeat (apply Forall_cons; split;
          [first [ by eexists | by (exists t; left) | by (exists t; right) ] |]);
  apply Forall_nil.

Ltac fecha_passo t :=
  cbn [app];
  split; [fecha_efeitos t |];
  split; [cbv; lia |];
  first [ by (split; [assumption | reflexivity])
        | (split; [reflexivity |]; split; [reflexivity |]; fecha_linha_ok) ].

(** * Properties *)

(** ** Text *)

Example strip_ex :
  Py.strip "  fr " = "fr" /\ Py.strip " a b  " = "a b" /\ Py.strip "   " = "".
Proof. repeat split; reflexivity. Qed.

Example upper_ex : Py.upper "0800-1600 fr" = "0800-1600 FR".
Proof. reflexivity. Qed.

Example split_ex : Py.split "/" "01/10/2025" = ["01"; "10"; "2025"].
Proof. reflexivity. Qed.

Example split_ex2 : Py.split "-" "303-1-" = ["303"; "1"; ""].
Proof. reflexivity. Qed.

Example zfill_ex : Py.zfill 2 "1" = "01" /\ Py.zfill 2 "2025" = "2025".
Proof. split; reflexivity. Qed.

Example int_ex :
  Py.int " 1234 " = Some 1234%Z /\ Py.int "-7" = Some (-7)%Z
  /\ Py.int "1_000" = Some 1000%Z /\ Py.int "12a" = None /\ Py.int "" = None.
Proof. repeat split; reflexivity. Qed.

Example str_ex : Py.str 0 = "0" /\ Py.str 1234 = "1234" /\ Py.str (-5) = "-5".
Proof. repeat split; reflexivity. Qed.

Example contains_ex :
  Py.contains "**" "A**" = true /\ Py.contains "MAT" "FORMATO" = true
  /\ Py.contains "" "" = true /\ Py.contains "MAT" "MA" = false.
Proof. repeat split; reflexivity. Qed.

Example to_numeric_decimal_ex :
  to_numeric_decimal "1234.0" = Finite (12340 # 10)
  /\ to_numeric_decimal "abc" = NaN
  /\ to_numeric_decimal "" = NaN
  /\ to_numeric_decimal "-12.75" = Finite (-1275 # 100)
  /\ to_numeric_decimal "inf" = Infinite.
Proof. repeat split; reflexivity. Qed.

Example converter_formato_horario_ex :
  converter_formato_horario "0800-1600" = Some "08:0016:00"
  /\ converter_formato_horario "2200-0400" = Some "22:0004:00"
  /\ converter_formato_horario "800-1600" = None
  /\ converter_formato_horario "0800-1600 " = None
  /\ converter_formato_horario "" = None.
Proof. repeat split; reflexivity. Qed.

(** A digit is no white space, and none of the characters the rules of the
    grid test for. *)
Lemma isdigit_char_cases c :
  Py.isdigit_char c = true ->
  c ∈ ["0"; "1"; "2"; "3"; "4"; "5"; "6"; "7"; "8"; "9"]%char.
Proof.
  destruct c as [[] [] [] [] [] [] [] []]; cbv; intros Hc;
    try discriminate Hc;
    repeat (first [ apply list_elem_of_here | apply list_elem_of_further ]).
Qed.

Lemma isdigit_not_space c : Py.isdigit_char c = true -> Py.isspace c = false.
Proof.
  intros Hc. apply isdigit_char_cases in Hc.
  repeat (apply elem_of_cons in Hc as [-> | Hc]; [reflexivity |]).
  by apply elem_of_nil in Hc.
Qed.

Lemma all_chars_impl (p q : ascii -> bool) s :
  (forall c, p c = true -> q c = true) ->
  Py.all_chars p s = true -> Py.all_chars q s = true.
Proof.
  intros Hpq. induction s as [| c s IH]; simpl; [done |].
  rewrite !andb_true_iff. intros [Hc Hs]. auto.
Qed.

Lemma lstrip_id c s : Py.isspace c = false -> Py.lstrip (String c s) = String c s.
Proof. intros Hc. simpl. by rewrite Hc. Qed.

Lemma rstrip_id s :
  Py.all_chars (fun c => negb (Py.isspace c)) s = true -> Py.rstrip s = s.
Proof.
  induction s as [| c s IH]; simpl; [done |].
  rewrite andb_true_iff, negb_true_iff. intros [Hc Hs].
  rewrite (IH Hs), Hc. by destruct s.
Qed.

Lemma strip_id s :
  Py.all_chars (fun c => negb (Py.isspace c)) s = true -> Py.strip s = s.
Proof.
  intros Hs. unfold Py.strip. destruct s as [| c s]; [done |].
  pose proof Hs as Hs'. simpl in Hs'.
  apply andb_true_iff in Hs' as [Hc _]. apply negb_true_iff in Hc.
  rewrite (lstrip_id _ _ Hc). by apply rstrip_id.
Qed.

(** ** [str] of an integer *)

Lemma string_of_uint_digits d :
  Py.all_chars Py.isdigit_char (NilEmpty.string_of_uint d) = true.
Proof. induction d; simpl; auto. Qed.

Lemma nilzero_isdigit d : Py.isdigit (NilZero.string_of_uint d) = true.
Proof.
  destruct d; try reflexivity; simpl; apply string_of_uint_digits.
Qed.

Lemma isdigit_texto_inteiro s : Py.isdigit s = true -> texto_inteiro s = true.
Proof.
  destruct s as [| c s]; [done |]. intros Hs.
  assert (Hc : Py.isdigit_char c = true).
  { simpl in Hs. by apply andb_true_iff in Hs as [? _]. }
  apply isdigit_char_cases in Hc.
  repeat (apply elem_of_cons in Hc as [-> | Hc]; [exact Hs |]).
  by apply elem_of_nil in Hc.
Qed.

Lemma str_texto_inteiro z : texto_inteiro (Py.str z) = true.
Proof.
  unfold Py.str. destruct (Z.to_int z) as [d | d]; simpl.
  - apply isdigit_texto_inteiro, nilzero_isdigit.
  - apply nilzero_isdigit.
Qed.

Lemma isdigit_all_chars s :
  Py.isdigit s = true -> Py.all_chars Py.isdigit_char s = true.
Proof. by destruct s. Qed.

Lemma texto_inteiro_chars s :
  texto_inteiro s = true ->
  Py.all_chars (fun c => Py.isdigit_char c || Ascii.eqb c "-") s = true.
Proof.
  intros Hs.
  assert (Hd : forall t, Py.isdigit t = true ->
    Py.all_chars (fun c => Py.isdigit_char c || Ascii.eqb c "-") t = true).
  { intros t Ht. apply isdigit_all_chars in Ht.
    revert Ht. apply all_chars_impl. intros c ->. done. }
  destruct s as [| c s]; [done |].
  destruct (Ascii.eqb_spec c "-") as [-> | Hne].
  - simpl. destruct s as [| c' s']; [done |]. by apply Hd.
  - apply Hd. revert Hs. unfold texto_inteiro.
    destruct c as [[] [] [] [] [] [] [] []]; try done.
Qed.

Lemma texto_inteiro_nonempty s : texto_inteiro s = true -> s <> "".
Proof. by destruct s. Qed.

Lemma texto_inteiro_strip s : texto_inteiro s = true -> Py.strip s = s.
Proof.
  intros Hs. apply strip_id. apply texto_inteiro_chars in Hs.
  revert Hs. apply all_chars_impl. intros c Hc.
  apply orb_true_iff in Hc as [Hc | Hc].
  - by rewrite (isdigit_not_space _ Hc).
  - apply Ascii.eqb_eq in Hc as ->. reflexivity.
Qed.


(** ** The reference table *)

Example read_horarios_ex :
  read_horarios (H := pandas_decimal) (Some frame_ex)
  = Some [ {| h_codigo_horario := "1234"; h_id_script := "08:0016:00" |};
           {| h_codigo_horario := "77"; h_id_script := "ESC-A" |};
           {| h_codigo_horario := "0"; h_id_script := "ESC-B" |} ].
Proof. reflexivity. Qed.

Example read_horarios_missing_column :
  read_horarios (H := pandas_decimal)
    (Some {| columns := ["CÓDIGO HORÁRIO"]; linhas := [("1", "A")] |}) = None.
Proof. reflexivity. Qed.

Example read_horarios_infinite :
  read_horarios (H := pandas_decimal)
    (Some {| columns := required_cols; linhas := [("inf", "A")] |}) = None.
Proof. reflexivity. Qed.

Section Tabela.

Context `{Pandas}.

Lemma normalizar_linha_Some l h :
  normalizar_linha l = Some h ->
  exists z, astype_int (fillna0 (to_numeric l.1)) = Some z
            /\ h = {| h_codigo_horario := Py.str z;
                      h_id_script := Py.strip l.2 |}.
Proof.
  unfold normalizar_linha. intros Hl.
  destruct (astype_int (fillna0 (to_numeric l.1))) as [z |]; [| done].
  exists z. split; [done |]. simpl in Hl. congruence.
Qed.


Lemma load_fresh arquivo :
  (load_horarios_mapping None arquivo).1 = read_horarios arquivo.
Proof.
  unfold load_horarios_mapping. by destruct (read_horarios arquivo).
Qed.

Lemma read_horarios_Some arquivo df :
  read_horarios arquivo = Some df ->
  exists fr, arquivo = Some fr
             /\ Forall2 (fun l h => normalizar_linha l = Some h) (linhas fr) df.
Proof.
  unfold read_horarios. destruct arquivo as [fr |]; [| done].
  destruct (filter _ required_cols); [| done].
  intros Hm. exists fr. split; [done |]. by apply mapM_Some.
Qed.


(** A code found in a loaded table is the text of an integer. *)
Lemma loaded_codes arquivo df h :
  (load_horarios_mapping None arquivo).1 = Some df ->
  h ∈ df ->
  exists z, h_codigo_horario h = Py.str z.
Proof.
  rewrite load_fresh. intros Hdf Hh.
  apply read_horarios_Some in Hdf as (fr & _ & Hall).
  apply list_elem_of_lookup in Hh as [i Hi].
  destruct (Forall2_lookup_r _ _ _ _ _ Hall Hi) as (l & _ & Hl).
  apply normalizar_linha_Some in Hl as (z & _ & ->). by exists z.
Qed.

Lemma find_codigo_horario_Some cod_escala df codigo :
  find_codigo_horario (Some cod_escala) (Some df) = Some codigo ->
  exists h, h ∈ df /\ h_id_script h = Py.strip cod_escala
            /\ codigo = Py.strip (h_codigo_horario h).
Proof.
  unfold find_codigo_horario.
  destruct (filter _ df) as [| h hs] eqn:Hf; [done |].
  intros [= <-]. exists h.
  assert (Hh : h ∈ filter
            (fun h => String.eqb (h_id_script h) (Py.strip cod_escala)) df).
  { rewrite Hf. apply list_elem_of_here. }
  apply list_elem_of_filter in Hh as [Hk Hh].
  split; [done |]. split; [| done].
  apply String.eqb_eq. by apply Is_true_true.
Qed.

(** What a look-up in a loaded table returns is a non-empty integer text. *)
Lemma find_loaded arquivo df cod_escala codigo :
  (load_horarios_mapping None arquivo).1 = Some df ->
  find_codigo_horario (Some cod_escala) (Some df) = Some codigo ->
  exists z, codigo = Py.str z /\ Py.truthy (Some codigo) = true.
Proof.
  intros Hdf Hfind.
  apply find_codigo_horario_Some in Hfind as (h & Hh & _ & ->).
  destruct (loaded_codes _ _ _ Hdf Hh) as [z ->].
  rewrite (texto_inteiro_strip _ (str_texto_inteiro z)).
  exists z. split; [done |].
  pose proof (texto_inteiro_nonempty _ (str_texto_inteiro z)).
  simpl. by destruct (Py.str z).
Qed.


Lemma find_codigo_horario_present dpre h dpos cod_escala :
  h_id_script h = Py.strip cod_escala ->
  is_Some (find_codigo_horario (Some cod_escala) (Some (dpre ++ h :: dpos))).
Proof.
  intros Hk. unfold find_codigo_horario.
  rewrite filter_app, filter_cons.
  destruct (decide _) as [| Hno].
  - destruct (filter _ dpre); simpl; eauto.
  - exfalso. apply Hno. apply Is_true_true. by apply String.eqb_eq.
Qed.

End Tabela.






(** ** The rules of the grid *)

Example chave_hhmm_ex : chave_hhmm "0800" "1600" = "08:0016:00".
Proof. reflexivity. Qed.





Lemma contains_cons sub c s :
  Py.contains sub (String c s)
  = String.prefix sub (String c s) || Py.contains sub s.
Proof. reflexivity. Qed.




Lemma incr_lookup k (stats : gmap string nat) n :
  stats !! k = Some n -> incr k stats !! k = Some (S n).
Proof. intros Hk. unfold incr. by rewrite lookup_insert_eq, Hk. Qed.

Lemma incr_lookup_ne k k' (stats : gmap string nat) :
  k <> k' -> incr k stats !! k' = stats !! k'.
Proof. intros Hk. unfold incr. by rewrite lookup_insert_ne. Qed.






(** What the loop body does with an FR cell. *)
Lemma processar_celula_fr
    horarios_df codigo_base nome mat row col_index date_str cell
    converted_rows stats :
  row !! col_index = Some cell ->
  Py.upper (Py.strip cell) = "FR" ->
  processar_celula horarios_df codigo_base nome mat row
    (converted_rows, stats) (col_index, date_str)
  = (converted_rows ++
       [ {| r_id_colaborador := "303-1-" +:+ mat; r_nome := nome;
            r_data := date_str; r_codigo_horario := "9999" |} ],
     incr "total_registros" (incr "fr_9999" stats)).
Proof.
  intros Hcell Hfr. unfold processar_celula. rewrite Hcell, Hfr. reflexivity.
Qed.



(** ** The conversion as a whole *)

Example extrair_date_columns_ex :
  extrair_date_columns (H := datetime_dmy)
    ["NOME"; "MAT"; "COD. ESCALA"; "01/10/2025"; "'02/10/2025 Qui"; "OBS";
     "03/10/2025"]
  = [(3, "01/10/2025"); (4, "'02/10/2025 Qui"); (6, "03/10/2025")].
Proof. reflexivity. Qed.

Example convert_dados_to_senior_ex :
  exists stats,
    convert_dados_to_senior (H := pandas_decimal) (H0 := datetime_dmy)
      (Some grade_ex) None (Some frame_ex)
    = Convertido
        [ {| r_id_colaborador := "303-1-16774"; r_nome := "ANA";
             r_data := "01/10/2025"; r_codigo_horario := "77" |};
          {| r_id_colaborador := "303-1-16774"; r_nome := "ANA";
             r_data := "'02/10/2025 Qui"; r_codigo_horario := "9999" |};
          {| r_id_colaborador := "303-1-16774"; r_nome := "ANA";
             r_data := "03/10/2025"; r_codigo_horario := "1234" |};
          {| r_id_colaborador := "303-1-200"; r_nome := "BIA";
             r_data := "01/10/2025"; r_codigo_horario := "77" |};
          {| r_id_colaborador := "303-1-200"; r_nome := "BIA";
             r_data := "03/10/2025"; r_codigo_horario := "77" |};
          {| r_id_colaborador := "303-1-300"; r_nome := "CAIO";
             r_data := "'02/10/2025 Qui"; r_codigo_horario := "9999" |} ]
        stats
    /\ map_to_list stats
       ≡ₚ [("total_colaboradores", 3); ("total_registros", 6);
           ("vazio_busca", 1); ("fe_busca", 0); ("tr_busca", 1);
           ("fr_9999", 2); ("asterisco_ignorado", 1);
           ("formato_convertido", 1); ("formato_convertido_fallback", 1);
           ("codigo_nao_encontrado", 2)].
Proof.
  eexists. split; [vm_compute; reflexivity |].
  vm_compute. by apply (bool_decide_unpack _).
Qed.

Example convert_dados_to_senior_failures :
  convert_dados_to_senior (H := pandas_decimal) (H0 := datetime_dmy)
    None None (Some frame_ex) = Falhou EntradaNaoEncontrada
  /\ convert_dados_to_senior (H := pandas_decimal) (H0 := datetime_dmy)
       (Some grade_ex) None None = Falhou HorariosNaoCarregados
  /\ convert_dados_to_senior (H := pandas_decimal) (H0 := datetime_dmy)
       (Some [["NOME"; "MAT"; "COD. ESCALA"]]) None (Some frame_ex)
     = Falhou CabecalhoInvalido
  /\ convert_dados_to_senior (H := pandas_decimal) (H0 := datetime_dmy)
       (Some []) None (Some frame_ex) = Falhou Excecao.
Proof. repeat split; reflexivity. Qed.

(** The loops only append to [converted_rows]. *)
Lemma processar_celula_prefix horarios_df codigo_base nome mat row acc coluna :
  exists novos,
    (processar_celula horarios_df codigo_base nome mat row acc coluna).1
    = acc.1 ++ novos.
Proof.
  destruct acc as [converted_rows stats], coluna as [col_index date_str].
  unfold processar_celula.
  destruct (aplicar_regras _ _ _ _) as [[codigo skip] stats'].
  destruct codigo as [[| c s] |], skip; simpl;
    first [ by exists []; rewrite app_nil_r | by eexists ].
Qed.

Lemma foldl_celulas_prefix horarios_df codigo_base nome mat row colunas acc :
  exists novos,
    (foldl (processar_celula horarios_df codigo_base nome mat row)
       acc colunas).1
    = acc.1 ++ novos.
Proof.
  revert acc. induction colunas as [| c cs IH]; intros acc; simpl.
  - exists []. by rewrite app_nil_r.
  - destruct (IH (processar_celula horarios_df codigo_base nome mat row acc c))
      as [n2 Hn2].
    destruct (processar_celula_prefix horarios_df codigo_base nome mat row
                acc c) as [n1 Hn1].
    exists (n1 ++ n2). by rewrite Hn2, Hn1, app_assoc.
Qed.

Lemma processar_linha_prefix horarios_df date_columns acc row :
  exists novos,
    (processar_linha horarios_df date_columns acc row).1 = acc.1 ++ novos.
Proof.
  unfold processar_linha.
  destruct (length row <? 3); [by exists []; rewrite app_nil_r |].
  destruct (_ || _); [by exists []; rewrite app_nil_r |].
  apply (foldl_celulas_prefix _ _ _ _ _ _ (acc.1, _)).
Qed.

Lemma foldl_linhas_prefix horarios_df date_columns reader acc :
  exists novos,
    (foldl (processar_linha horarios_df date_columns) acc reader).1
    = acc.1 ++ novos.
Proof.
  revert acc. induction reader as [| r rs IH]; intros acc; simpl.
  - exists []. by rewrite app_nil_r.
  - destruct (IH (processar_linha horarios_df date_columns acc r))
      as [n2 Hn2].
    destruct (processar_linha_prefix horarios_df date_columns acc r)
      as [n1 Hn1].
    exists (n1 ++ n2). by rewrite Hn2, Hn1, app_assoc.
Qed.

(** Every FR cell of a row that is converted (three fields or more, a name
    and a registration number) under a recognised date column has its record
    with the code "9999" among the rows the conversion of the row adds. *)
Lemma fr_cell_in_row
    horarios_df date_columns acc row nome mat cod col_index date_str cell :
  row !! 0 = Some nome -> row !! 1 = Some mat -> row !! 2 = Some cod ->
  Py.strip nome <> "" -> Py.strip mat <> "" ->
  (col_index, date_str) ∈ date_columns ->
  row !! col_index = Some cell ->
  Py.upper (Py.strip cell) = "FR" ->
  {| r_id_colaborador := "303-1-" +:+ Py.strip mat; r_nome := Py.strip nome;
     r_data := date_str; r_codigo_horario := "9999" |}
  ∈ (processar_linha horarios_df date_columns acc row).1.
Proof.
  intros H0 H1 H2 Hnome Hmat Hcol Hcell Hfr.
  unfold processar_linha.
  assert (Hlen : (length row <? 3) = false).
  { apply Nat.ltb_ge. apply lookup_lt_Some in H2. lia. }
  rewrite Hlen, H0, H1, H2. simpl default.
  apply String.eqb_neq in Hnome, Hmat. rewrite Hnome, Hmat. simpl orb. cbv iota.
  apply list_elem_of_split in Hcol as (c1 & c2 & ->).
  rewrite foldl_app. simpl foldl.
  set (antes := foldl _ _ c1). destruct antes as [rows1 stats1] eqn:Hantes.
  rewrite (processar_celula_fr _ _ _ _ _ _ _ _ _ _ Hcell Hfr).
  destruct (foldl_celulas_prefix horarios_df
              (find_codigo_horario (Some (Py.strip cod)) horarios_df)
              (Py.strip nome) (Py.strip mat) row c2
              (rows1 ++
                 [ {| r_id_colaborador := "303-1-" +:+ Py.strip mat;
                      r_nome := Py.strip nome; r_data := date_str;
                      r_codigo_horario := "9999" |} ],
               incr "total_registros" (incr "fr_9999" stats1)))
    as [novos ->].
  simpl. rewrite !elem_of_app. left. right. apply list_elem_of_here.
Qed.

(** ** One submission: attempts and back-off *)

Example backoff_ex :
  backoff (1 # 2) 1 = (1 # 2)%Q /\ backoff (1 # 2) 2 = 1%Q
  /\ backoff (1 # 2) 3 = 2%Q
  /\ backoff 2 1 = 2%Q /\ backoff 2 2 = 4%Q /\ backoff 2 3 = 8%Q.
Proof. repeat split; reflexivity. Qed.

Example converter_data_ex :
  converter_data "01/10/2025" = "2025-10-01"
  /\ converter_data "1/9/2025" = "2025-09-01"
  /\ converter_data "2025-10-01" = "2025-10-01"
  /\ converter_data "01/10" = "01/10".
Proof. repeat split; reflexivity. Qed.

Section SempreErro.

Variable base_url : string.
Variable max_retries : nat.
Variable servidor : nat -> reply.
Variables id_colaborador_ nome_ data_original codigo_horario_ : string.
Variable colaborador_data : colaborador.
Variable codigo : Z.
Variable st : nat -> Z.
Variable text : nat -> string.

Hypothesis codigo_ok : Py.int codigo_horario_ = Some codigo.
Hypothesis servidor_responde : forall t, servidor t = Response (st t) (text t).
Hypothesis nunca_aceita : forall t, is_sucesso_status (st t) = false.
Hypothesis nunca_401 : forall t, st t <> 401%Z.

Let url := url_envio base_url id_colaborador_ data_original.
Let corpo :=
  payload_envio id_colaborador_ nome_ data_original codigo colaborador_data.

Lemma uma_tentativa_erro t :
  uma_tentativa base_url max_retries servidor id_colaborador_ nome_
    data_original codigo_horario_ colaborador_data t
  = if t <? max_retries
    then ([Put url corpo; Sleep (backoff (1 # 2) t)], Continua)
    else ([Put url corpo],
          Retorna (resultado_http id_colaborador_ nome_ data_original
                     codigo_horario_ t (st t) (text t))).
Proof.
  unfold uma_tentativa, corpo_tentativa.
  rewrite codigo_ok, servidor_responde.
  pose proof (nunca_401 t) as H401. apply Z.eqb_neq in H401.
  rewrite H401. unfold resultado_http. rewrite nunca_aceita.
  by destruct (t <? max_retries).
Qed.

Lemma laco_tentativas_S k t :
  laco_tentativas base_url max_retries servidor id_colaborador_ nome_
    data_original codigo_horario_ colaborador_data (S k) t
  = match uma_tentativa base_url max_retries servidor id_colaborador_ nome_
            data_original codigo_horario_ colaborador_data t with
    | (efs, Retorna r) => (efs, inr r)
    | (efs, Levanta e) => (efs, inl e)
    | (efs, Continua) =>
        let '(efs', r) :=
          laco_tentativas base_url max_retries servidor id_colaborador_
            nome_ data_original codigo_horario_ colaborador_data k (S t) in
        (efs ++ efs', r)
    end.
Proof. reflexivity. Qed.

Lemma laco_tentativas_erro k t :
  t + k = max_retries ->
  laco_tentativas base_url max_retries servidor id_colaborador_ nome_
    data_original codigo_horario_ colaborador_data (S k) t
  = (efeitos_erros url corpo (S k) t,
     inr (resultado_http id_colaborador_ nome_ data_original codigo_horario_
            max_retries (st max_retries) (text max_retries))).
Proof.
  revert t. induction k as [| k IH]; intros t Ht.
  - rewrite laco_tentativas_S, uma_tentativa_erro.
    assert (t = max_retries) as -> by lia.
    rewrite Nat.ltb_irrefl. reflexivity.
  - rewrite laco_tentativas_S, uma_tentativa_erro.
    assert (Hlt : (t <? max_retries) = true) by (apply Nat.ltb_lt; lia).
    rewrite Hlt, (IH (S t)) by lia. reflexivity.
Qed.

End SempreErro.

(** With any attempt cap [n >= 1], a record that only gets error responses
    is sent [n] times, sleeps [0.5 * 2^(t-1)] after each attempt [t < n], and
    ends as an error with [n] attempts. *)
Lemma tentar_envio_sempre_erro
    base_url n servidor id_ nome_ data_original codigo_horario_ colab codigo
    st text :
  Py.int codigo_horario_ = Some codigo ->
  (forall t, servidor t = Response (st t) (text t)) ->
  (forall t, is_sucesso_status (st t) = false) ->
  (forall t, st t <> 401%Z) ->
  _tentar_envio base_url (S n) servidor id_ nome_ data_original
    codigo_horario_ colab
  = (efeitos_erros (url_envio base_url id_ data_original)
       (payload_envio id_ nome_ data_original codigo colab) (S n) 1,
     inr (resultado_http id_ nome_ data_original codigo_horario_
            (S n) (st (S n)) (text (S n)))).
Proof.
  intros Hc Hs Hne H401. unfold _tentar_envio.
  by apply laco_tentativas_erro; [| | | | lia].
Qed.

Lemma efeitos_erros_pedidos url corpo k t :
  pedidos (efeitos_erros url corpo k t) = k.
Proof.
  revert t. induction k as [| k IH]; intros t; [done |].
  destruct k as [| k']; [done |].
  specialize (IH (S t)). unfold pedidos in *.
  cbn [efeitos_erros List.filter length] in *.
  by rewrite IH.
Qed.

Lemma efeitos_erros_esperas url corpo k t :
  esperas (efeitos_erros url corpo (S k) t)
  = backoff (1 # 2) <$> seq t k.
Proof.
  revert t. induction k as [| k IH]; intros t; [done |].
  specialize (IH (S t)). unfold esperas in *.
  cbn [efeitos_erros omap list_omap seq fmap list_fmap] in *.
  by rewrite IH.
Qed.

(** No exception leaves a pass through the attempt loop: the handlers turn
    every one, [TokenExpiradoException] included, into a sleep or a row. *)
Lemma uma_tentativa_no_raise
    base_url max_retries servidor id_ nome_ data_original codigo_horario_
    colab t efs e :
  uma_tentativa base_url max_retries servidor id_ nome_ data_original
    codigo_horario_ colab t <> (efs, Levanta e).
Proof.
  unfold uma_tentativa.
  destruct (corpo_tentativa _ _ _ _ _ _ _ _ _) as [efs0 [r | | e0]];
    try congruence.
  unfold tratar_excecao.
  destruct (classe e0), (t <? max_retries); simpl; congruence.
Qed.

Lemma laco_tentativas_returns
    base_url max_retries servidor id_ nome_ data_original codigo_horario_
    colab k t :
  exists r,
    (laco_tentativas base_url max_retries servidor id_ nome_ data_original
       codigo_horario_ colab k t).2 = inr r.
Proof.
  revert t. induction k as [| k IH]; intros t; simpl; [eauto |].
  destruct (uma_tentativa _ _ _ _ _ _ _ _ t) as [efs p] eqn:Hu.
  destruct p as [r | | e].
  - eauto.
  - destruct (IH (S t)) as [r Hr].
    destruct (laco_tentativas _ _ _ _ _ _ _ _ k (S t)) as [efs' r'].
    simpl in *. eauto.
  - by apply uma_tentativa_no_raise in Hu.
Qed.

(** [enviar_programacao] returns a row for every record and every behaviour
    of the remote end: it never raises. *)
Lemma enviar_programacao_returns base_url max_retries servidor colab :
  exists r, (enviar_programacao base_url max_retries servidor colab).2 = inr r.
Proof. apply laco_tentativas_returns. Qed.

Lemma non_2xx_not_accepted (st : Z) :
  (st < 200 \/ 300 <= st)%Z -> is_sucesso_status st = false.
Proof.
  intros Hst. unfold is_sucesso_status.
  destruct (Z.eqb_spec st 200), (Z.eqb_spec st 201), (Z.eqb_spec st 204);
    simpl; lia || reflexivity.
Qed.

(** C3: with the attempt cap of 3 the client is built with, a record whose
    remote end answers every attempt with a status that is neither 2xx nor
    401 is sent exactly three times, with a sleep of 0.5 s after the first
    attempt and of 1 s after the second (0.5 * 2^(attempt-1)) and none after
    the third; its row has status "erro", 3 attempts and the status code of
    the last response. *)
Theorem always_error_three_attempts
    base_url servidor colab codigo (st : nat -> Z) (text : nat -> string) :
  Py.int (c_codigo_horario colab) = Some codigo ->
  (forall t, servidor t = Response (st t) (text t)) ->
  (forall t, (st t < 200 \/ 300 <= st t)%Z /\ st t <> 401%Z) ->
  exists url corpo r,
    enviar_programacao base_url 3 servidor colab
    = ([Put url corpo; Sleep (backoff (1 # 2) 1); Put url corpo;
        Sleep (backoff (1 # 2) 2); Put url corpo], inr r)
    /\ backoff (1 # 2) 1 = (1 # 2)%Q /\ backoff (1 # 2) 2 = 1%Q
    /\ pedidos (enviar_programacao base_url 3 servidor colab).1 = 3
    /\ esperas (enviar_programacao base_url 3 servidor colab).1
       = [(1 # 2)%Q; 1%Q]
    /\ status r = "erro" /\ tentativas r = 3 /\ status_code r = st 3.
Proof.
  intros Hc Hs Hst.
  assert (Hne : forall t, is_sucesso_status (st t) = false).
  { intros t. apply non_2xx_not_accepted, Hst. }
  assert (H401 : forall t, st t <> 401%Z) by (intros t; apply Hst).
  unfold enviar_programacao.
  rewrite (tentar_envio_sempre_erro _ 2 _ _ _ _ _ _ _ st text Hc Hs Hne H401).
  eexists _, _, _. split; [reflexivity |].
  repeat split; try reflexivity.
  cbn [resultado_http status]. by rewrite Hne.
Qed.

Lemma always_error_three_attempts_witness :
  exists url corpo r,
    enviar_programacao base_url_senior 3
      (fun _ => Response 500 "Internal Server Error") colaborador_ex
    = ([Put url corpo; Sleep (backoff (1 # 2) 1); Put url corpo;
        Sleep (backoff (1 # 2) 2); Put url corpo], inr r)
    /\ backoff (1 # 2) 1 = (1 # 2)%Q /\ backoff (1 # 2) 2 = 1%Q
    /\ pedidos (enviar_programacao base_url_senior 3
                  (fun _ => Response 500 "Internal Server Error")
                  colaborador_ex).1 = 3
    /\ esperas (enviar_programacao base_url_senior 3
                  (fun _ => Response 500 "Internal Server Error")
                  colaborador_ex).1
       = [(1 # 2)%Q; 1%Q]
    /\ status r = "erro" /\ tentativas r = 3 /\ status_code r = 500%Z.
Proof.
  apply (always_error_three_attempts base_url_senior
           (fun _ => Response 500 "Internal Server Error") colaborador_ex
           1234%Z (fun _ => 500%Z) (fun _ => "Internal Server Error")).
  - reflexivity.
  - reflexivity.
  - intros _. lia.
Defined.

Example envio_500_ex :
  enviar_programacao base_url_senior 3
    (fun _ => Response 500 "Internal Server Error") colaborador_ex
  = ([Put url_ex payload_ex; Sleep (1 # 2); Put url_ex payload_ex; Sleep 1;
      Put url_ex payload_ex],
     inr {| id_colaborador := "303-1-16774"; nome := "ANA";
            data := "2025-10-01"; codigo_horario := "1234";
            status_code := 500; status := "erro";
            response_text := "Internal Server Error"; erro := "";
            tentativas := 3; numero_retry := None |}).
Proof. reflexivity. Qed.

Example envio_200_ex :
  enviar_programacao base_url_senior 3 (fun _ => Response 200 "ok")
    colaborador_ex
  = ([Put url_ex payload_ex],
     inr {| id_colaborador := "303-1-16774"; nome := "ANA";
            data := "2025-10-01"; codigo_horario := "1234";
            status_code := 200; status := "sucesso";
            response_text := "ok"; erro := "";
            tentativas := 1; numero_retry := None |}).
Proof. reflexivity. Qed.

(** A code that is no integer never reaches the remote end: [int(...)]
    raises on every pass, with the back-off of an ordinary error. *)
Example envio_codigo_invalido_ex :
  enviar_programacao base_url_senior 3 (fun _ => Response 200 "ok")
    {| c_id_colaborador := "303-1-16774"; c_nome := "ANA";
       c_data := "01/10/2025"; c_codigo_horario := "12.5";
       c_numero_cadastro := ""; c_numero_empresa := "";
       c_tipo_colaborador := "1" |}
  = ([Sleep (1 # 2); Sleep 1],
     inr {| id_colaborador := "303-1-16774"; nome := "ANA";
            data := "01/10/2025"; codigo_horario := "12.5";
            status_code := 0; status := "erro";
            response_text := "invalid literal for int() with base 10: '12.5'";
            erro := "invalid literal for int() with base 10: '12.5'";
            tentativas := 3; numero_retry := None |}).
Proof. reflexivity. Qed.

Example envio_timeout_ex :
  enviar_programacao base_url_senior 3 (fun _ => Raises timeout_exn)
    colaborador_ex
  = ([Put url_ex payload_ex; Sleep 2; Put url_ex payload_ex; Sleep 4;
      Put url_ex payload_ex],
     inr {| id_colaborador := "303-1-16774"; nome := "ANA";
            data := "01/10/2025"; codigo_horario := "1234";
            status_code := 0; status := "timeout";
            response_text :=
              "Timeout na requisição após 3 tentativas (60s cada)";
            erro := "Timeout"; tentativas := 3; numero_retry := None |}).
Proof. reflexivity. Qed.

(** C1, on the code: a record that gets HTTP 401.  The
    [TokenExpiradoException] raised for the 401 is caught by the generic
    handler of the attempt loop.  With a 401 on every attempt the record is
    sent three times with the back-off of an ordinary error, and
    [processar_lote] returns to its caller with a row of status "erro" for
    it; with a 401 on the first attempt and a 200 on the second, the row is a
    success with two attempts. *)
Theorem http_401_is_retried_as_generic_error :
  processar_lote base_url_senior 3 (fun _ _ => Response 401 "Unauthorized")
    [colaborador_ex]
  = [ {| id_colaborador := "303-1-16774"; nome := "ANA";
         data := "01/10/2025"; codigo_horario := "1234";
         status_code := 0; status := "erro";
         response_text := "Token de autenticação expirado ou inválido";
         erro := "Token de autenticação expirado ou inválido";
         tentativas := 3; numero_retry := None |} ]
  /\ efeitos_lote base_url_senior 3 (fun _ _ => Response 401 "Unauthorized")
       [colaborador_ex]
     = [ [Put url_ex payload_ex; Sleep (1 # 2); Put url_ex payload_ex;
          Sleep 1; Put url_ex payload_ex] ]
  /\ enviar_programacao base_url_senior 3
       (fun t => if t =? 1 then Response 401 "Unauthorized"
                 else Response 200 "ok")
       colaborador_ex
     = ([Put url_ex payload_ex; Sleep (1 # 2); Put url_ex payload_ex],
        inr {| id_colaborador := "303-1-16774"; nome := "ANA";
               data := "2025-10-01"; codigo_horario := "1234";
               status_code := 200; status := "sucesso";
               response_text := "ok"; erro := "";
               tentativas := 2; numero_retry := None |}).
Proof. repeat split; reflexivity. Qed.

(** Whatever the remote end does, [processar_lote] hands back one row per
    record. *)
Lemma processar_lote_length base_url max_retries servidor colaboradores :
  length (processar_lote base_url max_retries servidor colaboradores)
  = length colaboradores.
Proof. unfold processar_lote. apply length_imap. Qed.

(** ** The retry loop *)

Lemma filter_erros_nil resultados :
  Forall (fun r => status r = "sucesso") resultados ->
  List.filter (fun r => negb (is_sucesso r)) resultados = [].
Proof.
  induction 1 as [| r rs Hr _ IH]; [done |].
  simpl. unfold is_sucesso at 1. rewrite Hr. simpl. exact IH.
Qed.

(** C8: a pass of the retry loop over a store in which every row has status
    "sucesso" sends nothing again, produces no new row and leaves the store
    as it is. *)
Theorem retry_on_success_only_is_noop servidor quer_retry n resultados :
  Forall (fun r => status r = "sucesso") resultados ->
  ciclo_retry servidor quer_retry n resultados = Encerra resultados
  /\ reenviados (ciclo_retry servidor quer_retry n resultados) = []
  /\ novos_resultados (ciclo_retry servidor quer_retry n resultados) = []
  /\ armazem (ciclo_retry servidor quer_retry n resultados) = resultados.
Proof.
  intros Hall.
  assert (Hc : ciclo_retry servidor quer_retry n resultados
               = Encerra resultados).
  { unfold ciclo_retry, separar_sucessos_e_erros.
    by rewrite (filter_erros_nil _ Hall). }
  rewrite Hc. done.
Qed.

Lemma retry_on_success_only_is_noop_witness :
  ciclo_retry (fun _ _ => Response 500 "") true 0 armazem_sucesso
  = Encerra armazem_sucesso
  /\ reenviados
       (ciclo_retry (fun _ _ => Response 500 "") true 0 armazem_sucesso) = []
  /\ novos_resultados
       (ciclo_retry (fun _ _ => Response 500 "") true 0 armazem_sucesso) = []
  /\ armazem (ciclo_retry (fun _ _ => Response 500 "") true 0 armazem_sucesso)
     = armazem_sucesso.
Proof.
  apply (retry_on_success_only_is_noop (fun _ _ => Response 500 "") true 0
           armazem_sucesso).
  repeat constructor.
Defined.

(** C2, on the code: a record dated 01/10/2025 that timed out in the first
    pass and is accepted (HTTP 200) in retry cycle 1.  The row of the time-out
    keeps the date as it was given, the row of the response has it as
    2025-10-01, so the two keys differ: the store still holds the time-out
    row, tagged with cycle 0, and the new row is in the store nowhere. *)
Theorem retry_of_timeout_row_is_not_stored :
  armazem_timeout = [linha_timeout]
  /\ ciclo_retry (fun _ _ => Response 200 "ok") true 0 armazem_timeout
     = Segue 1 [colaborador_retry linha_timeout] [linha_timeout]
         [linha_sucesso_retry]
  /\ chave linha_timeout = "303-1-16774_01/10/2025"
  /\ chave linha_sucesso_retry = "303-1-16774_2025-10-01".
Proof. repeat split; vm_compute; reflexivity. Qed.

(** ** What the retry loop does overwrite *)

Example retry_of_http_error_row_ex :
  ciclo_retry (fun _ _ => Response 200 "ok") true 0
    (envio_inicial (fun _ _ => Response 500 "") [colaborador_ex])
  = Segue 1
      [ {| c_id_colaborador := "303-1-16774"; c_nome := "ANA";
           c_data := "2025-10-01"; c_codigo_horario := "1234";
           c_numero_cadastro := ""; c_numero_empresa := "";
           c_tipo_colaborador := "1" |} ]
      [linha_sucesso_retry] [linha_sucesso_retry].
Proof. vm_compute. reflexivity. Qed.

(** The row of a record carries the identifier of the record, and its date
    either converted (a row built from a response) or as given (a row built
    by a handler). *)
Lemma uma_tentativa_row
    base_url max_retries servidor id_ nome_ data_original codigo_horario_
    colab t efs r :
  uma_tentativa base_url max_retries servidor id_ nome_ data_original
    codigo_horario_ colab t = (efs, Retorna r) ->
  id_colaborador r = id_
  /\ (data r = converter_data data_original \/ data r = data_original).
Proof.
  unfold uma_tentativa, corpo_tentativa, tratar_excecao.
  intros Hu. repeat case_match; simplify_eq; simpl; auto.
Qed.

Lemma laco_tentativas_row
    base_url max_retries servidor id_ nome_ data_original codigo_horario_
    colab k t r :
  (laco_tentativas base_url max_retries servidor id_ nome_ data_original
     codigo_horario_ colab k t).2 = inr r ->
  id_colaborador r = id_
  /\ (data r = converter_data data_original \/ data r = data_original).
Proof.
  revert t. induction k as [| k IH]; intros t; simpl.
  - intros [= <-]. simpl. auto.
  - destruct (uma_tentativa _ _ _ _ _ _ _ _ t) as [efs p] eqn:Hu.
    destruct p as [r' | | e]; simpl.
    + intros [= <-]. by eapply uma_tentativa_row.
    + specialize (IH (S t)).
      destruct (laco_tentativas _ _ _ _ _ _ _ _ k (S t)) as [efs' r'].
      simpl in *. exact IH.
    + done.
Qed.

Lemma converter_data_no_slash d :
  Py.contains "/" d = false -> converter_data d = d.
Proof. unfold converter_data. by intros ->. Qed.

(** The key of the row a retry gives a failed row whose date has no slash
    is the key of the failed row. *)
Lemma chave_retry base_url max_retries servidor r :
  Py.contains "/" (data r) = false ->
  chave (resultado_final (colaborador_retry r)
           (enviar_programacao base_url max_retries servidor
              (colaborador_retry r)).2)
  = chave r.
Proof.
  intros Hd.
  destruct (enviar_programacao_returns base_url max_retries servidor
              (colaborador_retry r)) as [r' Hr'].
  rewrite Hr'. simpl.
  apply laco_tentativas_row in Hr' as [Hid Hdata]. simpl in *.
  rewrite (converter_data_no_slash _ Hd) in Hdata.
  unfold chave. rewrite Hid. by destruct Hdata as [-> | ->].
Qed.

Lemma chave_set_numero_retry n r : chave (set_numero_retry n r) = chave r.
Proof. reflexivity. Qed.

Lemma dict_de_snoc l v : dict_de (l ++ [v]) = <[chave v := v]> (dict_de l).
Proof. unfold dict_de. by rewrite foldl_app. Qed.

Lemma dict_de_lookup_Some l k v :
  dict_de l !! k = Some v -> v ∈ l /\ chave v = k.
Proof.
  induction l as [| x l IH] using rev_ind.
  - unfold dict_de. simpl. by rewrite lookup_empty.
  - rewrite dict_de_snoc. destruct (decide (chave x = k)) as [<- | Hne].
    + rewrite lookup_insert_eq. intros [= <-]. split; [| done].
      apply elem_of_app. right. apply list_elem_of_here.
    + rewrite lookup_insert_ne by done. intros Hk.
      destruct (IH Hk) as [Hin Hc]. split; [| done].
      apply elem_of_app. by left.
Qed.

Lemma dict_de_lookup_elem l v : v ∈ l -> is_Some (dict_de l !! chave v).
Proof.
  induction l as [| x l IH] using rev_ind.
  - by intros ?%elem_of_nil.
  - rewrite dict_de_snoc. intros Hv.
    destruct (decide (chave x = chave v)) as [-> | Hne].
    + rewrite lookup_insert_eq. eauto.
    + rewrite lookup_insert_ne by done. apply IH.
      apply elem_of_app in Hv as [Hv | Hv]; [done |].
      apply list_elem_of_singleton in Hv. by subst.
Qed.

(** A retry cycle replaces in place, and tags with the number of the cycle,
    every failed row whose date has no slash (such as the row built from an
    HTTP response for a record dated DD/MM/YYYY); the store keeps its
    length. *)
Lemma ciclo_retry_overwrites servidor n resultados j r :
  resultados !! j = Some r ->
  is_sucesso r = false ->
  Py.contains "/" (data r) = false ->
  let v := ciclo_retry servidor true n resultados in
  length (armazem v) = length resultados
  /\ exists novo,
       armazem v !! j = Some novo
       /\ novo ∈ novos_resultados v
       /\ chave novo = chave r
       /\ numero_retry novo = Some (S n).
Proof.
  intros Hj Hfail Hdata.
  assert (Hin : r ∈ List.filter (fun r => negb (is_sucesso r)) resultados).
  { apply list_elem_of_In, filter_In. split.
    - apply list_elem_of_In, list_elem_of_lookup. eauto.
    - by rewrite Hfail. }
  unfold ciclo_retry, separar_sucessos_e_erros.
  destruct (List.filter (fun r => negb (is_sucesso r)) resultados)
    as [| e erros] eqn:Herros; [by apply elem_of_nil in Hin |].
  rewrite <- Herros in *. clear Herros e erros.
  set (erros_lista := List.filter _ resultados) in *.
  set (retry := set_numero_retry (S n) <$> processar_lote _ _ _ _).
  cbn [negb armazem novos_resultados].
  fold (dict_de retry).
  split; [by rewrite length_fmap |].
  assert (Hnovo : exists novo, novo ∈ retry /\ chave novo = chave r).
  { apply list_elem_of_lookup in Hin as [i Hi].
    eexists. split.
    - apply list_elem_of_lookup. exists i. unfold retry, processar_lote.
      rewrite list_lookup_fmap, list_lookup_imap, list_lookup_fmap, Hi.
      reflexivity.
    - rewrite chave_set_numero_retry. by apply chave_retry. }
  destruct Hnovo as (novo0 & Hnovo0 & Hchave0).
  destruct (dict_de_lookup_elem _ _ Hnovo0) as [novo Hlook].
  rewrite Hchave0 in Hlook.
  destruct (dict_de_lookup_Some _ _ _ Hlook) as [Hnovo Hchave].
  exists novo. rewrite list_lookup_fmap, Hj. simpl. rewrite Hlook. simpl.
  repeat split; [done | done |].
  unfold retry in Hnovo. apply list_elem_of_fmap in Hnovo as (x & -> & _).
  reflexivity.
Qed.

(** ** The format detector *)

Example detectar_formato_csv_ex :
  detectar_formato_csv ["NOME"; "MAT"; "COD. ESCALA"; "01/10/2025"] = "grid"
  /\ detectar_formato_csv ["id_colaborador"; "nome"; "data"; "codigo_horario"]
     = "api"
  /\ detectar_formato_csv ["a"; "b"] = "desconhecido"
  /\ detectar_formato_csv [] = "desconhecido"
  /\ detectar_formato_csv ["nome"; "matricula"; "cod. escala"] = "desconhecido".
Proof. repeat split; reflexivity. Qed.







(** ** The concurrency bound *)

Lemma filter_insert_count (p : fase -> bool) (l : list fase) i x y :
  l !! i = Some x ->
  length (List.filter p (<[i := y]> l)) + peso p x
  = length (List.filter p l) + peso p y.
Proof.
  revert i. induction l as [| z l IH]; intros i Hi; [done |].
  destruct i as [| i]; simpl in *.
  - injection Hi as ->. unfold peso. destruct (p x), (p y); simpl; lia.
  - specialize (IH i Hi). destruct (p z); simpl; lia.
Qed.

Lemma filter_replicate_false (p : fase -> bool) n x :
  p x = false -> List.filter p (replicate n x) = [].
Proof. intros Hx. induction n as [| n IH]; simpl; [done |]. by rewrite Hx. Qed.

Lemma filter_length_mono (p q : fase -> bool) (l : list fase) :
  (forall x, p x = true -> q x = true) ->
  length (List.filter p l) <= length (List.filter q l).
Proof.
  intros Hpq. induction l as [| x l IH]; simpl; [done |].
  destruct (p x) eqn:Hp.
  - rewrite (Hpq x Hp). simpl. lia.
  - destruct (q x); simpl; lia.
Qed.

Lemma passo_lote_conserva max_retries max_concurrent s s' :
  passo_lote max_retries s s' ->
  vagas_conservadas max_concurrent s -> vagas_conservadas max_concurrent s'.
Proof.
  unfold vagas_conservadas, vagas_tomadas.
  intros Hstep Hinv.
  destruct Hstep as [i s k Hi Hsem | i s t Hi Ht | i s t Hi | i s t Hi];
    pose proof (fun x => filter_insert_count com_vaga (tarefas s) i x) as Hc;
    simpl in *.
  - specialize (Hc _ (Enviando 1) Hi). unfold peso in Hc. simpl in Hc. lia.
  - specialize (Hc _ (Dormindo t) Hi). unfold peso in Hc. simpl in Hc. lia.
  - specialize (Hc _ (Enviando (S t)) Hi). unfold peso in Hc. simpl in Hc. lia.
  - specialize (Hc _ Concluida Hi). unfold peso in Hc. simpl in Hc. lia.
Qed.

Lemma lote_inicial_conserva n max_concurrent :
  vagas_conservadas max_concurrent (lote_inicial n max_concurrent).
Proof.
  unfold vagas_conservadas, vagas_tomadas, lote_inicial. simpl.
  by rewrite filter_replicate_false.
Qed.

Lemma alcancavel_conserva max_retries n max_concurrent s :
  alcancavel max_retries n max_concurrent s ->
  vagas_conservadas max_concurrent s.
Proof.
  unfold alcancavel. revert s.
  apply (rtc_ind_r (vagas_conservadas max_concurrent)).
  - apply lote_inicial_conserva.
  - intros y z _ Hyz IH. by eapply passo_lote_conserva.
Qed.

(** A step never changes the number of tasks of the batch. *)
Lemma alcancavel_length max_retries n max_concurrent s :
  alcancavel max_retries n max_concurrent s -> length (tarefas s) = n.
Proof.
  unfold alcancavel. revert s.
  apply (rtc_ind_r (fun s => length (tarefas s) = n)).
  - apply length_replicate.
  - intros y z _ Hyz IH. destruct Hyz; simpl; by rewrite length_insert.
Qed.

(** C4: in every state the batch can reach, for every number of records and
    every limit (the limits 1 to 50 of the caller among them), the number of
    requests that are out is at most the limit: a task sends only while it
    holds a slot of the semaphore, and the slots held and the value of the
    semaphore always add up to the limit. *)
Theorem in_flight_bounded max_retries n max_concurrent s :
  alcancavel max_retries n max_concurrent s ->
  em_voo s <= max_concurrent
  /\ vagas_tomadas s + semaforo s = max_concurrent.
Proof.
  intros Hreach.
  pose proof (alcancavel_conserva _ _ _ _ Hreach) as Hinv.
  split; [| exact Hinv].
  unfold vagas_conservadas in Hinv.
  assert (em_voo s <= vagas_tomadas s); [| lia].
  apply filter_length_mono. by intros [].
Qed.

(** A hundred records under the limit 5: the state in which five of them
    have taken a slot can be reached. *)
Lemma lote_cheio_alcancavel : alcancavel 3 100 5 lote_cheio.
Proof.
  unfold alcancavel.
  eapply rtc_l; [apply (passo_acquire 3 0 _ 4); reflexivity |].
  eapply rtc_l; [apply (passo_acquire 3 1 _ 3); reflexivity |].
  eapply rtc_l; [apply (passo_acquire 3 2 _ 2); reflexivity |].
  eapply rtc_l; [apply (passo_acquire 3 3 _ 1); reflexivity |].
  eapply rtc_l; [apply (passo_acquire 3 4 _ 0); reflexivity |].
  exact (rtc_refl _ lote_cheio).
Defined.

Lemma in_flight_bounded_witness :
  em_voo lote_cheio <= 5 /\ vagas_tomadas lote_cheio + semaforo lote_cheio = 5.
Proof.
  apply (in_flight_bounded 3 100 5 lote_cheio).
  exact lote_cheio_alcancavel.
Defined.

(** The bound is reached; and with every slot taken no waiting task can
    start: a step of a full batch never adds to the slots held. *)
Example lote_cheio_em_voo : em_voo lote_cheio = 5.
Proof. reflexivity. Qed.

Lemma semaforo_zero_blocks max_retries s s' :
  semaforo s = 0 ->
  passo_lote max_retries s s' ->
  vagas_tomadas s' <= vagas_tomadas s.
Proof.
  intros Hz Hstep. unfold vagas_tomadas.
  destruct Hstep as [i s k Hi Hsem | i s t Hi Ht | i s t Hi | i s t Hi];
    [congruence | | |];
    pose proof (fun x => filter_insert_count com_vaga (tarefas s) i x) as Hc;
    simpl in *.
  - specialize (Hc _ (Dormindo t) Hi). unfold peso in Hc. simpl in Hc. lia.
  - specialize (Hc _ (Enviando (S t)) Hi). unfold peso in Hc. simpl in Hc. lia.
  - specialize (Hc _ Concluida Hi). unfold peso in Hc. simpl in Hc. lia.
Qed.

(** * Further properties of the code *)

(** ** Text: trimming twice, and reading back a printed integer *)

Lemma rstrip_idem s : Py.rstrip (Py.rstrip s) = Py.rstrip s.
Proof.
  induction s as [| c s IH]; [done |].
  cbn [Py.rstrip]. destruct (Py.rstrip s) as [| d r] eqn:Hr.
  - destruct (Py.isspace c) eqn:Hc; [done |]. cbn [Py.rstrip]. by rewrite Hc.
  - cbn [Py.rstrip]. cbn [Py.rstrip] in IH. rewrite IH. reflexivity.
Qed.

Lemma lstrip_head s :
  Py.lstrip s = "" \/ exists c r, Py.lstrip s = String c r /\ Py.isspace c = false.
Proof.
  induction s as [| c s IH]; [by left |].
  simpl. destruct (Py.isspace c) eqn:Hc; [exact IH |]. right. eauto.
Qed.

Lemma rstrip_head c r :
  Py.isspace c = false -> exists r', Py.rstrip (String c r) = String c r'.
Proof.
  intros Hc. cbn [Py.rstrip]. destruct (Py.rstrip r); rewrite ?Hc; eauto.
Qed.

Lemma strip_idem s : Py.strip (Py.strip s) = Py.strip s.
Proof.
  unfold Py.strip.
  destruct (lstrip_head s) as [-> | (c & r & -> & Hc)]; [done |].
  destruct (rstrip_head c r Hc) as [r' Hr']. rewrite Hr'.
  rewrite (lstrip_id _ _ Hc), <- Hr'. apply rstrip_idem.
Qed.

Lemma valor_decimal_acc l (acc : positive) :
  valor_decimal (Z.pos acc) l = Z.pos (Pos.of_uint_acc l acc).
Proof.
  revert acc. induction l; intros acc; cbn [valor_decimal Pos.of_uint_acc];
    [done | ..];
    match goal with
    | |- valor_decimal ?a _ = Z.pos (Pos.of_uint_acc _ ?b) =>
        replace a with (Z.pos b) by lia
    end; apply IHl.
Qed.

Lemma valor_decimal_of_uint d : valor_decimal 0 d = Z.of_N (Pos.of_uint d).
Proof.
  induction d; cbn [valor_decimal Pos.of_uint]; [done | exact IHd | ..];
    match goal with
    | |- valor_decimal ?a _ = Z.of_N (N.pos (Pos.of_uint_acc _ ?b)) =>
        change a with (Z.pos b)
    end; apply valor_decimal_acc.
Qed.

Lemma int_digits_string_of_uint b acc d :
  Py.int_digits b acc (NilEmpty.string_of_uint d)
  = match d with
    | Decimal.Nil => if b then Some acc else None
    | _ => Some (valor_decimal acc d)
    end.
Proof.
  revert b acc. induction d; intros b acc; [done | ..];
    cbn [NilEmpty.string_of_uint Py.int_digits];
    match goal with
    | |- (if Py.isdigit_char ?c then _ else _) = _ =>
        change (Py.isdigit_char c) with true; cbv iota;
        rewrite IHd; cbn [valor_decimal]; by destruct d
    end.
Qed.

Lemma int_string_of_uint d :
  d <> Decimal.Nil ->
  Py.int (NilEmpty.string_of_uint d) = Some (valor_decimal 0 d).
Proof.
  intros Hd. unfold Py.int.
  assert (Hs : Py.strip (NilEmpty.string_of_uint d) = NilEmpty.string_of_uint d).
  { apply strip_id. generalize (string_of_uint_digits d).
    apply all_chars_impl. intros c Hc. by rewrite (isdigit_not_space _ Hc). }
  rewrite Hs.
  pose proof (int_digits_string_of_uint false 0 d) as Hi.
  destruct d; [done | ..]; exact Hi.
Qed.

(** [int(str(z)) = z]: what [str] prints, [int] reads back. *)
Lemma int_str z : Py.int (Py.str z) = Some z.
Proof.
  unfold Py.str. destruct z as [| p | p]; [reflexivity | |].
  - cbn [Z.to_int NilZero.string_of_int].
    pose proof (DecimalPos.Unsigned.to_uint_nonnil p) as Hn.
    assert (Hz : NilZero.string_of_uint (Pos.to_uint p)
                 = NilEmpty.string_of_uint (Pos.to_uint p))
      by (by destruct (Pos.to_uint p)).
    rewrite Hz, (int_string_of_uint _ Hn), valor_decimal_of_uint.
    by rewrite DecimalPos.Unsigned.of_to.
  - cbn [Z.to_int NilZero.string_of_int].
    pose proof (DecimalPos.Unsigned.to_uint_nonnil p) as Hn.
    assert (Hz : NilZero.string_of_uint (Pos.to_uint p)
                 = NilEmpty.string_of_uint (Pos.to_uint p))
      by (by destruct (Pos.to_uint p)).
    rewrite Hz. unfold Py.int.
    assert (Hs : Py.strip (String "-" (NilEmpty.string_of_uint (Pos.to_uint p)))
                 = String "-" (NilEmpty.string_of_uint (Pos.to_uint p))).
    { apply strip_id. simpl. generalize (string_of_uint_digits (Pos.to_uint p)).
      apply all_chars_impl. intros c Hc. by rewrite (isdigit_not_space _ Hc). }
    rewrite Hs, int_digits_string_of_uint.
    destruct (Pos.to_uint p) eqn:Hp; [done | ..];
      rewrite <- Hp, valor_decimal_of_uint, DecimalPos.Unsigned.of_to;
      reflexivity.
Qed.

(** ** The reference table: keys, look-ups and the cache *)

Lemma loaded_keys_trimmed `{Pandas} arquivo df h :
  (load_horarios_mapping None arquivo).1 = Some df ->
  h ∈ df ->
  Py.strip (h_id_script h) = h_id_script h.
Proof.
  rewrite load_fresh. intros Hdf Hh.
  apply read_horarios_Some in Hdf as (fr & _ & Hall).
  apply list_elem_of_lookup in Hh as [i Hi].
  destruct (Forall2_lookup_r _ _ _ _ _ Hall Hi) as (l & _ & Hl).
  apply normalizar_linha_Some in Hl as (z & _ & ->). simpl. apply strip_idem.
Qed.

(** X1: every key of a loaded reference table can be looked up, with or
    without white space around it, and what the look-up returns is the text
    of an integer that [int] reads back: a code found in the table is never
    refused at submission. *)
Theorem stored_keys_are_found `{Pandas} arquivo df h pad1 pad2 :
  (load_horarios_mapping None arquivo).1 = Some df ->
  h ∈ df ->
  Py.strip (pad1 +:+ h_id_script h +:+ pad2) = h_id_script h ->
  exists z,
    find_codigo_horario (Some (pad1 +:+ h_id_script h +:+ pad2)) (Some df)
    = Some (Py.str z)
    /\ Py.int (Py.str z) = Some z.
Proof.
  intros Hdf Hh Hpad.
  apply list_elem_of_split in Hh as (dpre & dpos & ->).
  destruct (find_codigo_horario_present dpre h dpos
              (pad1 +:+ h_id_script h +:+ pad2)) as [c Hc]; [by rewrite Hpad |].
  destruct (find_loaded _ _ _ _ Hdf Hc) as (z & -> & _).
  exists z. split; [done | apply int_str].
Qed.

Lemma stored_keys_are_found_witness :
  exists z,
    find_codigo_horario (Some (" " +:+ "08:0016:00" +:+ "  ")) (Some tabela_ex)
    = Some (Py.str z)
    /\ Py.int (Py.str z) = Some z.
Proof.
  apply (stored_keys_are_found (H := pandas_decimal) (Some frame_ex) tabela_ex
           {| h_codigo_horario := "1234"; h_id_script := "08:0016:00" |}
           " " "  ").
  - reflexivity.
  - apply list_elem_of_here.
  - reflexivity.
Defined.

(** X2: the cache outlives the file.  Once a load has succeeded, every later
    call returns the cached table without looking at the file it is given
    (a changed, missing or broken file goes unnoticed); a load that fails
    caches nothing, so the next call reads its file. *)
Theorem cache_outlives_file `{Pandas} arquivo arquivo' :
  load_horarios_mapping (load_horarios_mapping None arquivo).2 arquivo'
  = match (load_horarios_mapping None arquivo).1 with
    | Some df => (Some df, Some df)
    | None => load_horarios_mapping None arquivo'
    end.
Proof.
  unfold load_horarios_mapping at 2 3.
  destruct (read_horarios arquivo) as [df |]; reflexivity.
Qed.

(** ** The grid: the time-range key *)



(** ** The grid: what the conversion writes *)

Lemma aplicar_regras_total_registros horarios_df codigo_base cell_value stats :
  (aplicar_regras horarios_df codigo_base cell_value stats).2
    !! "total_registros"
  = stats !! "total_registros".
Proof.
  unfold aplicar_regras.
  repeat case_match; simpl; rewrite ?incr_lookup_ne by done; reflexivity.
Qed.

Lemma aplicar_regras_origem horarios_df codigo_base cell_value stats c stats' :
  codigo_base = None
  \/ (exists k, find_codigo_horario k horarios_df = codigo_base) ->
  aplicar_regras horarios_df codigo_base cell_value stats
  = (Some c, false, stats') ->
  c = "9999" \/ exists k, find_codigo_horario k horarios_df = Some c.
Proof.
  intros Hbase. unfold aplicar_regras.
  repeat case_match; intros [= ? ?]; subst; auto;
    try (right; eauto; fail);
    destruct Hbase as [? | [k Hk]]; try discriminate; right; eauto.
Qed.

(** What one pass of the loop over the date columns does to
    [converted_rows]: nothing, or one more row for that column. *)
Lemma processar_celula_cases
    horarios_df codigo_base nome mat row converted_rows stats col_index
    date_str :
  let r := processar_celula horarios_df codigo_base nome mat row
             (converted_rows, stats) (col_index, date_str) in
  (r.1 = converted_rows
   /\ r.2 !! "total_registros" = stats !! "total_registros")
  \/ (exists c stats',
        aplicar_regras horarios_df codigo_base (celula row col_index) stats
        = (Some c, false, stats')
        /\ c <> ""
        /\ r.1 = converted_rows ++
                   [ {| r_id_colaborador := "303-1-" +:+ mat; r_nome := nome;
                        r_data := date_str; r_codigo_horario := c |} ]
        /\ r.2 = incr "total_registros" stats').
Proof.
  unfold processar_celula. fold (celula row col_index).
  pose proof (aplicar_regras_total_registros horarios_df codigo_base
                (celula row col_index) stats) as Ht.
  destruct (aplicar_regras _ _ _ _) as [[codigo skip] stats'].
  simpl in Ht.
  destruct codigo as [[| c s] |]; simpl; auto.
  destruct skip; simpl; auto.
  right. exists (String c s), stats'. by repeat split.
Qed.

Section Conversao.

Variable horarios_df : option (list horario).
Variable Q : registro -> Prop.

(** The invariant of the two loops: the rows written so far satisfy [Q] and
    the counter [total_registros] is their number. *)
Definition conversao_inv (acc : list registro * gmap string nat) : Prop :=
  Forall Q acc.1 /\ acc.2 !! "total_registros" = Some (length acc.1).

Lemma processar_celula_inv codigo_base nome mat row acc coluna :
  (codigo_base = None
   \/ exists k, find_codigo_horario k horarios_df = codigo_base) ->
  (forall c, origem_codigo horarios_df c ->
             Q {| r_id_colaborador := "303-1-" +:+ mat; r_nome := nome;
                  r_data := coluna.2; r_codigo_horario := c |}) ->
  conversao_inv acc ->
  conversao_inv (processar_celula horarios_df codigo_base nome mat row acc coluna).
Proof.
  intros Hbase HQ [Hall Hcount].
  destruct acc as [rows stats], coluna as [col_index date_str].
  simpl in HQ, Hall, Hcount.
  destruct (processar_celula_cases horarios_df codigo_base nome mat row rows
              stats col_index date_str)
    as [[Hr Hs] | (c & stats' & Hregra & Hc & Hr & Hs)]; unfold conversao_inv.
  - rewrite Hr, Hs. by split.
  - rewrite Hr, Hs. split.
    + apply Forall_app. split; [done |]. apply Forall_singleton, HQ.
      split; [done |]. by eapply aplicar_regras_origem.
    + pose proof (aplicar_regras_total_registros horarios_df codigo_base
                    (celula row col_index) stats) as Ht.
      rewrite Hregra in Ht. simpl in Ht.
      rewrite length_app. simpl.
      rewrite (incr_lookup _ _ (length rows)) by congruence.
      f_equal. lia.
Qed.

Lemma foldl_celulas_inv codigo_base nome mat row colunas acc :
  (codigo_base = None
   \/ exists k, find_codigo_horario k horarios_df = codigo_base) ->
  (forall c coluna, coluna ∈ colunas -> origem_codigo horarios_df c ->
     Q {| r_id_colaborador := "303-1-" +:+ mat; r_nome := nome;
          r_data := coluna.2; r_codigo_horario := c |}) ->
  conversao_inv acc ->
  conversao_inv
    (foldl (processar_celula horarios_df codigo_base nome mat row) acc colunas).
Proof.
  intros Hbase. revert acc.
  induction colunas as [| col cols IH]; intros acc HQ Hinv; [done |].
  simpl. apply IH.
  - intros c coluna Hin. apply HQ. by apply list_elem_of_further.
  - apply processar_celula_inv; [done | | done].
    intros c. apply HQ. apply list_elem_of_here.
Qed.

Lemma processar_linha_inv date_columns acc row :
  (forall c coluna nome mat,
     coluna ∈ date_columns -> origem_codigo horarios_df c ->
     nome <> "" -> mat <> "" ->
     Q {| r_id_colaborador := "303-1-" +:+ mat; r_nome := nome;
          r_data := coluna.2; r_codigo_horario := c |}) ->
  conversao_inv acc ->
  conversao_inv (processar_linha horarios_df date_columns acc row).
Proof.
  intros HQ Hinv. unfold processar_linha.
  destruct (length row <? 3); [done |].
  destruct (String.eqb_spec (Py.strip (default "" (row !! 0))) "") as [| Hn];
    [done |].
  destruct (String.eqb_spec (Py.strip (default "" (row !! 1))) "") as [| Hm];
    [done |].
  simpl. apply foldl_celulas_inv.
  - destruct (find_codigo_horario _ horarios_df) eqn:Hf; [| by left].
    right. eexists. exact Hf.
  - intros c coluna Hin Hc. by apply HQ.
  - destruct Hinv as [Hall Hcount]. split; [done |]. simpl.
    by rewrite incr_lookup_ne.
Qed.

Lemma foldl_linhas_inv date_columns reader acc :
  (forall c coluna nome mat,
     coluna ∈ date_columns -> origem_codigo horarios_df c ->
     nome <> "" -> mat <> "" ->
     Q {| r_id_colaborador := "303-1-" +:+ mat; r_nome := nome;
          r_data := coluna.2; r_codigo_horario := c |}) ->
  conversao_inv acc ->
  conversao_inv (foldl (processar_linha horarios_df date_columns) acc reader).
Proof.
  intros HQ. revert acc. induction reader as [| row rows IH]; intros acc Hinv;
    [done |].
  simpl. apply IH. by apply processar_linha_inv.
Qed.

End Conversao.

(** What [convert_dados_to_senior] is when it succeeds. *)
Lemma convert_dados_to_senior_Convertido `{Pandas} `{Datetime}
    entrada arquivo rows stats :
  convert_dados_to_senior entrada None arquivo = Convertido rows stats ->
  exists header reader df,
    entrada = Some (header :: reader)
    /\ (load_horarios_mapping None arquivo).1 = Some df
    /\ 4 <= length header
    /\ foldl (processar_linha (Some df) (extrair_date_columns header))
             ([], stats0) reader
       = (rows, stats).
Proof.
  unfold convert_dados_to_senior.
  destruct entrada as [[| header reader] |]; try done;
    destruct ((load_horarios_mapping None arquivo).1) as [df |]; try done.
  destruct (length header <? 4) eqn:Hlen; [done |].
  destruct (foldl _ _ reader) as [rows' stats'] eqn:Hfold.
  intros [= <- <-]. exists header, reader, df.
  repeat split; try done. apply Nat.ltb_ge in Hlen. lia.
Qed.

(** The date columns are taken from the header in its order: the index of
    each is at least 3, and its text is the trimmed header cell, which the
    date parser accepts. *)
Lemma extrair_date_columns_elem `{Datetime} header i d :
  (i, d) ∈ extrair_date_columns header
  <-> 3 <= i
      /\ exists col, header !! i = Some col /\ d = Py.strip col
                     /\ is_Some (parse_date_flexible (Py.strip col)).
Proof.
  unfold extrair_date_columns. rewrite list_elem_of_omap. split.
  - intros ([j col] & Hin & Hsome).
    apply list_elem_of_lookup in Hin as [n Hn].
    rewrite list_lookup_imap in Hn.
    destruct (drop 3 header !! n) as [col' |] eqn:Hd; [| done].
    simpl in Hn. injection Hn as <- <-. rewrite lookup_drop in Hd.
    simpl in Hsome.
    destruct (parse_date_flexible (Py.strip col')) eqn:Hp; [| done].
    injection Hsome as <- <-. split; [lia |].
    exists col'. rewrite Nat.add_comm. repeat split; eauto.
  - intros (Hi & col & Hcol & -> & [dt Hp]).
    exists (i - 3, col). split.
    + apply list_elem_of_lookup. exists (i - 3).
      rewrite list_lookup_imap, lookup_drop.
      replace (3 + (i - 3)) with i by lia. by rewrite Hcol.
    + simpl. rewrite Hp. do 2 f_equal. lia.
Qed.

(** X4: a cell with two asterisks in it, whatever else it holds (FR** as
    well), writes no row: the rows are left as they were, the counter
    [asterisco_ignorado] goes up by one and [total_registros] stays. *)
Theorem asterisk_cell_emits_nothing
    horarios_df codigo_base nome mat row col_index date_str cell
    converted_rows stats n :
  row !! col_index = Some cell ->
  Py.contains "**" (Py.upper (Py.strip cell)) = true ->
  stats !! "asterisco_ignorado" = Some n ->
  exists stats',
    processar_celula horarios_df codigo_base nome mat row
      (converted_rows, stats) (col_index, date_str)
    = (converted_rows, stats')
    /\ stats' !! "asterisco_ignorado" = Some (S n)
    /\ stats' !! "total_registros" = stats !! "total_registros".
Proof.
  intros Hcell Hstar Hn. exists (incr "asterisco_ignorado" stats).
  split; [| split].
  - unfold processar_celula, aplicar_regras. rewrite Hcell, Hstar. reflexivity.
  - by apply incr_lookup.
  - by apply incr_lookup_ne.
Qed.

Lemma asterisk_cell_emits_nothing_witness :
  exists stats',
    processar_celula (Some tabela_ex) (Some "77") "ANA" "16774"
      ["ANA"; "16774"; "ESC-A"; " fr** "] ([], stats0) (3, "01/10/2025")
    = ([], stats')
    /\ stats' !! "asterisco_ignorado" = Some (S 0)
    /\ stats' !! "total_registros" = stats0 !! "total_registros".
Proof.
  apply (asterisk_cell_emits_nothing (Some tabela_ex) (Some "77") "ANA"
           "16774" ["ANA"; "16774"; "ESC-A"; " fr** "] 3 "01/10/2025"
           " fr** " [] stats0 0).
  - reflexivity.
  - reflexivity.
  - reflexivity.
Defined.

(** X5: the number the conversion returns is the number of rows it writes:
    at the end the counter [total_registros] is the length of
    [converted_rows]. *)
Theorem total_registros_counts_rows `{Pandas} `{Datetime}
    entrada arquivo rows stats :
  convert_dados_to_senior entrada None arquivo = Convertido rows stats ->
  stats !! "total_registros" = Some (length rows).
Proof.
  intros Hconv.
  apply convert_dados_to_senior_Convertido in Hconv
    as (header & reader & df & _ & _ & _ & Hfold).
  pose proof (foldl_linhas_inv (Some df) (fun _ => True)
                (extrair_date_columns header) reader ([], stats0)) as Hinv.
  rewrite Hfold in Hinv.
  destruct Hinv as [_ Hcount]; [done | | exact Hcount].
  split; [constructor | reflexivity].
Qed.

Lemma total_registros_counts_rows_witness :
  (incr "total_registros" (incr "fr_9999" (incr "total_colaboradores" stats0)))
    !! "total_registros"
  = Some (length [ {| r_id_colaborador := "303-1-7"; r_nome := "ANA";
                      r_data := "01/10/2025"; r_codigo_horario := "9999" |} ]).
Proof.
  apply (total_registros_counts_rows (H := pandas_decimal) (H0 := datetime_dmy)
           (Some [["NOME"; "MAT"; "COD. ESCALA"; "01/10/2025"];
                  ["ANA"; "7"; "ESC-A"; "FR"]])
           (Some frame_ex)).
  vm_compute. reflexivity.
Defined.



Lemma date_columns_sorted_from `{Datetime} (l : list string) k :
  let cols :=
    omap (fun ic : nat * string =>
            let col_clean := Py.strip ic.2 in
            match parse_date_flexible col_clean with
            | Some _ => Some (ic.1 + 3, col_clean)
            | None => None
            end)
         (imap (fun i c => (k + i, c)) l) in
  StronglySorted lt cols.*1 /\ Forall (fun j => k + 3 <= j) cols.*1.
Proof.
  revert k. induction l as [| c l IH]; intros k; simpl.
  - split; constructor.
  - specialize (IH (S k)). simpl in IH.
    rewrite (imap_ext _ (fun i c => (S k + i, c)) l)
      by (intros; simpl; f_equal; lia).
    destruct IH as [Hs Hf].
    assert (Hf' : Forall (fun j => k + 3 <= j)
                    (omap (fun ic : nat * string =>
                             match parse_date_flexible (Py.strip ic.2) with
                             | Some _ => Some (ic.1 + 3, Py.strip ic.2)
                             | None => None
                             end)
                          (imap (fun i c => (S k + i, c)) l)).*1).
    { eapply Forall_impl; [exact Hf |]. simpl. intros; lia. }
    destruct (parse_date_flexible (Py.strip c)); simpl; [| by split].
    split.
    + constructor; [done |]. eapply Forall_impl; [exact Hf |].
      simpl. intros; lia.
    + constructor; [lia | done].
Qed.

(** X7: the date columns follow the header.  A pair is among them exactly
    when its index is 3 or more and its text is the trimmed header cell at
    that index, accepted by the date parser; and they come in the order of
    the header, each index once. *)
Theorem date_columns_follow_header `{Datetime} header :
  (forall i d,
     (i, d) ∈ extrair_date_columns header
     <-> 3 <= i
         /\ exists col, header !! i = Some col /\ d = Py.strip col
                        /\ is_Some (parse_date_flexible (Py.strip col)))
  /\ StronglySorted lt (extrair_date_columns header).*1.
Proof.
  split; [intros i d; apply extrair_date_columns_elem |].
  unfold extrair_date_columns.
  rewrite (imap_ext pair (fun i c => (0 + i, c)) (drop 3 header))
    by (intros; reflexivity).
  apply (date_columns_sorted_from (drop 3 header) 0).
Qed.

Lemma processar_celula_base
    horarios_df b nome mat row converted_rows stats col_index date_str :
  celula row col_index ∈ [""; "FE"; "TR"] ->
  Py.truthy (Some b) = true ->
  exists stats',
    processar_celula horarios_df (Some b) nome mat row
      (converted_rows, stats) (col_index, date_str)
    = (converted_rows ++
         [ {| r_id_colaborador := "303-1-" +:+ mat; r_nome := nome;
              r_data := date_str; r_codigo_horario := b |} ],
       stats').
Proof.
  intros Hcel Hb. unfold processar_celula. fold (celula row col_index).
  destruct b as [| c0 b0]; [discriminate Hb |].
  repeat (apply elem_of_cons in Hcel as [-> | Hcel]; [by eexists |]).
  by apply elem_of_nil in Hcel.
Qed.

Lemma foldl_celulas_base horarios_df b nome mat row colunas acc :
  (forall col, col ∈ colunas -> celula row col.1 ∈ [""; "FE"; "TR"]) ->
  Py.truthy (Some b) = true ->
  (foldl (processar_celula horarios_df (Some b) nome mat row) acc colunas).1
  = acc.1 ++
    ((fun col : nat * string =>
        {| r_id_colaborador := "303-1-" +:+ mat; r_nome := nome;
           r_data := col.2; r_codigo_horario := b |}) <$> colunas).
Proof.
  intros Hcols Hb. revert acc Hcols.
  induction colunas as [| [i d] cols IH]; intros [rows stats] Hcols;
    cbn [foldl].
  - simpl. by rewrite app_nil_r.
  - destruct (processar_celula_base horarios_df b nome mat row rows stats i d)
      as [stats' ->]; [apply (Hcols (i, d)), list_elem_of_here | done |].
    rewrite IH.
    + simpl. by rewrite <- app_assoc.
    + intros col Hcol. apply Hcols. by apply list_elem_of_further.
Qed.

(** X8: a row with a name, a registration number and a base code that the
    loaded table resolves, whose cells under the date columns are all
    empty, FE or TR (a cell the row is too short for counts as empty),
    writes exactly one row per date column, in the order of the columns,
    each with the base code and the text of its column as date. *)
Theorem base_code_fills_every_date `{Pandas}
    arquivo df date_columns row nome mat cod b converted_rows stats :
  (load_horarios_mapping None arquivo).1 = Some df ->
  row !! 0 = Some nome -> row !! 1 = Some mat -> row !! 2 = Some cod ->
  Py.strip nome <> "" -> Py.strip mat <> "" ->
  find_codigo_horario (Some (Py.strip cod)) (Some df) = Some b ->
  (forall col, col ∈ date_columns -> celula row col.1 ∈ [""; "FE"; "TR"]) ->
  (processar_linha (Some df) date_columns (converted_rows, stats) row).1
  = converted_rows ++
    ((fun col : nat * string =>
        {| r_id_colaborador := "303-1-" +:+ Py.strip mat;
           r_nome := Py.strip nome; r_data := col.2;
           r_codigo_horario := b |}) <$> date_columns).
Proof.
  intros Hdf H0 H1 H2 Hnome Hmat Hbase Hcols.
  unfold processar_linha.
  assert (Hlen : (length row <? 3) = false).
  { apply Nat.ltb_ge. apply lookup_lt_Some in H2. lia. }
  rewrite Hlen, H0, H1, H2. simpl default.
  apply String.eqb_neq in Hnome, Hmat. rewrite Hnome, Hmat. simpl orb. cbv iota.
  rewrite Hbase.
  destruct (find_loaded _ _ _ _ Hdf Hbase) as (z & _ & Hb).
  by rewrite foldl_celulas_base.
Qed.

Lemma base_code_fills_every_date_witness :
  (processar_linha (Some tabela_ex) [(3, "01/10/2025"); (4, "02/10/2025")]
     ([], stats0) ["ANA"; " 16774 "; "ESC-A"; " fe "]).1
  = [] ++
    ((fun col : nat * string =>
        {| r_id_colaborador := "303-1-" +:+ Py.strip " 16774 ";
           r_nome := Py.strip "ANA"; r_data := col.2;
           r_codigo_horario := "77" |})
       <$> [(3, "01/10/2025"); (4, "02/10/2025")]).
Proof.
  apply (base_code_fills_every_date (H := pandas_decimal) (Some frame_ex)
           tabela_ex [(3, "01/10/2025"); (4, "02/10/2025")]
           ["ANA"; " 16774 "; "ESC-A"; " fe "] "ANA" " 16774 " "ESC-A" "77"
           [] stats0).
  - reflexivity.
  - reflexivity.
  - reflexivity.
  - reflexivity.
  - discriminate.
  - discriminate.
  - reflexivity.
  - intros col Hcol.
    apply elem_of_cons in Hcol as [-> | Hcol];
      [apply list_elem_of_further, list_elem_of_here |].
    apply elem_of_cons in Hcol as [-> | Hcol]; [apply list_elem_of_here |].
    by apply elem_of_nil in Hcol.
Defined.

(** ** One submission: every row and every effect *)

Lemma pedidos_app efs efs' : pedidos (efs ++ efs') = pedidos efs + pedidos efs'.
Proof. unfold pedidos. by rewrite List.filter_app, length_app. Qed.

Lemma esperas_app efs efs' : esperas (efs ++ efs') = esperas efs ++ esperas efs'.
Proof. unfold esperas. apply omap_app. Qed.

(** One pass through the attempt loop, in full: its effects, and what it
    leaves. *)
Lemma uma_tentativa_cases
    base_url max_retries servidor id_ nome_ data_original codigo_ colab t :
  let '(efs, p) :=
    uma_tentativa base_url max_retries servidor id_ nome_ data_original
      codigo_ colab t in
  Forall (efeito_ok base_url id_ nome_ data_original codigo_ colab) efs
  /\ pedidos efs <= 1
  /\ match p with
     | Continua => t < max_retries /\ length (esperas efs) = 1
     | Retorna r =>
         esperas efs = [] /\ tentativas r = t
         /\ linha_ok id_ nome_ data_original codigo_ r
     | Levanta _ => False
     end.
Proof.
  unfold uma_tentativa, corpo_tentativa, tratar_excecao.
  fold (url_envio base_url id_ data_original).
  destruct (Py.int codigo_) as [codigo |] eqn:Hint.
  - fold (payload_envio id_ nome_ data_original codigo colab).
    destruct (servidor t) as [st text | e].
    + destruct (Z.eqb_spec st 401) as [-> | H401].
      * destruct (t <? max_retries) eqn:Ht;
          [apply Nat.ltb_lt in Ht |]; fecha_passo t.
      * destruct (is_sucesso_status st) eqn:Hst.
        -- fecha_passo t.
        -- destruct (t <? max_retries) eqn:Ht;
             [apply Nat.ltb_lt in Ht |]; fecha_passo t.
    + destruct (classe e), (t <? max_retries) eqn:Ht;
        try apply Nat.ltb_lt in Ht; fecha_passo t.
  - destruct (t <? max_retries) eqn:Ht;
      [apply Nat.ltb_lt in Ht |]; fecha_passo t.
Qed.

Lemma laco_tentativas_inv
    base_url max_retries servidor id_ nome_ data_original codigo_ colab k t :
  t + k = S max_retries -> 1 <= k ->
  exists efs r,
    laco_tentativas base_url max_retries servidor id_ nome_ data_original
      codigo_ colab k t = (efs, inr r)
    /\ Forall (efeito_ok base_url id_ nome_ data_original codigo_ colab) efs
    /\ linha_ok id_ nome_ data_original codigo_ r
    /\ t <= tentativas r <= max_retries
    /\ pedidos efs + t <= S (tentativas r)
    /\ length (esperas efs) + t = tentativas r.
Proof.
  revert t. induction k as [| k IH]; intros t Hk Hpos; [lia |].
  cbn [laco_tentativas].
  pose proof (uma_tentativa_cases base_url max_retries servidor id_ nome_
                data_original codigo_ colab t) as Hpass.
  destruct (uma_tentativa _ _ _ _ _ _ _ _ t) as [efs p].
  destruct Hpass as (Hefs & Hped & Hp).
  destruct p as [r | | e]; [| | done].
  - destruct Hp as (Hesp & Htent & Hrow).
    exists efs, r. rewrite Hesp, Htent. simpl.
    split; [reflexivity |]. split; [done |]. split; [done |].
    split; [lia |]. split; lia.
  - destruct Hp as (Hlt & Hesp).
    destruct (IH (S t)) as (efs' & r & Hlaco & Hefs' & Hrow & Ht & Hped' & Hesp');
      [lia | lia |].
    rewrite Hlaco. exists (efs ++ efs'), r.
    rewrite pedidos_app, esperas_app, length_app.
    split; [reflexivity |]. split; [by apply Forall_app |]. split; [done |].
    split; [lia |]. split; lia.
Qed.

(** A submission in full: the effects and the row of a record, for every
    behaviour of the remote end. *)
Lemma enviar_programacao_inv base_url max_retries servidor colab :
  exists efs r,
    enviar_programacao base_url max_retries servidor colab = (efs, inr r)
    /\ Forall (efeito_ok base_url (c_id_colaborador colab) (c_nome colab)
                 (c_data colab) (c_codigo_horario colab) colab) efs
    /\ linha_ok (c_id_colaborador colab) (c_nome colab) (c_data colab)
         (c_codigo_horario colab) r
    /\ tentativas r <= max_retries
    /\ (1 <= max_retries -> 1 <= tentativas r)
    /\ pedidos efs <= tentativas r
    /\ length (esperas efs) = tentativas r - 1.
Proof.
  unfold enviar_programacao, _tentar_envio.
  destruct max_retries as [| n].
  - eexists [], _. split; [reflexivity |].
    split; [constructor |]. split; [fecha_linha_ok |].
    simpl. split; [lia |]. split; [lia |]. split; [cbv; lia | reflexivity].
  - destruct (laco_tentativas_inv base_url (S n) servidor
                (c_id_colaborador colab) (c_nome colab) (c_data colab)
                (c_codigo_horario colab) colab (S n) 1)
      as (efs & r & Hlaco & Hefs & Hrow & Ht & Hped & Hesp); [lia | lia |].
    exists efs, r.
    split; [done |]. split; [done |]. split; [done |].
    split; [lia |]. split; [lia |]. split; lia.
Qed.

Lemma processar_lote_lookup base_url max_retries servidor colaboradores i c :
  colaboradores !! i = Some c ->
  processar_lote base_url max_retries servidor colaboradores !! i
  = Some (resultado_final c
            (enviar_programacao base_url max_retries (servidor i) c).2).
Proof.
  intros Hc. unfold processar_lote. by rewrite list_lookup_imap, Hc.
Qed.

Lemma processar_lote_row base_url max_retries servidor colaboradores i c :
  colaboradores !! i = Some c ->
  exists r,
    processar_lote base_url max_retries servidor colaboradores !! i = Some r
    /\ linha_ok (c_id_colaborador c) (c_nome c) (c_data c)
         (c_codigo_horario c) r
    /\ tentativas r <= max_retries
    /\ (1 <= max_retries -> 1 <= tentativas r).
Proof.
  intros Hc. rewrite (processar_lote_lookup _ _ _ _ _ _ Hc).
  destruct (enviar_programacao_inv base_url max_retries (servidor i) c)
    as (efs & r & -> & _ & Hrow & Hmax & Hmin & _).
  exists r. split; [done |]. split; [done |]. by split.
Qed.

(** X9: a batch hands back one row per record, in the order of the records;
    the row of a record carries its identifier, name and code, a status that
    is "sucesso" exactly when the status code is 200, 201 or 204, never the
    status code 401, and an attempt count between 1 and the cap. *)
Theorem every_record_gets_its_row
    base_url max_retries servidor colaboradores :
  length (processar_lote base_url max_retries servidor colaboradores)
  = length colaboradores
  /\ forall i c,
       colaboradores !! i = Some c ->
       exists r,
         processar_lote base_url max_retries servidor colaboradores !! i
         = Some r
         /\ linha_ok (c_id_colaborador c) (c_nome c) (c_data c)
              (c_codigo_horario c) r
         /\ tentativas r <= max_retries
         /\ (1 <= max_retries -> 1 <= tentativas r).
Proof.
  split; [apply processar_lote_length |].
  intros i c Hc. by apply processar_lote_row.
Qed.

(** X10: whatever the remote end does, a record is sent at most as many
    times as its row counts attempts, which is at most the cap; every
    request of the record has the same address and the same body, built from
    the record (none is sent when its code is no integer); the record
    sleeps once after each attempt but the last; and no exception leaves
    the submission. *)
Theorem requests_of_a_record base_url max_retries servidor colab :
  exists efs r,
    enviar_programacao base_url max_retries servidor colab = (efs, inr r)
    /\ pedidos efs <= tentativas r <= max_retries
    /\ length (esperas efs) = tentativas r - 1
    /\ forall url corpo,
         Put url corpo ∈ efs ->
         exists codigo,
           Py.int (c_codigo_horario colab) = Some codigo
           /\ url = url_envio base_url (c_id_colaborador colab) (c_data colab)
           /\ corpo = payload_envio (c_id_colaborador colab) (c_nome colab)
                        (c_data colab) codigo colab.
Proof.
  destruct (enviar_programacao_inv base_url max_retries servidor colab)
    as (efs & r & Henv & Hefs & _ & Hmax & _ & Hped & Hesp).
  exists efs, r. split; [done |]. split; [lia |]. split; [done |].
  intros url corpo Hin.
  rewrite Forall_forall in Hefs. exact (Hefs _ Hin).
Qed.

(** ** One submission: success after errors, and time-outs *)

Lemma uma_tentativa_resposta
    base_url max_retries servidor id_ nome_ data_original codigo_ colab
    codigo t st text :
  Py.int codigo_ = Some codigo ->
  servidor t = Response st text ->
  st <> 401%Z ->
  uma_tentativa base_url max_retries servidor id_ nome_ data_original
    codigo_ colab t
  = if is_sucesso_status st || negb (t <? max_retries)
    then ([Put (url_envio base_url id_ data_original)
               (payload_envio id_ nome_ data_original codigo colab)],
          Retorna (resultado_http id_ nome_ data_original codigo_ t st text))
    else ([Put (url_envio base_url id_ data_original)
               (payload_envio id_ nome_ data_original codigo colab);
           Sleep (backoff (1 # 2) t)], Continua).
Proof.
  intros Hint Hserv H401. unfold uma_tentativa, corpo_tentativa.
  rewrite Hint, Hserv. apply Z.eqb_neq in H401. rewrite H401.
  unfold resultado_http.
  by destruct (is_sucesso_status st), (t <? max_retries).
Qed.

Lemma uma_tentativa_timeout
    base_url max_retries servidor id_ nome_ data_original codigo_ colab
    codigo t msg :
  Py.int codigo_ = Some codigo ->
  servidor t = Raises {| classe := TimeoutError; mensagem := msg |} ->
  uma_tentativa base_url max_retries servidor id_ nome_ data_original
    codigo_ colab t
  = if t <? max_retries
    then ([Put (url_envio base_url id_ data_original)
               (payload_envio id_ nome_ data_original codigo colab);
           Sleep (backoff 2 t)], Continua)
    else ([Put (url_envio base_url id_ data_original)
               (payload_envio id_ nome_ data_original codigo colab)],
          Retorna
            {| id_colaborador := id_; nome := nome_; data := data_original;
               codigo_horario := codigo_; status_code := 0;
               status := "timeout";
               response_text :=
                 "Timeout na requisição após 3 tentativas (60s cada)";
               erro := "Timeout"; tentativas := t; numero_retry := None |}).
Proof.
  intros Hint Hserv. unfold uma_tentativa, corpo_tentativa, tratar_excecao.
  rewrite Hint, Hserv. simpl. by destruct (t <? max_retries).
Qed.

Lemma laco_tentativas_until_success
    base_url max_retries servidor id_ nome_ data_original codigo_ colab
    codigo (st : nat -> Z) (text : nat -> string) k m extra t :
  Py.int codigo_ = Some codigo ->
  t + m = k -> k <= max_retries ->
  (forall u, t <= u <= k -> servidor u = Response (st u) (text u)) ->
  (forall u, t <= u < k ->
             is_sucesso_status (st u) = false /\ st u <> 401%Z) ->
  is_sucesso_status (st k) = true ->
  laco_tentativas base_url max_retries servidor id_ nome_ data_original
    codigo_ colab (S (m + extra)) t
  = (efeitos_erros (url_envio base_url id_ data_original)
       (payload_envio id_ nome_ data_original codigo colab) (S m) t,
     inr (resultado_http id_ nome_ data_original codigo_ k (st k) (text k))).
Proof.
  intros Hint. revert t.
  induction m as [| m IH]; intros t Hk Hmax Hserv Herr Hok;
    cbn [Nat.add]; rewrite laco_tentativas_S.
  - assert (t = k) as -> by lia.
    rewrite (uma_tentativa_resposta _ _ _ _ _ _ _ _ codigo k (st k) (text k));
      [| done | apply Hserv; lia |].
    + by rewrite Hok.
    + intros H401. rewrite H401 in Hok. discriminate Hok.
  - destruct (Herr t) as [Hne H401]; [lia |].
    rewrite (uma_tentativa_resposta _ _ _ _ _ _ _ _ codigo t (st t) (text t));
      [| done | apply Hserv; lia | done].
    rewrite Hne.
    assert (Hlt : (t <? max_retries) = true) by (apply Nat.ltb_lt; lia).
    rewrite Hlt. cbn [orb negb].
    rewrite (IH (S t)); [reflexivity | lia | lia | | | done].
    + intros u Hu. apply Hserv. lia.
    + intros u Hu. apply Herr. lia.
Qed.

(** X11: when the first [k - 1] attempts of a record get error responses
    (neither accepted nor 401) and attempt [k], within the cap, is accepted,
    the record is sent exactly [k] times, sleeps [0.5 * 2^(t-1)] after each
    attempt [t < k], and its row is a success with [k] attempts: nothing is
    sent after the accepted attempt. *)
Theorem success_stops_the_attempts
    base_url max_retries servidor colab codigo
    (st : nat -> Z) (text : nat -> string) k :
  Py.int (c_codigo_horario colab) = Some codigo ->
  1 <= k <= max_retries ->
  (forall u, 1 <= u <= k -> servidor u = Response (st u) (text u)) ->
  (forall u, 1 <= u < k -> is_sucesso_status (st u) = false /\ st u <> 401%Z) ->
  is_sucesso_status (st k) = true ->
  exists efs r,
    enviar_programacao base_url max_retries servidor colab = (efs, inr r)
    /\ pedidos efs = k
    /\ esperas efs = backoff (1 # 2) <$> seq 1 (k - 1)
    /\ status r = "sucesso" /\ tentativas r = k /\ status_code r = st k
    /\ data r = converter_data (c_data colab).
Proof.
  intros Hint Hk Hserv Herr Hok.
  unfold enviar_programacao, _tentar_envio.
  pose proof (laco_tentativas_until_success base_url max_retries servidor
                (c_id_colaborador colab) (c_nome colab) (c_data colab)
                (c_codigo_horario colab) colab codigo st text k
                (k - 1) (max_retries - k) 1 Hint) as Hlaco.
  replace (S (k - 1 + (max_retries - k))) with max_retries in Hlaco by lia.
  rewrite Hlaco; [| lia | lia | done | done | done].
  eexists _, _. split; [reflexivity |].
  split; [rewrite efeitos_erros_pedidos; lia |].
  split; [apply efeitos_erros_esperas |].
  cbn [resultado_http status tentativas status_code data].
  rewrite Hok. by repeat split.
Qed.

Lemma success_stops_the_attempts_witness :
  exists efs r,
    enviar_programacao base_url_senior 3
      (fun t => if t =? 1 then Response 500 "" else Response 204 "")
      colaborador_ex
    = (efs, inr r)
    /\ pedidos efs = 2
    /\ esperas efs = backoff (1 # 2) <$> seq 1 (2 - 1)
    /\ status r = "sucesso" /\ tentativas r = 2
    /\ status_code r
       = (fun t : nat => if (t =? 1)%nat then 500%Z else 204%Z) 2
    /\ data r = converter_data (c_data colaborador_ex).
Proof.
  apply (success_stops_the_attempts base_url_senior 3
           (fun t => if t =? 1 then Response 500 "" else Response 204 "")
           colaborador_ex 1234%Z
           (fun t : nat => if (t =? 1)%nat then 500%Z else 204%Z)
           (fun _ => "") 2).
  - reflexivity.
  - lia.
  - intros u Hu. by destruct (u =? 1).
  - intros u Hu. assert (u = 1) as -> by lia. by split.
  - reflexivity.
Defined.

Lemma laco_tentativas_timeouts
    base_url max_retries servidor id_ nome_ data_original codigo_ colab
    codigo (msg : nat -> string) k t :
  Py.int codigo_ = Some codigo ->
  (forall u, servidor u
             = Raises {| classe := TimeoutError; mensagem := msg u |}) ->
  t + k = max_retries ->
  laco_tentativas base_url max_retries servidor id_ nome_ data_original
    codigo_ colab (S k) t
  = (efeitos_timeouts (url_envio base_url id_ data_original)
       (payload_envio id_ nome_ data_original codigo colab) (S k) t,
     inr {| id_colaborador := id_; nome := nome_; data := data_original;
            codigo_horario := codigo_; status_code := 0;
            status := "timeout";
            response_text :=
              "Timeout na requisição após 3 tentativas (60s cada)";
            erro := "Timeout"; tentativas := max_retries;
            numero_retry := None |}).
Proof.
  intros Hint Hserv. revert t.
  induction k as [| k IH]; intros t Ht; rewrite laco_tentativas_S;
    rewrite (uma_tentativa_timeout _ _ _ _ _ _ _ _ codigo t (msg t) Hint
               (Hserv t)).
  - assert (t = max_retries) as -> by lia.
    by rewrite Nat.ltb_irrefl.
  - assert (Hlt : (t <? max_retries) = true) by (apply Nat.ltb_lt; lia).
    rewrite Hlt, (IH (S t)) by lia. reflexivity.
Qed.

Lemma efeitos_timeouts_pedidos url corpo k t :
  pedidos (efeitos_timeouts url corpo k t) = k.
Proof.
  revert t. induction k as [| k IH]; intros t; [done |].
  destruct k as [| k']; [done |].
  specialize (IH (S t)). unfold pedidos in *.
  cbn [efeitos_timeouts List.filter length] in *.
  by rewrite IH.
Qed.

Lemma efeitos_timeouts_esperas url corpo k t :
  esperas (efeitos_timeouts url corpo (S k) t) = backoff 2 <$> seq t k.
Proof.
  revert t. induction k as [| k IH]; intros t; [done |].
  specialize (IH (S t)). unfold esperas in *.
  cbn [efeitos_timeouts omap list_omap seq fmap list_fmap] in *.
  by rewrite IH.
Qed.

(** X12: a record whose every request times out is sent as many times as
    the cap allows, sleeps [2 * 2^(t-1)] seconds after each attempt [t] but
    the last (2 s and 4 s under the cap of 3), and ends as a row with status
    "timeout", the status code 0, the cap as attempt count and the date as it
    was given, not converted. *)
Theorem always_timeout_backoff
    base_url n servidor colab codigo (msg : nat -> string) :
  Py.int (c_codigo_horario colab) = Some codigo ->
  (forall u, servidor u
             = Raises {| classe := TimeoutError; mensagem := msg u |}) ->
  exists efs r,
    enviar_programacao base_url (S n) servidor colab = (efs, inr r)
    /\ pedidos efs = S n
    /\ esperas efs = backoff 2 <$> seq 1 n
    /\ status r = "timeout" /\ status_code r = 0%Z
    /\ tentativas r = S n /\ data r = c_data colab.
Proof.
  intros Hint Hserv. unfold enviar_programacao, _tentar_envio.
  rewrite (laco_tentativas_timeouts _ _ _ _ _ _ _ _ codigo msg n 1 Hint Hserv)
    by lia.
  eexists _, _. split; [reflexivity |].
  split; [apply efeitos_timeouts_pedidos |].
  split; [apply efeitos_timeouts_esperas |]. by repeat split.
Qed.

Lemma always_timeout_backoff_witness :
  exists efs r,
    enviar_programacao base_url_senior (S 2) (fun _ => Raises timeout_exn)
      colaborador_ex
    = (efs, inr r)
    /\ pedidos efs = S 2
    /\ esperas efs = backoff 2 <$> seq 1 2
    /\ status r = "timeout" /\ status_code r = 0%Z
    /\ tentativas r = S 2 /\ data r = c_data colaborador_ex.
Proof.
  apply (always_timeout_backoff base_url_senior 2
           (fun _ => Raises timeout_exn) colaborador_ex 1234%Z (fun _ => "")).
  - reflexivity.
  - reflexivity.
Defined.

(** ** Dates and identifiers: splitting, and sending again *)

Lemma all_chars_app p s s' :
  Py.all_chars p (s +:+ s') = Py.all_chars p s && Py.all_chars p s'.
Proof.
  induction s as [| c s IH]; [done |]. simpl. by rewrite IH, andb_assoc.
Qed.

Lemma contains_char_sem c s :
  Py.contains (String c "") s = false <-> sem_char c s.
Proof.
  unfold sem_char. induction s as [| d s IH]; [done |].
  rewrite contains_cons. cbn [String.prefix Py.all_chars].
  destruct (ascii_dec c d) as [<- | Hne].
  - rewrite Ascii.eqb_refl. by destruct s.
  - assert (Hd : Ascii.eqb d c = false) by (apply Ascii.eqb_neq; congruence).
    rewrite Hd. cbn [orb negb andb]. exact IH.
Qed.

Lemma split_nonempty sep s : Py.split sep s <> [].
Proof.
  destruct s as [| c s]; [done |]. cbn [Py.split].
  destruct (Py.split sep s); [done |]. by destruct (Ascii.eqb c sep).
Qed.

Lemma split_parts_sem sep s : Forall (sem_char sep) (Py.split sep s).
Proof.
  induction s as [| c s IH]; [by repeat constructor |].
  cbn [Py.split]. destruct (Py.split sep s) as [| w ws] eqn:Hs.
  - by apply split_nonempty in Hs.
  - apply Forall_cons in IH as [Hw Hws].
    destruct (Ascii.eqb c sep) eqn:Hc.
    + by repeat constructor.
    + constructor; [| done]. unfold sem_char in *. simpl. by rewrite Hc.
Qed.

Lemma split_sem sep a : sem_char sep a -> Py.split sep a = [a].
Proof.
  unfold sem_char. induction a as [| c a IH]; [done |].
  simpl. rewrite andb_true_iff, negb_true_iff. intros [Hc Ha].
  by rewrite (IH Ha), Hc.
Qed.

Lemma split_app_sep sep a s :
  sem_char sep a ->
  Py.split sep (a +:+ String sep s) = a :: Py.split sep s.
Proof.
  unfold sem_char. induction a as [| c a IH].
  - intros _. change ("" +:+ String sep s) with (String sep s).
    pose proof (split_nonempty sep s) as Hs. simpl.
    destruct (Py.split sep s) as [| w ws]; [done |].
    by rewrite Ascii.eqb_refl.
  - simpl. rewrite andb_true_iff, negb_true_iff. intros [Hc Ha].
    by rewrite (IH Ha), Hc.
Qed.

Lemma zeros_sem c n : c <> "0"%char -> sem_char c (Py.zeros n).
Proof.
  intros Hc. unfold sem_char. induction n as [| n IH]; [done |].
  assert (H0 : Ascii.eqb "0" c = false) by (apply Ascii.eqb_neq; congruence).
  cbn [Py.zeros Py.all_chars]. by rewrite H0, IH.
Qed.

Lemma zfill_sem c n s : c <> "0"%char -> sem_char c s -> sem_char c (Py.zfill n s).
Proof.
  intros Hc Hs. unfold Py.zfill.
  destruct (n <=? String.length s); [done |].
  pose proof (zeros_sem c (n - String.length s) Hc) as Hz.
  destruct s as [| d r]; [by apply zeros_sem |].
  set (k := n - String.length (String d r)) in *.
  unfold sem_char in *. cbn [Py.all_chars] in Hs.
  apply andb_true_iff in Hs as [Hd Hr].
  destruct (_ || _).
  - cbn [Py.all_chars]. by rewrite Hd, all_chars_app, Hz, Hr.
  - rewrite all_chars_app, Hz. cbn [Py.all_chars]. by rewrite Hd, Hr.
Qed.

Lemma sem_char_app c s s' :
  sem_char c s -> sem_char c s' -> sem_char c (s +:+ s').
Proof. unfold sem_char. intros Hs Hs'. by rewrite all_chars_app, Hs, Hs'. Qed.

Lemma converter_data_idem d : converter_data (converter_data d) = converter_data d.
Proof.
  destruct (Py.contains "/" d) eqn:Hd;
    [| by rewrite !(converter_data_no_slash _ Hd)].
  pose proof (split_parts_sem "/" d) as Hparts.
  assert (Hcases :
    converter_data d = d
    \/ exists p0 p1 p2,
         Py.split "/" d = [p0; p1; p2]
         /\ converter_data d
            = p2 +:+ "-" +:+ Py.zfill 2 p1 +:+ "-" +:+ Py.zfill 2 p0).
  { unfold converter_data. rewrite Hd.
    destruct (Py.split "/" d) as [| p0 [| p1 [| p2 [| ? ?]]]]; eauto 10. }
  destruct Hcases as [Hsame | (p0 & p1 & p2 & Hs & Hc)].
  - rewrite Hsame. exact Hsame.
  - rewrite Hc. apply converter_data_no_slash, contains_char_sem.
    rewrite Hs in Hparts.
    apply Forall_cons in Hparts as [H0 Hparts].
    apply Forall_cons in Hparts as [H1 Hparts].
    apply Forall_cons in Hparts as [H2 _].
    repeat apply sem_char_app;
      first [assumption | reflexivity | by apply zfill_sem].
Qed.

Lemma converter_data_three dd mm yyyy :
  sem_char "/" dd -> sem_char "/" mm -> sem_char "/" yyyy ->
  converter_data (dd +:+ "/" +:+ mm +:+ "/" +:+ yyyy)
  = yyyy +:+ "-" +:+ Py.zfill 2 mm +:+ "-" +:+ Py.zfill 2 dd.
Proof.
  intros Hd Hm Hy. unfold converter_data.
  assert (Hc : Py.contains "/" (dd +:+ "/" +:+ mm +:+ "/" +:+ yyyy) = true).
  { clear. induction dd as [| c dd IH].
    { change ("" +:+ "/" +:+ mm +:+ "/" +:+ yyyy)
        with (String "/" (mm +:+ "/" +:+ yyyy)).
      rewrite contains_cons. cbn [String.prefix].
      destruct (ascii_dec "/" "/") as [_ | Hne]; [| done].
      by destruct (mm +:+ "/" +:+ yyyy). }
    change (String c dd +:+ "/" +:+ mm +:+ "/" +:+ yyyy)
      with (String c (dd +:+ "/" +:+ mm +:+ "/" +:+ yyyy)).
    rewrite contains_cons, IH. apply orb_true_r. }
  rewrite Hc.
  change (dd +:+ "/" +:+ mm +:+ "/" +:+ yyyy)
    with (dd +:+ String "/" (mm +:+ String "/" yyyy)).
  by rewrite (split_app_sep _ _ _ Hd), (split_app_sep _ _ _ Hm),
       (split_sem _ _ Hy).
Qed.

(** X13: the conversion of a date is stable.  A date of three parts between
    slashes becomes year-month-day with month and day padded to two
    digits, a text without a slash; and converting what was converted
    changes nothing, so a row sent again has the date of the first
    request. *)
Theorem converter_data_stable dd mm yyyy :
  sem_char "/" dd -> sem_char "/" mm -> sem_char "/" yyyy ->
  converter_data (dd +:+ "/" +:+ mm +:+ "/" +:+ yyyy)
  = yyyy +:+ "-" +:+ Py.zfill 2 mm +:+ "-" +:+ Py.zfill 2 dd
  /\ Py.contains "/" (converter_data (dd +:+ "/" +:+ mm +:+ "/" +:+ yyyy))
     = false
  /\ forall d, converter_data (converter_data d) = converter_data d.
Proof.
  intros Hd Hm Hy. rewrite (converter_data_three _ _ _ Hd Hm Hy).
  split; [done |]. split; [| apply converter_data_idem].
  apply contains_char_sem.
  repeat apply sem_char_app;
    first [assumption | reflexivity | by apply zfill_sem].
Qed.

Lemma converter_data_stable_witness :
  converter_data ("1" +:+ "/" +:+ "9" +:+ "/" +:+ "2025")
  = "2025" +:+ "-" +:+ Py.zfill 2 "9" +:+ "-" +:+ Py.zfill 2 "1"
  /\ Py.contains "/" (converter_data ("1" +:+ "/" +:+ "9" +:+ "/" +:+ "2025"))
     = false
  /\ forall d, converter_data (converter_data d) = converter_data d.
Proof.
  apply (converter_data_stable "1" "9" "2025"); reflexivity.
Defined.

(** X14: a retry sends the request of the first pass again.  For a record
    read without overrides (blank [numero_cadastro] and [numero_empresa],
    [tipo_colaborador] 1), every request of the retry of its row, whatever
    the row is, has the address and the body of the requests of the first
    pass. *)
Theorem retry_resends_the_same_request
    base_url max_retries servidor servidor' colab r :
  (enviar_programacao base_url max_retries servidor colab).2 = inr r ->
  Py.strip (c_numero_cadastro colab) = "" ->
  Py.strip (c_numero_empresa colab) = "" ->
  Py.strip (c_tipo_colaborador colab) = "1" ->
  forall url corpo,
    Put url corpo
    ∈ (enviar_programacao base_url max_retries servidor'
         (colaborador_retry r)).1 ->
    exists codigo,
      Py.int (c_codigo_horario colab) = Some codigo
      /\ url = url_envio base_url (c_id_colaborador colab) (c_data colab)
      /\ corpo = payload_envio (c_id_colaborador colab) (c_nome colab)
                   (c_data colab) codigo colab.
Proof.
  intros Hr Hcad Hemp Htipo url corpo Hput.
  destruct (enviar_programacao_inv base_url max_retries servidor colab)
    as (efs & r0 & Henv & _ & Hrow & _).
  rewrite Henv in Hr. injection Hr as ->.
  destruct Hrow as (Hid & Hnome & Hcod & _ & Hdata & _).
  destruct (enviar_programacao_inv base_url max_retries servidor'
              (colaborador_retry r))
    as (efs' & r' & Henv' & Hefs' & _).
  rewrite Henv' in Hput. simpl in Hput.
  rewrite Forall_forall in Hefs'. specialize (Hefs' _ Hput).
  destruct Hefs' as (codigo & Hint & -> & ->). simpl in Hint.
  assert (Hconv : converter_data (data r) = converter_data (c_data colab)).
  { destruct Hdata as [-> | ->]; [apply converter_data_idem | done]. }
  exists codigo. rewrite <- Hcod. split; [done |]. simpl.
  unfold url_envio, payload_envio. simpl.
  rewrite Hconv, Hid, Hnome, Hcad, Hemp, Htipo. by split.
Qed.

Lemma retry_resends_the_same_request_witness :
  exists codigo,
    Py.int (c_codigo_horario colaborador_ex) = Some codigo
    /\ url_ex = url_envio base_url_senior (c_id_colaborador colaborador_ex)
                  (c_data colaborador_ex)
    /\ payload_ex = payload_envio (c_id_colaborador colaborador_ex)
                      (c_nome colaborador_ex) (c_data colaborador_ex) codigo
                      colaborador_ex.
Proof.
  apply (retry_resends_the_same_request base_url_senior 3
           (fun _ => Raises timeout_exn) (fun _ => Response 200 "ok")
           colaborador_ex
           {| id_colaborador := "303-1-16774"; nome := "ANA";
              data := "01/10/2025"; codigo_horario := "1234";
              status_code := 0; status := "timeout";
              response_text :=
                "Timeout na requisição após 3 tentativas (60s cada)";
              erro := "Timeout"; tentativas := 3;
              numero_retry := None |}).
  - reflexivity.
  - reflexivity.
  - reflexivity.
  - reflexivity.
  - vm_compute. apply list_elem_of_here.
Defined.

(** ** The retry loop as a whole, and the summary of the errors *)

Lemma ciclo_retry_cases servidor quer n resultados :
  (ciclo_retry servidor quer n resultados = Encerra resultados
   /\ ((separar_sucessos_e_erros resultados).2 = [] \/ quer = false))
  \/ ((separar_sucessos_e_erros resultados).2 <> []
      /\ quer = true
      /\ ciclo_retry servidor quer n resultados
         = Segue (S n)
             (colaborador_retry <$> (separar_sucessos_e_erros resultados).2)
             ((fun r =>
                 default r
                   (dict_de (linhas_retry servidor (S n) resultados)
                      !! chave r)) <$> resultados)
             (linhas_retry servidor (S n) resultados)).
Proof.
  unfold ciclo_retry, linhas_retry, separar_sucessos_e_erros. cbn [snd].
  destruct (List.filter (fun r => negb (is_sucesso r)) resultados)
    as [| e erros]; [left; split; [done | by left] |].
  destruct quer; [right | left; split; [done | by right]].
  split; [done |]. split; [done |]. reflexivity.
Qed.

Lemma linha_do_lote base_url max_retries servidor k cs r :
  r ∈ set_numero_retry k <$> processar_lote base_url max_retries servidor cs ->
  exists c r0,
    c ∈ cs /\ r = set_numero_retry k r0
    /\ linha_ok (c_id_colaborador c) (c_nome c) (c_data c)
         (c_codigo_horario c) r0
    /\ tentativas r0 <= max_retries.
Proof.
  intros Hr. apply list_elem_of_fmap in Hr as (r0 & -> & Hr0).
  apply list_elem_of_lookup in Hr0 as [i Hi].
  assert (Hlt : i < length cs).
  { rewrite <- (processar_lote_length base_url max_retries servidor).
    by apply lookup_lt_Some in Hi. }
  apply lookup_lt_is_Some in Hlt as [c Hc].
  destruct (processar_lote_row base_url max_retries servidor cs i c Hc)
    as (r1 & Hr1 & Hrow & Hmax & _).
  rewrite Hi in Hr1. injection Hr1 as <-.
  exists c, r0. split; [| done]. apply list_elem_of_lookup. eauto.
Qed.

Lemma armazem_linhas (d : gmap string resultado)
    (retry resultados : list resultado) (r : resultado) :
  (forall k v, d !! k = Some v -> v ∈ retry) ->
  r ∈ (fun r => default r (d !! chave r)) <$> resultados ->
  r ∈ resultados \/ r ∈ retry.
Proof.
  intros Hd Hr. apply list_elem_of_fmap in Hr as (r0 & -> & Hr0).
  destruct (d !! chave r0) as [v |] eqn:Hv; [right; eauto | by left].
Qed.

Section LacoRetry.

Variable P : resultado -> Prop.
Hypothesis P_lote : forall servidor k cs r,
  r ∈ set_numero_retry k <$> processar_lote base_url_senior 3 servidor cs ->
  P r.

Lemma ciclo_retry_Forall servidor quer n resultados :
  Forall P resultados ->
  Forall P (armazem (ciclo_retry servidor quer n resultados)).
Proof.
  intros Hres.
  destruct (ciclo_retry_cases servidor quer n resultados)
    as [[-> _] | (_ & _ & ->)]; [done |].
  cbn [armazem]. apply Forall_forall. intros r Hr.
  apply (armazem_linhas _ (linhas_retry servidor (S n) resultados)) in Hr
    as [Hr | Hr].
  - rewrite Forall_forall in Hres. by apply Hres.
  - exact (P_lote _ _ _ _ Hr).
  - intros k v Hk. by apply dict_de_lookup_Some in Hk as [Hv _].
Qed.

Lemma laco_retry_Forall ciclos m resultados n final :
  laco_retry ciclos m resultados = Some (n, final) ->
  Forall P resultados -> Forall P final.
Proof.
  revert m resultados.
  induction ciclos as [| [quer servidor] resto IH]; intros m resultados.
  - cbn [laco_retry].
    destruct (separar_sucessos_e_erros resultados).2; [| done].
    by intros [= _ <-].
  - cbn [laco_retry]. intros Hlaco Hres.
    pose proof (ciclo_retry_Forall servidor quer m resultados Hres) as Harm.
    destruct (ciclo_retry servidor quer m resultados) as [res' | m' ? res' ?].
    + by injection Hlaco as _ <-.
    + exact (IH _ _ Hlaco Harm).
Qed.

End LacoRetry.




Lemma tipo_erro_token erro_ :
  tipo_erro erro_ = "Token Expirado" -> status_code erro_ = 401%Z.
Proof.
  unfold tipo_erro.
  destruct (String.eqb (status erro_) "timeout"); [done |].
  destruct (status_code erro_ =? 401)%Z eqn:H401; [intros _; lia |].
  destruct (500 <=? status_code erro_)%Z; [done |].
  by destruct (400 <=? status_code erro_)%Z.
Qed.

(** X15: the summary of the errors never shows "Token Expirado".  Whatever
    the remote end answers in the first pass and in the retry cycles, no row
    of the store the retry loop ends with has the status code 401, so the
    second branch of the summary is never taken. *)
Theorem token_expired_is_never_reported
    ciclos servidor colaboradores n final :
  laco_retry ciclos 0 (envio_inicial servidor colaboradores)
  = Some (n, final) ->
  forall r, r ∈ final ->
    status_code r <> 401%Z /\ tipo_erro r <> "Token Expirado".
Proof.
  intros Hlaco.
  assert (Hlote : forall servidor k cs r,
    r ∈ set_numero_retry k <$> processar_lote base_url_senior 3 servidor cs ->
    status_code r <> 401%Z).
  { intros s k cs r Hr.
    apply linha_do_lote in Hr as (c & r0 & _ & -> & Hrow & _).
    by destruct Hrow as (_ & _ & _ & _ & _ & _ & _ & H401 & _). }
  assert (Hfinal : Forall (fun r => status_code r <> 401%Z) final).
  { apply (laco_retry_Forall _ Hlote _ _ _ _ _ Hlaco).
    apply Forall_forall. intros r0 Hr0. exact (Hlote _ _ _ _ Hr0). }
  rewrite Forall_forall in Hfinal.
  intros r Hr. pose proof (Hfinal r Hr) as H401.
  split; [done |]. intros Htipo. by apply tipo_erro_token in Htipo.
Qed.

Lemma token_expired_is_never_reported_witness :
  exists n final,
    laco_retry [(false, fun _ _ => Response 200 "ok")] 0
      (envio_inicial (fun _ _ => Response 401 "Unauthorized") [colaborador_ex])
    = Some (n, final)
    /\ forall r, r ∈ final ->
         status_code r <> 401%Z /\ tipo_erro r <> "Token Expirado".
Proof.
  eexists _, _. split.
  - vm_compute. reflexivity.
  - apply (token_expired_is_never_reported
             [(false, fun _ _ => Response 200 "ok")]
             (fun _ _ => Response 401 "Unauthorized") [colaborador_ex] 0).
    vm_compute. reflexivity.
Defined.



(** X17: a retry cycle leaves alone every row whose key is the key of no
    failed row, neither with the date of the failed row as it is nor with
    that date converted. *)
Theorem retry_leaves_other_rows servidor n resultados j r :
  resultados !! j = Some r ->
  (forall e, e ∈ resultados -> is_sucesso e = false ->
     chave r <> chave e
     /\ chave r <> id_colaborador e +:+ "_" +:+ converter_data (data e)) ->
  armazem (ciclo_retry servidor true n resultados) !! j = Some r.
Proof.
  intros Hj Houtras.
  destruct (ciclo_retry_cases servidor true n resultados)
    as [[-> _] | (_ & _ & ->)]; [done |].
  cbn [armazem]. rewrite list_lookup_fmap, Hj. cbn [fmap option_fmap option_map].
  destruct (dict_de (linhas_retry servidor (S n) resultados) !! chave r)
    as [v |] eqn:Hv; [exfalso | done].
  apply dict_de_lookup_Some in Hv as [Hv Hchave].
  apply linha_do_lote in Hv as (c & r0 & Hc & -> & Hrow & _).
  apply list_elem_of_fmap in Hc as (e & -> & He).
  apply list_elem_of_In, filter_In in He as [He Hfail].
  apply list_elem_of_In in He. apply negb_true_iff in Hfail.
  destruct (Houtras e He Hfail) as [H1 H2].
  destruct Hrow as (Hid & _ & _ & _ & Hdata & _). simpl in Hid, Hdata.
  rewrite chave_set_numero_retry in Hchave. unfold chave in Hchave, H1, H2.
  rewrite Hid in Hchave.
  destruct Hdata as [Hd | Hd]; rewrite Hd in Hchave; congruence.
Qed.

Lemma retry_leaves_other_rows_witness :
  armazem (ciclo_retry (fun _ _ => Response 200 "ok") true 0
             [linha_sucesso_retry;
              {| id_colaborador := "303-1-20000"; nome := "BIA";
                 data := "01/10/2025"; codigo_horario := "1234";
                 status_code := 0; status := "timeout";
                 response_text := ""; erro := "Timeout"; tentativas := 3;
                 numero_retry := Some 0 |}]) !! 0
  = Some linha_sucesso_retry.
Proof.
  apply (retry_leaves_other_rows (fun _ _ => Response 200 "ok") 0
           [linha_sucesso_retry;
            {| id_colaborador := "303-1-20000"; nome := "BIA";
               data := "01/10/2025"; codigo_horario := "1234";
               status_code := 0; status := "timeout";
               response_text := ""; erro := "Timeout"; tentativas := 3;
               numero_retry := Some 0 |}] 0 linha_sucesso_retry).
  - reflexivity.
  - intros e He Hfail.
    apply elem_of_cons in He as [-> | He]; [discriminate Hfail |].
    apply list_elem_of_singleton in He as ->.
    split; vm_compute; discriminate.
Defined.

(** X18: a retry cycle replaces every row that shares its key with a failed
    row whose date has no slash, also a row with status "sucesso": the row
    of the store becomes a row of the cycle, tagged with its number. *)
Theorem retry_overwrites_rows_sharing_a_key servidor n resultados j r e :
  resultados !! j = Some r ->
  e ∈ resultados ->
  is_sucesso e = false ->
  Py.contains "/" (data e) = false ->
  chave e = chave r ->
  let v := ciclo_retry servidor true n resultados in
  exists novo,
    armazem v !! j = Some novo
    /\ novo ∈ novos_resultados v
    /\ chave novo = chave r
    /\ numero_retry novo = Some (S n).
Proof.
  intros Hj He Hfail Hdata Hchave.
  apply list_elem_of_lookup in He as [i Hi].
  destruct (ciclo_retry_overwrites servidor n resultados i e Hi Hfail Hdata)
    as (_ & novo0 & Hnovo0 & Hin0 & Hchave0 & _).
  cbn zeta.
  destruct (ciclo_retry_cases servidor true n resultados)
    as [[Henc _] | (_ & _ & Hseg)].
  { rewrite Henc in Hin0. by apply elem_of_nil in Hin0. }
  rewrite Hseg in *. cbn [armazem novos_resultados] in *.
  destruct (dict_de_lookup_elem _ _ Hin0) as [novo Hlook].
  rewrite Hchave0, Hchave in Hlook.
  destruct (dict_de_lookup_Some _ _ _ Hlook) as [Hnovo Hk].
  exists novo. rewrite list_lookup_fmap, Hj. simpl. rewrite Hlook. simpl.
  split; [done |]. split; [done |]. split; [done |].
  unfold linhas_retry in Hnovo.
  by apply list_elem_of_fmap in Hnovo as (x & -> & _).
Qed.

Lemma retry_overwrites_rows_sharing_a_key_witness :
  let v := ciclo_retry (fun _ _ => Raises timeout_exn) true 0
             [linha_sucesso_retry;
              {| id_colaborador := "303-1-16774"; nome := "ANA";
                 data := "2025-10-01"; codigo_horario := "1234";
                 status_code := 500; status := "erro";
                 response_text := "Internal Server Error";
                 erro := "Erro HTTP 500"; tentativas := 3;
                 numero_retry := Some 0 |}] in
  exists novo,
    armazem v !! 0 = Some novo
    /\ novo ∈ novos_resultados v
    /\ chave novo = chave linha_sucesso_retry
    /\ numero_retry novo = Some 1.
Proof.
  apply (retry_overwrites_rows_sharing_a_key
           (fun _ _ => Raises timeout_exn) 0 _ 0 linha_sucesso_retry
           {| id_colaborador := "303-1-16774"; nome := "ANA";
              data := "2025-10-01"; codigo_horario := "1234";
              status_code := 500; status := "erro";
              response_text := "Internal Server Error";
              erro := "Erro HTTP 500"; tentativas := 3;
              numero_retry := Some 0 |}).
  - reflexivity.
  - apply list_elem_of_further, list_elem_of_here.
  - reflexivity.
  - reflexivity.
  - reflexivity.
Defined.

Lemma erros_por_tipo_snoc erros e :
  erros_por_tipo (erros ++ [e])
  = <[tipo_erro e := default 0 (erros_por_tipo erros !! tipo_erro e) + 1]>
      (erros_por_tipo erros).
Proof. unfold erros_por_tipo. by rewrite foldl_app. Qed.

Lemma erros_por_tipo_lookup erros t :
  erros_por_tipo erros !! t
  = match length (List.filter (do_tipo t) erros) with
    | O => None
    | S k => Some (S k)
    end.
Proof.
  induction erros as [| e erros IH] using rev_ind; [done |].
  rewrite erros_por_tipo_snoc, List.filter_app, length_app. cbn [List.filter].
  unfold do_tipo at 2. destruct (String.eqb_spec (tipo_erro e) t) as [-> | Hne].
  - rewrite lookup_insert_eq, IH. cbn [length].
    destruct (length (List.filter (do_tipo t) erros)); simpl; f_equal; lia.
  - rewrite lookup_insert_ne by done. rewrite IH. cbn [length].
    by rewrite Nat.add_0_r.
Qed.

(** X19: the counts of the summary of the errors.  The dictionary of the
    summary has an entry for a kind exactly when some row is of that kind,
    and the entry is the number of rows of that kind. *)
Theorem erros_por_tipo_counts erros t n :
  erros_por_tipo erros !! t = Some n
  <-> 0 < n /\ n = length (List.filter (do_tipo t) erros).
Proof.
  rewrite erros_por_tipo_lookup.
  destruct (length (List.filter (do_tipo t) erros)) as [| k].
  - split; [done | lia].
  - split; [intros [= <-]; lia | by intros [_ ->]].
Qed.

(** ** Reading the input *)

Lemma campos_preenchidos_true linha campos :
  campos_preenchidos linha campos = Some true ->
  forall campo, campo ∈ campos ->
    exists v, linha !! campo = Some (Some v) /\ Py.strip v <> "".
Proof.
  induction campos as [| campo0 campos IH]; intros Hok campo Hcampo;
    [by apply elem_of_nil in Hcampo |].
  cbn [campos_preenchidos] in Hok.
  destruct (linha !! campo0) as [[v |] |] eqn:Hv; try done.
  destruct (Py.strip v) as [| a s] eqn:Hs; [done |]. cbn [Py.truthy] in Hok.
  apply elem_of_cons in Hcampo as [-> | Hcampo]; [| by apply IH].
  exists v. split; [done |]. by rewrite Hs.
Qed.

Lemma item_strip_trimmed linha campo s :
  item_strip linha campo = Some s -> Py.strip s = s.
Proof.
  unfold item_strip. destruct (linha !! campo) as [[v |] |]; try done.
  intros [= <-]. apply strip_idem.
Qed.

Lemma get_strip_trimmed linha campo padrao s :
  get_strip linha campo padrao = Some s -> Py.strip s = s.
Proof.
  unfold get_strip. destruct (linha !! campo) as [[v |] |]; try done;
    intros [= <-]; apply strip_idem.
Qed.

Lemma ler_linha_Some linha c :
  ler_linha linha = Some (Some c) ->
  campos_preenchidos linha campos_obrigatorios = Some true
  /\ item_strip linha "id_colaborador" = Some (c_id_colaborador c)
  /\ item_strip linha "nome" = Some (c_nome c)
  /\ item_strip linha "data" = Some (c_data c)
  /\ item_strip linha "codigo_horario" = Some (c_codigo_horario c)
  /\ get_strip linha "numero_cadastro" "" = Some (c_numero_cadastro c)
  /\ get_strip linha "numero_empresa" "" = Some (c_numero_empresa c)
  /\ get_strip linha "tipo_colaborador" "1" = Some (c_tipo_colaborador c).
Proof.
  unfold ler_linha.
  destruct (campos_preenchidos linha campos_obrigatorios) as [[|] |];
    [| done | done].
  destruct (item_strip linha "id_colaborador"); [| done].
  destruct (item_strip linha "nome"); [| done].
  destruct (item_strip linha "data"); [| done].
  destruct (item_strip linha "codigo_horario"); [| done].
  destruct (get_strip linha "numero_cadastro" ""); [| done].
  destruct (get_strip linha "numero_empresa" ""); [| done].
  destruct (get_strip linha "tipo_colaborador" "1"); [| done].
  simpl. by intros [= <-].
Qed.

Lemma item_strip_nonblank linha campo s :
  campos_preenchidos linha campos_obrigatorios = Some true ->
  campo ∈ campos_obrigatorios ->
  item_strip linha campo = Some s -> s <> "".
Proof.
  intros Hok Hcampo.
  destruct (campos_preenchidos_true _ _ Hok _ Hcampo) as (v & Hv & Hne).
  unfold item_strip. rewrite Hv. by intros [= <-].
Qed.

(** X20: what [ler_csv_colaboradores] loads.  Every record it returns comes
    from a row of the file whose four required fields are there and not
    blank; the record holds these fields without surrounding white space, so
    none of them is empty, and its optional fields are trimmed as well. *)
Theorem loaded_records_are_trimmed arquivo c :
  c ∈ ler_csv_colaboradores arquivo ->
  (exists reader linha,
     arquivo = Some reader /\ linha ∈ reader
     /\ item_strip linha "id_colaborador" = Some (c_id_colaborador c)
     /\ item_strip linha "nome" = Some (c_nome c)
     /\ item_strip linha "data" = Some (c_data c)
     /\ item_strip linha "codigo_horario" = Some (c_codigo_horario c))
  /\ c_id_colaborador c <> "" /\ c_nome c <> "" /\ c_data c <> ""
  /\ c_codigo_horario c <> ""
  /\ Forall (fun campo => Py.strip campo = campo)
       [c_id_colaborador c; c_nome c; c_data c; c_codigo_horario c;
        c_numero_cadastro c; c_numero_empresa c; c_tipo_colaborador c].
Proof.
  unfold ler_csv_colaboradores. destruct arquivo as [reader |];
    [| by intros ?%elem_of_nil].
  destruct (mapM ler_linha reader) as [lidos |] eqn:Hmap;
    [| by intros ?%elem_of_nil].
  intros Hc. apply list_elem_of_omap in Hc as (o & Ho & Hid).
  unfold id in Hid. subst o.
  apply mapM_Some_1 in Hmap.
  apply list_elem_of_lookup in Ho as [i Hi].
  destruct (Forall2_lookup_r _ _ _ _ _ Hmap Hi) as (linha & Hlinha & Hler).
  apply ler_linha_Some in Hler
    as (Hok & Hid & Hnome & Hdata & Hcod & Hcad & Hemp & Htipo).
  split.
  { exists reader, linha. split; [done |].
    split; [apply list_elem_of_lookup; eauto |]. done. }
  assert (Hin : forall campo, campo ∈ campos_obrigatorios ->
            forall s, item_strip linha campo = Some s -> s <> "").
  { intros campo Hcampo s. by apply item_strip_nonblank. }
  split; [apply (Hin "id_colaborador"); [na_lista | done] |].
  split; [apply (Hin "nome"); [na_lista | done] |].
  split; [apply (Hin "data"); [na_lista | done] |].
  split; [apply (Hin "codigo_horario"); [na_lista | done] |].
  repeat constructor;
    first [ by eapply item_strip_trimmed | by eapply get_strip_trimmed ].
Qed.

Lemma loaded_records_are_trimmed_witness :
  (exists reader linha,
     Some [linha_csv_ex] = Some reader /\ linha ∈ reader
     /\ item_strip linha "id_colaborador"
        = Some (c_id_colaborador colaborador_ex)
     /\ item_strip linha "nome" = Some (c_nome colaborador_ex)
     /\ item_strip linha "data" = Some (c_data colaborador_ex)
     /\ item_strip linha "codigo_horario"
        = Some (c_codigo_horario colaborador_ex))
  /\ c_id_colaborador colaborador_ex <> "" /\ c_nome colaborador_ex <> ""
  /\ c_data colaborador_ex <> "" /\ c_codigo_horario colaborador_ex <> ""
  /\ Forall (fun campo => Py.strip campo = campo)
       [c_id_colaborador colaborador_ex; c_nome colaborador_ex;
        c_data colaborador_ex; c_codigo_horario colaborador_ex;
        c_numero_cadastro colaborador_ex; c_numero_empresa colaborador_ex;
        c_tipo_colaborador colaborador_ex].
Proof.
  apply (loaded_records_are_trimmed (Some [linha_csv_ex]) colaborador_ex).
  vm_compute. apply list_elem_of_here.
Defined.

(** X21: a short row empties the read.  When a row has its four required
    fields filled but is too short for an optional column of the header, the
    [strip] of the missing value raises, the handler of
    [ler_csv_colaboradores] takes over and the function returns the empty
    list, whatever the other rows are. *)
Theorem short_row_empties_the_read reader i linha campo :
  reader !! i = Some linha ->
  campos_preenchidos linha campos_obrigatorios = Some true ->
  campo ∈ campos_opcionais ->
  linha !! campo = Some None ->
  ler_csv_colaboradores (Some reader) = [].
Proof.
  intros Hi Hok Hcampo Hnone.
  assert (Hler : ler_linha linha = None).
  { unfold ler_linha. rewrite Hok. cbn [mbind option_bind].
    assert (Hitem : forall k, k ∈ campos_obrigatorios ->
              exists s, item_strip linha k = Some s).
    { intros k Hk.
      destruct (campos_preenchidos_true _ _ Hok _ Hk) as (v & Hv & _).
      unfold item_strip. rewrite Hv. eauto. }
    destruct (Hitem "id_colaborador") as [s1 ->]; [na_lista |].
    destruct (Hitem "nome") as [s2 ->]; [na_lista |].
    destruct (Hitem "data") as [s3 ->]; [na_lista |].
    destruct (Hitem "codigo_horario") as [s4 ->]; [na_lista |].
    cbn [mbind option_bind].
    assert (Hget : forall padrao, get_strip linha campo padrao = None).
    { intros padrao. unfold get_strip. by rewrite Hnone. }
    unfold campos_opcionais in Hcampo.
    apply elem_of_cons in Hcampo as [-> | Hcampo];
      [by rewrite Hget |].
    destruct (get_strip linha "numero_cadastro" ""); [| done].
    cbn [mbind option_bind].
    apply elem_of_cons in Hcampo as [-> | Hcampo];
      [by rewrite Hget |].
    destruct (get_strip linha "numero_empresa" ""); [| done].
    cbn [mbind option_bind].
    apply list_elem_of_singleton in Hcampo as ->. by rewrite Hget. }
  unfold ler_csv_colaboradores.
  destruct (mapM ler_linha reader) as [lidos |] eqn:Hmap; [| done].
  apply mapM_Some_1 in Hmap.
  destruct (Forall2_lookup_l _ _ _ _ _ Hmap Hi) as (o & _ & Ho).
  congruence.
Qed.

Lemma short_row_empties_the_read_witness :
  ler_csv_colaboradores (Some [linha_csv_ex; linha_csv_curta]) = [].
Proof.
  apply (short_row_empties_the_read [linha_csv_ex; linha_csv_curta] 1
           linha_csv_curta "numero_cadastro").
  - reflexivity.
  - vm_compute. reflexivity.
  - apply list_elem_of_here.
  - vm_compute. reflexivity.
Defined.

(** X22: the number of simultaneous requests the prompt accepts lies
    between 1 and 50.  It is the value of the first line typed that is blank,
    which stands for 5, or an integer in that range; the lines before it
    were refused. *)
Theorem num_concurrent_is_in_range entradas n resto :
  pedir_num_concurrent entradas = Some (n, resto) ->
  (1 <= n <= 50)%Z
  /\ exists antes entrada,
       entradas = antes ++ entrada :: resto
       /\ (Py.strip entrada = "" /\ n = 5%Z
           \/ Py.strip entrada <> ""
              /\ Py.int (Py.strip entrada) = Some n)
       /\ Forall (fun recusada =>
                    pedir_num_concurrent [recusada] = None) antes.
Proof.
  induction entradas as [| entrada entradas IH]; [done |].
  cbn [pedir_num_concurrent].
  set (lido := match Py.strip entrada with
               | EmptyString => Some 5%Z
               | String _ _ => Py.int (Py.strip entrada)
               end).
  assert (Hlido : forall m, lido = Some m ->
            Py.strip entrada = "" /\ m = 5%Z
            \/ Py.strip entrada <> "" /\ Py.int (Py.strip entrada) = Some m).
  { intros m. unfold lido. destruct (Py.strip entrada) eqn:Hs.
    - intros [= <-]. by left.
    - intros Hm. by right. }
  assert (Hrec : (forall m, lido = Some m -> (1 <=? m)%Z && (m <=? 50)%Z = false) ->
            pedir_num_concurrent [entrada] = None).
  { intros Hfora. cbn [pedir_num_concurrent]. fold lido.
    destruct lido as [m |]; [| done]. by rewrite (Hfora m eq_refl). }
  destruct lido as [m |] eqn:Hm.
  - destruct ((1 <=? m)%Z && (m <=? 50)%Z) eqn:Hrange.
    + intros [= <- <-]. split; [lia |].
      exists [], entrada. split; [done |]. split; [by apply Hlido | constructor].
    + intros Hresto. destruct (IH Hresto) as (Hn & antes & e & -> & He & Hantes).
      split; [done |]. exists (entrada :: antes), e.
      split; [done |]. split; [done |]. constructor; [| done].
      apply Hrec. by intros m' [= <-].
  - intros Hresto. destruct (IH Hresto) as (Hn & antes & e & -> & He & Hantes).
    split; [done |]. exists (entrada :: antes), e.
    split; [done |]. split; [done |]. constructor; [| done].
    apply Hrec. by intros m'.
Qed.

Lemma num_concurrent_is_in_range_witness :
  (1 <= 8 <= 50)%Z
  /\ exists antes entrada,
       ["0"; "abc"; "51"; " 8 "; "3"] = antes ++ entrada :: ["3"]
       /\ (Py.strip entrada = "" /\ 8%Z = 5%Z
           \/ Py.strip entrada <> ""
              /\ Py.int (Py.strip entrada) = Some 8%Z)
       /\ Forall (fun recusada =>
                    pedir_num_concurrent [recusada] = None) antes.
Proof.
  apply (num_concurrent_is_in_range ["0"; "abc"; "51"; " 8 "; "3"] 8 ["3"]).
  reflexivity.
Defined.

Lemma selecionar_arquivo_csv_Some `{OsPath} arquivos entradas p resto :
  selecionar_arquivo_csv arquivos entradas = Some (Some p, resto) ->
  exists arquivo escolha n,
    arquivos !! Z.to_nat (n - 1) = Some arquivo
    /\ escolha ∈ entradas
    /\ Py.int escolha = Some n
    /\ (1 <= n <= Z.of_nat (length arquivos))%Z
    /\ p = path_join "input_data" arquivo.
Proof.
  destruct arquivos as [| a arquivos];
    [by destruct entradas |].
  induction entradas as [| escolha entradas IH]; [done |].
  cbn [selecionar_arquivo_csv].
  assert (Hresto :
    selecionar_arquivo_csv (a :: arquivos) entradas = Some (Some p, resto) ->
    exists arquivo escolha0 n,
      (a :: arquivos) !! Z.to_nat (n - 1) = Some arquivo
      /\ escolha0 ∈ escolha :: entradas
      /\ Py.int escolha0 = Some n
      /\ (1 <= n <= Z.of_nat (length (a :: arquivos)))%Z
      /\ p = path_join "input_data" arquivo).
  { intros Hr. destruct (IH Hr) as (arq & e & n & ? & ? & ? & ? & ?).
    exists arq, e, n. split; [done |]. split; [by apply list_elem_of_further |].
    done. }
  destruct (Py.int escolha) as [n |] eqn:Hint; [| exact Hresto].
  destruct ((0 <=? n - 1)%Z && (n - 1 <? Z.of_nat (length (a :: arquivos)))%Z)
    eqn:Hrange; [| exact Hresto].
  destruct ((a :: arquivos) !! Z.to_nat (n - 1)) as [arquivo |] eqn:Harq;
    [| done].
  intros [= <- <-]. exists arquivo, escolha, n.
  split; [done |]. split; [apply list_elem_of_here |]. split; [done |].
  split; [lia | done].
Qed.

Lemma listar_arquivos_csv_elem listagem f :
  f ∈ listar_arquivos_csv listagem
  <-> exists nomes,
        listagem = Some nomes /\ f ∈ nomes /\ Py.endswith ".csv" f = true.
Proof.
  unfold listar_arquivos_csv. destruct listagem as [nomes |].
  - rewrite merge_sort_Permutation, list_elem_of_In, filter_In,
      <- list_elem_of_In.
    split; [intros [? ?]; eauto | by intros (? & [= <-] & ? & ?)].
  - split; [by intros ?%elem_of_nil | by intros (? & ? & _)].
Qed.

(** X23: the file the user selects is one of the listing.  The path
    [selecionar_arquivo_csv] returns is input_data joined with a name of the
    directory that ends in .csv, the one at the position the user typed,
    counted from 1 in the sorted listing. *)
Theorem selected_file_is_listed `{OsPath} listagem entradas p resto :
  selecionar_arquivo_csv (listar_arquivos_csv listagem) entradas
  = Some (Some p, resto) ->
  exists nomes arquivo escolha n,
    listagem = Some nomes
    /\ arquivo ∈ nomes
    /\ Py.endswith ".csv" arquivo = true
    /\ escolha ∈ entradas
    /\ Py.int escolha = Some n
    /\ listar_arquivos_csv listagem !! Z.to_nat (n - 1) = Some arquivo
    /\ p = path_join "input_data" arquivo.
Proof.
  intros Hsel.
  apply selecionar_arquivo_csv_Some in Hsel
    as (arquivo & escolha & n & Harq & Hesc & Hint & _ & ->).
  assert (Hin : arquivo ∈ listar_arquivos_csv listagem).
  { apply list_elem_of_lookup. eauto. }
  apply listar_arquivos_csv_elem in Hin as (nomes & -> & Hnome & Hcsv).
  exists nomes, arquivo, escolha, n. done.
Qed.

Lemma selected_file_is_listed_witness :
  exists nomes arquivo escolha n,
    Some ["b.csv"; "notas.txt"; "a.csv"] = Some nomes
    /\ arquivo ∈ nomes
    /\ Py.endswith ".csv" arquivo = true
    /\ escolha ∈ ["x"; "3"; "2"]
    /\ Py.int escolha = Some n
    /\ listar_arquivos_csv (Some ["b.csv"; "notas.txt"; "a.csv"])
         !! Z.to_nat (n - 1) = Some arquivo
    /\ "input_data/b.csv" = path_join (OsPath := path_join_posix)
                              "input_data" arquivo.
Proof.
  apply (selected_file_is_listed (H := path_join_posix)
           (Some ["b.csv"; "notas.txt"; "a.csv"]) ["x"; "3"; "2"]
           "input_data/b.csv" []).
  vm_compute. reflexivity.
Defined.

(** X24: the listing of the input directory is sorted and holds exactly the
    names that end in .csv; a directory that does not exist gives the
    empty listing. *)
Theorem listing_is_sorted listagem :
  Sorted (fun a b => Is_true (String.leb a b)) (listar_arquivos_csv listagem)
  /\ (forall f, f ∈ listar_arquivos_csv listagem
        <-> exists nomes,
              listagem = Some nomes /\ f ∈ nomes
              /\ Py.endswith ".csv" f = true)
  /\ length (listar_arquivos_csv listagem)
     = length (List.filter (Py.endswith ".csv") (default [] listagem)).
Proof.
  split; [| split; [apply listar_arquivos_csv_elem |]].
  - unfold listar_arquivos_csv. destruct listagem as [nomes |]; [| constructor].
    apply Sorted_merge_sort. intros a b.
    destruct (String.leb_total a b) as [Hab | Hba].
    + left. by apply Is_true_true.
    + right. by apply Is_true_true.
  - unfold listar_arquivos_csv. destruct listagem as [nomes |]; [| done].
    by rewrite merge_sort_Permutation.
Qed.

(** ** The numbers of the request *)

Lemma digit_val_nonneg c : Py.isdigit_char c = true -> (0 <= Py.digit_val c)%Z.
Proof.
  unfold Py.isdigit_char, Py.digit_val. rewrite andb_true_iff, !N.leb_le. lia.
Qed.

Lemma int_digits_digits s : forall b acc,
  Py.all_chars Py.isdigit_char s = true -> (0 <= acc)%Z ->
  (s <> "" \/ b = true) ->
  exists v, Py.int_digits b acc s = Some v /\ (0 <= v)%Z.
Proof.
  induction s as [| c s IH]; intros b acc Hs Hacc Hb.
  - destruct Hb as [? | ->]; [done |]. simpl. eauto.
  - simpl in Hs. apply andb_true_iff in Hs as [Hc Hs].
    cbn [Py.int_digits]. rewrite Hc.
    apply IH; [done | pose proof (digit_val_nonneg c Hc); lia | by right].
Qed.

Lemma isdigit_int s :
  Py.isdigit s = true -> exists v, Py.int s = Some v /\ (0 <= v)%Z.
Proof.
  intros Hs. pose proof (isdigit_all_chars _ Hs) as Hall.
  assert (Hstrip : Py.strip s = s).
  { apply strip_id. revert Hall. apply all_chars_impl.
    intros c Hc. by rewrite (isdigit_not_space _ Hc). }
  destruct (int_digits_digits s false 0 Hall) as (v & Hv & Hpos);
    [lia | left; by destruct s |].
  exists v. split; [| done]. unfold Py.int. rewrite Hstrip.
  destruct s as [| c r]; [done |].
  simpl in Hall. apply andb_true_iff in Hall as [Hc _].
  apply isdigit_char_cases in Hc.
  repeat (apply elem_of_cons in Hc as [-> | Hc]; [exact Hv |]).
  by apply elem_of_nil in Hc.
Qed.

Lemma isdigit_sem_hyphen s : Py.isdigit s = true -> sem_char "-" s.
Proof.
  intros Hs. apply isdigit_all_chars in Hs. revert Hs.
  apply all_chars_impl. intros c Hc. apply isdigit_char_cases in Hc.
  repeat (apply elem_of_cons in Hc as [-> | Hc]; [reflexivity |]).
  by apply elem_of_nil in Hc.
Qed.

Lemma validar_numero_isdigit s padrao :
  Py.isdigit s = true ->
  Py.int s = Some (validar_numero s padrao) /\ (0 <= validar_numero s padrao)%Z.
Proof.
  intros Hs. unfold validar_numero. rewrite Hs.
  destruct (isdigit_int s Hs) as (v & -> & Hv). done.
Qed.

(** X25: the numbers of the request come from the identifier.  For a record
    whose identifier is three runs of digits between hyphens and whose
    three override fields are blank, every request carries the first run as
    the company, the second as the kind of collaborator and the third as the
    registration number, none of them negative. *)
Theorem payload_from_identifier
    base_url max_retries servidor colab e t c url corpo :
  c_id_colaborador colab = e +:+ "-" +:+ t +:+ "-" +:+ c ->
  Py.isdigit e = true -> Py.isdigit t = true -> Py.isdigit c = true ->
  Py.strip (c_numero_empresa colab) = "" ->
  Py.strip (c_tipo_colaborador colab) = "" ->
  Py.strip (c_numero_cadastro colab) = "" ->
  Put url corpo ∈ (enviar_programacao base_url max_retries servidor colab).1 ->
  Py.int e = Some (p_numeroEmpresa corpo)
  /\ Py.int t = Some (p_tipoColaborador corpo)
  /\ Py.int c = Some (p_numeroCadastro corpo)
  /\ (0 <= p_numeroEmpresa corpo)%Z /\ (0 <= p_tipoColaborador corpo)%Z
  /\ (0 <= p_numeroCadastro corpo)%Z.
Proof.
  intros Hid He Ht Hc Hemp Htipo Hcad Hput.
  destruct (enviar_programacao_inv base_url max_retries servidor colab)
    as (efs & r & Henv & Hefs & _).
  rewrite Henv in Hput. simpl in Hput.
  rewrite Forall_forall in Hefs. specialize (Hefs _ Hput).
  destruct Hefs as (codigo & _ & _ & ->).
  unfold payload_envio. cbn [p_numeroEmpresa p_tipoColaborador p_numeroCadastro].
  rewrite Hid, Hemp, Htipo, Hcad.
  change (e +:+ "-" +:+ t +:+ "-" +:+ c)
    with (e +:+ String "-" (t +:+ String "-" c)).
  rewrite (split_app_sep _ _ _ (isdigit_sem_hyphen _ He)),
    (split_app_sep _ _ _ (isdigit_sem_hyphen _ Ht)),
    (split_sem _ _ (isdigit_sem_hyphen _ Hc)).
  assert (He' : campo_ou_parte "" [e; t; c] 0 "303" = e) by (by destruct e).
  assert (Ht' : campo_ou_parte "" [e; t; c] 1 "1" = t) by (by destruct t).
  assert (Hc' : campo_ou_parte "" [e; t; c] 2 "1" = c) by (by destruct c).
  rewrite He', Ht', Hc'.
  destruct (validar_numero_isdigit e 303 He) as [? ?].
  destruct (validar_numero_isdigit t 1 Ht) as [? ?].
  destruct (validar_numero_isdigit c 1 Hc) as [? ?].
  done.
Qed.

Lemma payload_from_identifier_witness :
  Py.int "303" = Some (p_numeroEmpresa payload_ex)
  /\ Py.int "1" = Some (p_tipoColaborador payload_ex)
  /\ Py.int "16774" = Some (p_numeroCadastro payload_ex)
  /\ (0 <= p_numeroEmpresa payload_ex)%Z
  /\ (0 <= p_tipoColaborador payload_ex)%Z
  /\ (0 <= p_numeroCadastro payload_ex)%Z.
Proof.
  apply (payload_from_identifier base_url_senior 3
           (fun _ => Response 200 "ok")
           {| c_id_colaborador := "303-1-16774"; c_nome := "ANA";
              c_data := "01/10/2025"; c_codigo_horario := "1234";
              c_numero_cadastro := ""; c_numero_empresa := " ";
              c_tipo_colaborador := "" |}
           "303" "1" "16774" url_ex payload_ex).
  - reflexivity.
  - reflexivity.
  - reflexivity.
  - reflexivity.
  - reflexivity.
  - reflexivity.
  - reflexivity.
  - vm_compute. apply list_elem_of_here.
Defined.

(** ** The detector of the web front end *)

Lemma lower_upper_char c : Py.lower_char (Py.upper_char c) = Py.lower_char c.
Proof. destruct c as [[] [] [] [] [] [] [] []]; reflexivity. Qed.

Lemma lower_upper s : Py.lower (Py.upper s) = Py.lower s.
Proof.
  induction s as [| c s IH]; [done |]. simpl. by rewrite lower_upper_char, IH.
Qed.

Lemma isspace_lower_char c : Py.isspace (Py.lower_char c) = Py.isspace c.
Proof. destruct c as [[] [] [] [] [] [] [] []]; reflexivity. Qed.

Lemma lower_lstrip s : Py.lower (Py.lstrip s) = Py.lstrip (Py.lower s).
Proof.
  induction s as [| c s IH]; [done |]. cbn [Py.lstrip Py.lower].
  rewrite isspace_lower_char. by destruct (Py.isspace c).
Qed.

Lemma lower_rstrip s : Py.lower (Py.rstrip s) = Py.rstrip (Py.lower s).
Proof.
  induction s as [| c s IH]; [done |]. cbn [Py.rstrip Py.lower].
  rewrite <- IH, isspace_lower_char.
  destruct (Py.rstrip s); [by destruct (Py.isspace c) | done].
Qed.

Lemma lower_strip s : Py.lower (Py.strip s) = Py.strip (Py.lower s).
Proof. unfold Py.strip. by rewrite lower_rstrip, lower_lstrip. Qed.

Lemma prefix_cons a sub c s :
  String.prefix (String a sub) (String c s) = true
  <-> a = c /\ String.prefix sub s = true.
Proof.
  cbn [String.prefix]. destruct (ascii_dec a c) as [-> | Hne].
  - split; [done | by intros [_ ?]].
  - split; [done | by intros [? _]].
Qed.

Lemma prefix_lower sub s :
  String.prefix sub s = true ->
  String.prefix (Py.lower sub) (Py.lower s) = true.
Proof.
  revert s. induction sub as [| a sub IH]; intros s; [by destruct s |].
  destruct s as [| c s]; [done |]. cbn [Py.lower].
  rewrite !prefix_cons. intros [-> Hp]. split; [done | by apply IH].
Qed.

Lemma contains_lower sub s :
  Py.contains sub s = true -> Py.contains (Py.lower sub) (Py.lower s) = true.
Proof.
  induction s as [| c s IH].
  - cbn [Py.contains Py.lower]. rewrite !orb_false_r. apply prefix_lower.
  - rewrite contains_cons. cbn [Py.lower]. rewrite contains_cons.
    intros [Hp | Hc]%orb_true_iff; apply orb_true_iff.
    + left. exact (prefix_lower sub (String c s) Hp).
    + right. by apply IH.
Qed.

Lemma contains_lstrip a sub s :
  Py.isspace a = false ->
  Py.contains (String a sub) s = true ->
  Py.contains (String a sub) (Py.lstrip s) = true.
Proof.
  intros Ha. induction s as [| c s IH]; [done |].
  cbn [Py.lstrip]. destruct (Py.isspace c) eqn:Hc; [| done].
  rewrite contains_cons. intros [Hp | Hs]%orb_true_iff; [| by apply IH].
  apply prefix_cons in Hp as [-> _]. congruence.
Qed.

Lemma prefix_rstrip sub s :
  termina_sem_espaco sub = true ->
  String.prefix sub s = true -> String.prefix sub (Py.rstrip s) = true.
Proof.
  revert s. induction sub as [| a sub IH]; intros s Hfim; [done |].
  destruct s as [| c s]; [done |].
  rewrite prefix_cons. intros [-> Hp]. cbn [Py.rstrip].
  destruct sub as [| b sub].
  - cbn [termina_sem_espaco] in Hfim. apply negb_true_iff in Hfim.
    rewrite Hfim. destruct (Py.rstrip s); by apply prefix_cons.
  - specialize (IH s Hfim Hp).
    destruct (Py.rstrip s) as [| d r]; [done |]. by apply prefix_cons.
Qed.

Lemma contains_rstrip a sub s :
  termina_sem_espaco (String a sub) = true ->
  Py.contains (String a sub) s = true ->
  Py.contains (String a sub) (Py.rstrip s) = true.
Proof.
  intros Hfim. induction s as [| c s IH]; [done |].
  rewrite contains_cons. intros [Hp | Hs]%orb_true_iff.
  - pose proof (prefix_rstrip _ _ Hfim Hp) as Hr.
    destruct (Py.rstrip (String c s)) as [| d r]; [done |].
    rewrite contains_cons, Hr. done.
  - specialize (IH Hs). cbn [Py.rstrip].
    destruct (Py.rstrip s) as [| d r]; [done |].
    rewrite contains_cons, IH. apply orb_true_r.
Qed.

Lemma contains_strip a sub s :
  Py.isspace a = false ->
  termina_sem_espaco (String a sub) = true ->
  Py.contains (String a sub) s = true ->
  Py.contains (String a sub) (Py.strip s) = true.
Proof.
  intros Ha Hfim Hs. unfold Py.strip.
  by apply contains_rstrip, contains_lstrip.
Qed.

(** X26: the detector of the web front end puts the flat format first.  A
    first line that names id_colaborador, in any mix of upper and lower
    case, is detected as "api", whatever else the line holds; and the
    detector never answers anything but "api" or "grid". *)
Theorem web_detector_flat_first linha :
  Py.contains "ID_COLABORADOR" (Py.upper linha) = true ->
  App.detectar_formato_csv (Some linha) = "api"
  /\ forall arquivo,
       App.detectar_formato_csv arquivo = "api"
       \/ App.detectar_formato_csv arquivo = "grid".
Proof.
  intros Hid. split.
  - unfold App.detectar_formato_csv. cbn zeta.
    assert (Hlow : Py.contains "id_colaborador" (Py.lower (Py.strip linha))
                   = true).
    { rewrite lower_strip. apply contains_strip; [done | done |].
      rewrite <- lower_upper.
      exact (contains_lower "ID_COLABORADOR" (Py.upper linha) Hid). }
    by rewrite Hlow.
  - intros [l |]; [| by left]. unfold App.detectar_formato_csv. cbn zeta.
    destruct (_ || _); [by left |].
    destruct (_ && _); [by right |].
    destruct (Py.contains "escala" _); [by right | by left].
Qed.

Lemma web_detector_flat_first_witness :
  App.detectar_formato_csv
    (Some "Id_Colaborador;NOME;MAT;COD. ESCALA;data;codigo_horario") = "api"
  /\ forall arquivo,
       App.detectar_formato_csv arquivo = "api"
       \/ App.detectar_formato_csv arquivo = "grid".
Proof.
  apply (web_detector_flat_first
           "Id_Colaborador;NOME;MAT;COD. ESCALA;data;codigo_horario").
  vm_compute. reflexivity.
Defined.

(** ** The batch runs to its end *)

Lemma filter_length_zero {A} (p : A -> bool) l x :
  length (List.filter p l) = 0 -> x ∈ l -> p x = false.
Proof.
  intros Hlen Hx. destruct (p x) eqn:Hp; [| done].
  assert (Hin : In x (List.filter p l)).
  { apply filter_In. split; [by apply list_elem_of_In | done]. }
  destruct (List.filter p l); [done | discriminate Hlen].
Qed.

Lemma filter_length_pos {A} (p : A -> bool) l :
  0 < length (List.filter p l) -> exists i x, l !! i = Some x /\ p x = true.
Proof.
  destruct (List.filter p l) as [| x xs] eqn:Hf; [simpl; lia |]. intros _.
  assert (Hin : In x (List.filter p l)) by (rewrite Hf; by left).
  apply filter_In in Hin as [Hin Hp].
  apply list_elem_of_In, list_elem_of_lookup in Hin as [i Hi]. eauto.
Qed.

(** X27: the batch never gets stuck.  In every state the batch can reach
    under a limit of at least one, either some task can take a step, or
    every task is past its [release], and then the semaphore is back at the
    limit. *)
Theorem batch_never_deadlocks max_retries n max_concurrent s :
  alcancavel max_retries n max_concurrent s ->
  1 <= max_concurrent ->
  (exists s', passo_lote max_retries s s')
  \/ (Forall (fun f => f = Concluida) (tarefas s)
      /\ semaforo s = max_concurrent
      /\ length (tarefas s) = n).
Proof.
  intros Hreach Hmax.
  pose proof (alcancavel_conserva _ _ _ _ Hreach) as Hinv.
  unfold vagas_conservadas, vagas_tomadas in Hinv.
  destruct (length (List.filter com_vaga (tarefas s))) as [| k] eqn:Hvagas.
  - destruct (length (List.filter na_fila (tarefas s))) as [| q] eqn:Hfila.
    + right. split; [| split; [lia |]].
      * apply Forall_forall. intros f Hf.
        pose proof (filter_length_zero _ _ _ Hvagas Hf) as Hcom.
        pose proof (filter_length_zero _ _ _ Hfila Hf) as Hna.
        by destruct f.
      * by apply (alcancavel_length max_retries n max_concurrent).
    + left.
      destruct (filter_length_pos na_fila (tarefas s)) as (i & f & Hi & Hf);
        [lia |].
      destruct f as [| t | t |]; try done.
      destruct (semaforo s) as [| v] eqn:Hsem; [lia |].
      eexists. by apply (passo_acquire max_retries i s v).
  - left.
    destruct (filter_length_pos com_vaga (tarefas s)) as (i & f & Hi & Hf);
      [lia |].
    destruct f as [| t | t |]; try done.
    + eexists. by apply (passo_release max_retries i s t).
    + eexists. by apply (passo_acorda max_retries i s t).
Qed.

Lemma batch_never_deadlocks_witness :
  (exists s', passo_lote 3 lote_cheio s')
  \/ (Forall (fun f => f = Concluida) (tarefas lote_cheio)
      /\ semaforo lote_cheio = 5
      /\ length (tarefas lote_cheio) = 100).
Proof.
  apply (batch_never_deadlocks 3 100 5 lote_cheio).
  - exact lote_cheio_alcancavel.
  - lia.
Defined.

Lemma sum_list_insert (f : fase -> nat) l i x y :
  l !! i = Some x ->
  sum_list (f <$> <[i := y]> l) + f x = sum_list (f <$> l) + f y.
Proof.
  revert i. induction l as [| a l IH]; intros [| i] Hi; try done.
  - injection Hi as ->. csimpl. lia.
  - csimpl in *. specialize (IH _ Hi). lia.
Qed.

Lemma passo_lote_sono max_retries s s' :
  passo_lote max_retries s s' ->
  sono_valido max_retries s -> sono_valido max_retries s'.
Proof.
  unfold sono_valido.
  intros [i s0 k Hi Hs | i s0 t Hi Ht | i s0 t Hi | i s0 t Hi] Hok; simpl;
    by apply Forall_insert.
Qed.

Lemma passo_lote_medida max_retries s s' :
  passo_lote max_retries s s' ->
  sono_valido max_retries s ->
  medida max_retries s' < medida max_retries s.
Proof.
  unfold medida, sono_valido.
  intros [i s0 k Hi Hs | i s0 t Hi Ht | i s0 t Hi | i s0 t Hi] Hok; simpl;
    pose proof (fun y => sum_list_insert (passos_restantes max_retries)
                           (tarefas s0) i _ y Hi) as Hsum.
  - specialize (Hsum (Enviando 1)). simpl in Hsum. lia.
  - specialize (Hsum (Dormindo t)). simpl in Hsum. lia.
  - rewrite Forall_forall in Hok.
    assert (Ht : t < max_retries).
    { apply (Hok (Dormindo t)). apply list_elem_of_lookup. eauto. }
    specialize (Hsum (Enviando (S t))). simpl in Hsum. lia.
  - specialize (Hsum Concluida). simpl in Hsum. lia.
Qed.

Lemma nsteps_medida max_retries k s s' :
  nsteps (passo_lote max_retries) k s s' ->
  sono_valido max_retries s ->
  k + medida max_retries s' <= medida max_retries s.
Proof.
  induction 1 as [s | k s s1 s' Hstep _ IH]; intros Hok; [simpl; lia |].
  pose proof (passo_lote_medida _ _ _ Hstep Hok) as Hlt.
  specialize (IH (passo_lote_sono _ _ _ Hstep Hok)). lia.
Qed.

(** X28: a batch ends.  A run of the batch of [n] records takes at most
    [n * (2 * max_retries + 2)] steps, whatever the order the event loop
    picks the tasks in; with each step what is left to do gets less. *)
Theorem batch_runs_are_bounded max_retries n max_concurrent k s :
  nsteps (passo_lote max_retries) k (lote_inicial n max_concurrent) s ->
  k + medida max_retries s <= n * (2 * max_retries + 2).
Proof.
  intros Hrun.
  assert (Hini : medida max_retries (lote_inicial n max_concurrent)
                 = n * (2 * max_retries + 2)).
  { unfold medida, lote_inicial. cbn [tarefas].
    rewrite fmap_replicate, sum_list_replicate. cbn [passos_restantes]. lia. }
  rewrite <- Hini. apply nsteps_medida; [done |].
  unfold sono_valido, lote_inicial. cbn [tarefas].
  apply Forall_replicate. done.
Qed.

Lemma batch_runs_are_bounded_witness :
  5 + medida 3 lote_cheio <= 100 * (2 * 3 + 2).
Proof.
  apply (batch_runs_are_bounded 3 100 5 5 lote_cheio).
  eapply nsteps_l; [apply (passo_acquire 3 0 _ 4); reflexivity |].
  eapply nsteps_l; [apply (passo_acquire 3 1 _ 3); reflexivity |].
  eapply nsteps_l; [apply (passo_acquire 3 2 _ 2); reflexivity |].
  eapply nsteps_l; [apply (passo_acquire 3 3 _ 1); reflexivity |].
  eapply nsteps_l; [apply (passo_acquire 3 4 _ 0); reflexivity |].
  exact (nsteps_O _ lote_cheio).
Defined.
